(** * SecurePay Portal: authentication, rate limiting and payment engine

    A shallow embedding of the Express server of the SecurePay portal, in
    its two variants: the base server (MongoDB only) and the server with
    the in-memory fallback store and signed tokens.  JavaScript objects
    are finite maps from field names to values, collections are lists of
    documents in insertion order, and every handler is a function from
    the server state and the request to the new state and the response.

    Conventions of the model:
    - a request carries the one clock reading and the random draws its
      handling consumes, so that [Date.now()], [crypto.randomUUID()],
      [crypto.randomBytes] and [Math.random()] are inputs;
    - request bodies are flat objects, as the schemas of [shared/types.ts]
      require them; an ObjectId is its hex string;
    - MongoDB is a library: a collection behind it answers the same
      filters as the in-memory store, and in addition enforces the unique
      indexes the server creates, honours [sort] and [limit] on a cursor,
      and removes the sessions whose [expires_at] has passed;
    - [jsonwebtoken], [bcryptjs] and the e-mail check of [zod] are the
      fields of the class [Platform]. *)

From Stdlib Require Import ZArith Floats String Ascii List Sorted Lia.
From stdpp Require Import base gmap strings list pretty.

Open Scope Z_scope.

(** ** JavaScript values and objects *)

(** The values the handlers store and compare.  Numbers are binary64
    floats, as in JavaScript; a [Date] is its time value in ms. *)
Inductive value :=
  | VUndef
  | VNull
  | VBool (b : bool)
  | VNum (x : float)
  | VStr (s : string)
  | VDate (ms : Z).

Abbreviation doc := (gmap string value).

(** [d[k]]: a missing property reads as [undefined]. *)
Definition get (d : doc) (k : string) : value := default VUndef (d !! k).

(** [{...a, ...b}]: the properties of [b] win. *)
Definition spread (a b : doc) : doc := b ∪ a.

Definition truthy (v : value) : bool :=
  match v with
  | VUndef | VNull => false
  | VBool b => b
  | VNum x => negb (PrimFloat.eqb x 0 || PrimFloat.is_nan x)
  | VStr s => negb (String.eqb s "")
  | VDate _ => true
  end.

(** [a || b] *)
Definition jsOr (a b : value) : value := if truthy a then a else b.

(** [a === b].  Two [Date]s are two objects, never identical. *)
Definition strictEq (a b : value) : bool :=
  match a, b with
  | VUndef, VUndef | VNull, VNull => true
  | VBool x, VBool y => Bool.eqb x y
  | VNum x, VNum y => PrimFloat.eqb x y
  | VStr x, VStr y => String.eqb x y
  | _, _ => false
  end.

(** [a > b] and [a < b] on operands of one kind; [undefined] compares
    false with everything.  The handlers only compare dates. *)
Definition jsGt (a b : value) : bool :=
  match a, b with
  | VDate x, VDate y => bool_decide (x > y)
  | VNum x, VNum y => PrimFloat.ltb y x
  | VStr x, VStr y => String.ltb y x
  | _, _ => false
  end.

Definition jsLt (a b : value) : bool := jsGt b a.

(** ** Strings *)

Definition chars (s : string) : list ascii := list_ascii_of_string s.

Definition inRange (lo hi c : ascii) : bool :=
  (nat_of_ascii lo <=? nat_of_ascii c)%nat && (nat_of_ascii c <=? nat_of_ascii hi)%nat.

Definition isLower (c : ascii) : bool := inRange "a" "z" c.
Definition isUpper (c : ascii) : bool := inRange "A" "Z" c.
Definition isDigit (c : ascii) : bool := inRange "0" "9" c.
Definition isLetter (c : ascii) : bool := isLower c || isUpper c.

(** The class [\s] on 8-bit code units: tab, LF, VT, FF, CR, space, NBSP. *)
Definition isSpace (c : ascii) : bool :=
  let n := nat_of_ascii c in
  ((9 <=? n)%nat && (n <=? 13)%nat) || (n =? 32)%nat || (n =? 160)%nat.

Definition upperChar (c : ascii) : ascii :=
  if isLower c then ascii_of_nat (nat_of_ascii c - 32) else c.

Definition lowerChar (c : ascii) : ascii :=
  if isUpper c then ascii_of_nat (nat_of_ascii c + 32) else c.

(** [s.toUpperCase()] on the letters a-z. *)
Fixpoint toUpperCase (s : string) : string :=
  match s with
  | EmptyString => EmptyString
  | String c s' => String (upperChar c) (toUpperCase s')
  end.

(** [s.startsWith(p)] *)
Definition startsWith (s p : string) : bool := String.prefix p s.

(** [s.split(sep)] for a separator of one character. *)
Fixpoint split (sep : ascii) (s : string) : list string :=
  match s with
  | EmptyString => [EmptyString]
  | String c s' =>
      if Ascii.eqb c sep then EmptyString :: split sep s'
      else match split sep s' with
           | [] => [String c EmptyString]
           | w :: ws => String c w :: ws
           end
  end.

(** [s.slice(-n)]: the last [n] characters, or all of [s] when shorter. *)
Definition sliceLast (n : nat) (s : string) : string :=
  substring (String.length s - n) n s.

(** [/^[class]{n,}$/.test(s)] *)
Definition allOf (p : ascii → bool) (s : string) : bool := forallb p (chars s).

Definition atLeast (n : nat) (p : ascii → bool) (s : string) : bool :=
  (n <=? String.length s)%nat && allOf p s.

Definition hexDigit (n : N) : ascii :=
  match n with
  | 0 => "0" | 1 => "1" | 2 => "2" | 3 => "3" | 4 => "4" | 5 => "5"
  | 6 => "6" | 7 => "7" | 8 => "8" | 9 => "9" | 10 => "a" | 11 => "b"
  | 12 => "c" | 13 => "d" | 14 => "e" | _ => "f"
  end%char%N.

(** [buffer.toString('hex')] *)
Fixpoint toHex (bs : list Byte.byte) : string :=
  match bs with
  | [] => EmptyString
  | b :: bs' =>
      let n := Byte.to_N b in
      String (hexDigit (n / 16)) (String (hexDigit (n mod 16)) (toHex bs'))
  end.

(** ** The store

    [db.collection(name)] gives the operations [findOne], [insertOne],
    [updateOne], [find] and [findOneAndUpdate].  The in-memory store of
    [createInMemoryDb] is embedded as written.  The MongoDB driver is not
    part of the repository: it is modelled by the same filter matching,
    to which it adds the unique indexes that [connectToDatabase] creates
    and the ordering and capping of cursors. *)

(** A condition of a filter: a plain value, an object with [$gt] and/or
    [$lt], or a [RegExp] (given by its [test]). *)
Inductive cond :=
  | QEq (v : value)
  | QOps (gt lt : option value)
  | QRegExp (test : value → bool).

Abbreviation query := (list (string * cond)).

Definition matchCond (qv : cond) (dv : value) : bool :=
  match qv with
  | QOps None None => false
  | QOps gt lt =>
      from_option (jsGt dv) true gt && from_option (jsLt dv) true lt
  | QRegExp test => test dv
  | QEq v => strictEq v dv
  end.

(** [match(doc, query)] of [createInMemoryDb]. *)
Fixpoint match_ (d : doc) (q : query) : bool :=
  match q with
  | [] => true
  | (key, qv) :: q' => if matchCond qv (get d key) then match_ d q' else false
  end.

Inductive Backend := InMemory | Mongo.

Record index := { ix_field : string; ix_unique : bool; ix_sparse : bool }.

Record Db := {
  backend : Backend;
  collections : gmap string (list doc)
}.

Definition coll (db : Db) (name : string) : list doc :=
  default [] (collections db !! name).

Definition setColl (db : Db) (name : string) (c : list doc) : Db :=
  {| backend := backend db;
     collections := <[name := c]> (collections db) |}.

Definition createInMemoryDb : Db :=
  {| backend := InMemory;
     collections := {[ "users" := []; "user_sessions" := [];
                       "payment_transactions" := [] ]} |}.

(** What a store call can throw. *)
Inductive Error :=
  | DuplicateKey (collection : string)
  | BSONError.

Inductive Result (A : Type) :=
  | Ok (a : A)
  | Throw (e : Error).
Arguments Ok {A} a.
Arguments Throw {A} e.

(** The key under which a unique index of MongoDB files a document: a
    missing field counts as [null], unless the index is sparse. *)
Definition ixKey (ix : index) (d : doc) : option value :=
  match d !! ix_field ix with
  | Some VUndef => Some VNull
  | Some v => Some v
  | None => if ix_sparse ix then None else Some VNull
  end.

Definition bsonEq (a b : value) : bool :=
  match a, b with
  | VNull, VNull => true
  | VBool x, VBool y => Bool.eqb x y
  | VNum x, VNum y => PrimFloat.eqb x y
  | VStr x, VStr y => String.eqb x y
  | VDate x, VDate y => Z.eqb x y
  | _, _ => false
  end.

Definition collides (ix : index) (d1 d2 : doc) : bool :=
  match ixKey ix d1, ixKey ix d2 with
  | Some a, Some b => bsonEq a b
  | _, _ => false
  end.

Definition idIndex : index :=
  {| ix_field := "_id"; ix_unique := true; ix_sparse := false |}.

(** The indexes [connectToDatabase] creates on MongoDB (the index on
    [user_id] and the expiry index on [expires_at] are not unique). *)
Definition mongoIndexes : gmap string (list index) :=
  {[ "users" :=
       [ {| ix_field := "email"; ix_unique := true; ix_sparse := false |};
         {| ix_field := "username"; ix_unique := true; ix_sparse := true |} ];
     "user_sessions" :=
       [ {| ix_field := "session_token"; ix_unique := true; ix_sparse := false |};
         {| ix_field := "expires_at"; ix_unique := false; ix_sparse := false |} ];
     "payment_transactions" :=
       [ {| ix_field := "user_id"; ix_unique := false; ix_sparse := false |};
         {| ix_field := "reference_number"; ix_unique := true; ix_sparse := false |} ] ]}.

(** The indexes of a collection of MongoDB; [_id] is always unique. *)
Definition ixsOf (name : string) : list index :=
  idIndex :: default [] (mongoIndexes !! name).

(** Some unique index already files a document under the key of [d]. *)
Definition violates (ixs : list index) (c : list doc) (d : doc) : bool :=
  existsb (fun ix => ix_unique ix && existsb (fun d' => collides ix d' d) c) ixs.

Definition findIndex (c : list doc) (q : query) : option nat :=
  fst <$> list_find (λ d, match_ d q = true) c.

Definition findOne (db : Db) (name : string) (q : query) : option doc :=
  snd <$> list_find (λ d, match_ d q = true) (coll db name).

(** The copy [insertOne] stores: [{...doc}], with [_id] set to [freshId]
    when the document has none.  [freshId] is the [crypto.randomUUID()]
    of the in-memory store, or the ObjectId the driver generates. *)
Definition stored (d : doc) (freshId : string) : doc :=
  if decide (is_Some (d !! "_id")) then d else <["_id" := VStr freshId]> d.

(** [insertOne(doc)].  The in-memory store pushes the copy whatever it
    holds already. *)
Definition insertOne (db : Db) (name : string) (d : doc) (freshId : string)
    : Result (Db * value) :=
  let toInsert := stored d freshId in
  match backend db with
  | InMemory =>
      Ok (setColl db name (coll db name ++ [toInsert]), get toInsert "_id")
  | Mongo =>
      if violates (ixsOf name) (coll db name) toInsert
      then Throw (DuplicateKey name)
      else Ok (setColl db name (coll db name ++ [toInsert]), get toInsert "_id")
  end.

(** The unique indexes whose field a [$set] writes. *)
Definition touched (set : doc) (ixs : list index) : list index :=
  List.filter (λ ix, bool_decide (is_Some (set !! ix_field ix))) ixs.

(** The collection with the document at [idx] merged with [$set].
    MongoDB refuses the update when a key it changes is taken. *)
Definition applySet (db : Db) (name : string) (idx : nat) (old set : doc)
    : Result (Db * doc) :=
  let new := spread old set in
  match backend db with
  | InMemory => Ok (setColl db name (<[idx := new]> (coll db name)), new)
  | Mongo =>
      if violates (touched set (ixsOf name)) (delete idx (coll db name)) new
      then Throw (DuplicateKey name)
      else Ok (setColl db name (<[idx := new]> (coll db name)), new)
  end.

(** [updateOne(filter, {$set})], giving [matchedCount]. *)
Definition updateOne (db : Db) (name : string) (filter : query) (set : doc)
    : Result (Db * Z) :=
  match list_find (λ d, match_ d filter = true) (coll db name) with
  | None => Ok (db, 0)
  | Some (idx, old) =>
      match applySet db name idx old set with
      | Ok (db', _) => Ok (db', 1)
      | Throw e => Throw e
      end
  end.

(** [findOneAndUpdate(filter, {$set}, {returnDocument: 'after'})], giving
    the [value] of the result. *)
Definition findOneAndUpdate (db : Db) (name : string) (filter : query) (set : doc)
    : Result (Db * option doc) :=
  match list_find (λ d, match_ d filter = true) (coll db name) with
  | None => Ok (db, None)
  | Some (idx, old) =>
      match applySet db name idx old set with
      | Ok (db', new) => Ok (db', Some new)
      | Throw e => Throw e
      end
  end.

(** Cursors: [find(filter)], then [sort], [limit], [toArray].  In the
    in-memory store [sort()] and [limit()] return the cursor itself. *)
Record Cursor := {
  cur_backend : Backend;
  cur_results : list doc;
  cur_sort : option string;
  cur_limit : option nat
}.

Definition find (db : Db) (name : string) (filter : query) : Cursor :=
  {| cur_backend := backend db;
     cur_results := List.filter (fun d => match_ d filter) (coll db name);
     cur_sort := None;
     cur_limit := None |}.

(** [sort({field: -1})] *)
Definition sort (field : string) (c : Cursor) : Cursor :=
  match cur_backend c with
  | InMemory => c
  | Mongo => {| cur_backend := Mongo; cur_results := cur_results c;
                cur_sort := Some field; cur_limit := cur_limit c |}
  end.

Definition limit (n : nat) (c : Cursor) : Cursor :=
  match cur_backend c with
  | InMemory => c
  | Mongo => {| cur_backend := Mongo; cur_results := cur_results c;
                cur_sort := cur_sort c; cur_limit := Some n |}
  end.

Definition dateOf (field : string) (d : doc) : option Z :=
  match get d field with
  | VDate ms => Some ms
  | _ => None
  end.

(** Descending order of MongoDB on a date field: later dates first, and
    documents without a date after all dates. *)
Definition before (field : string) (x y : doc) : bool :=
  match dateOf field x, dateOf field y with
  | Some a, Some b => bool_decide (b < a)
  | Some _, None => true
  | None, _ => false
  end.

Fixpoint insertDesc (field : string) (d : doc) (l : list doc) : list doc :=
  match l with
  | [] => [d]
  | x :: l' =>
      if before field x d then x :: insertDesc field d l' else d :: l
  end.

Definition sortDesc (field : string) (l : list doc) : list doc :=
  foldr (insertDesc field) [] l.

Definition toArray (c : Cursor) : list doc :=
  match cur_backend c with
  | InMemory => cur_results c
  | Mongo =>
      let sorted :=
        match cur_sort c with
        | Some f => sortDesc f (cur_results c)
        | None => cur_results c
        end in
      match cur_limit c with
      | Some n => take n sorted
      | None => sorted
      end
  end.

(** ** Rate limiter

    [rateLimitMap] is a [Map<string, {count, resetTime}>]; [Date.now()] is
    passed in as [now]. *)

Record RateEntry := { count : Z; resetTime : Z }.

Definition checkRateLimit (now : Z) (key : string) (maxRequests windowMs : Z)
    (rateLimitMap : gmap string RateEntry) : gmap string RateEntry * bool :=
  let userLimit := rateLimitMap !! key in
  match userLimit with
  | Some e =>
      if bool_decide (now > resetTime e) then
        (<[key := {| count := 1; resetTime := now + windowMs |}]> rateLimitMap, true)
      else if bool_decide (count e >= maxRequests) then
        (rateLimitMap, false)
      else
        (<[key := {| count := count e + 1; resetTime := resetTime e |}]> rateLimitMap, true)
  | None =>
      (<[key := {| count := 1; resetTime := now + windowMs |}]> rateLimitMap, true)
  end.

(** A call of the limiter, and a run of calls over the shared map. *)
Record RateCall := { rc_now : Z; rc_key : string; rc_max : Z; rc_window : Z }.

Definition rateStep (m : gmap string RateEntry) (c : RateCall) :=
  checkRateLimit (rc_now c) (rc_key c) (rc_max c) (rc_window c) m.

(** The answers given to the calls made with key [k], in order. *)
Fixpoint answersFor (k : string) (m : gmap string RateEntry) (cs : list RateCall)
    : gmap string RateEntry * list bool :=
  match cs with
  | [] => (m, [])
  | c :: cs' =>
      let '(m1, b) := rateStep m c in
      let '(m2, bs) := answersFor k m1 cs' in
      (m2, if bool_decide (rc_key c = k) then b :: bs else bs)
  end.

(** ** What the server takes from its libraries

    [jsonwebtoken], [bcryptjs], the ObjectId of [bson], the e-mail check
    of [zod], and the environment switch [SESSION_STRICT_BINDING]. *)
Class Platform := {
  (** [jwt.sign({sub}, JWT_SECRET, {expiresIn: '1h'})] at a clock reading *)
  jwt_sign : string → Z → string;
  (** [jwt.verify(token, JWT_SECRET)] at a clock reading: [None] when it
      throws, else the [sub] of the payload, if it has one *)
  jwt_verify : string → Z → option (option string);
  (** [bcrypt.hash(password, 12)] with the salt it draws *)
  bcrypt_hash : string → string → string;
  bcrypt_compare : string → string → bool;
  (** [new ObjectId(id)] as its hex string, [None] when it throws;
      [ObjectId.isValid(id)] says whether it would succeed *)
  ObjectId_new : string → option string;
  zod_email : string → bool;
  SESSION_STRICT_BINDING : bool
}.

Definition ObjectId_isValid `{Platform} (id : string) : bool :=
  bool_decide (is_Some (ObjectId_new id)).

(** ** Requests, responses and the server state *)

(** A request as the route handlers receive it, with the clock reading
    and the random draws its handling consumes. *)
Record Request := {
  authorization : option string;
  req_ip : option string;
  remoteAddress : option string;
  user_agent : option string;
  body : doc;
  param_id : string;
  query_status : option string;
  clock : Z;
  randomUUID : string;
  randomBytes : list Byte.byte;
  mathRandom36 : string;
  salt : string
}.

Inductive Data :=
  | DDoc (d : doc)
  | DList (l : list doc)
  | DLogin (d : doc) (user : doc).

(** The envelope [{success, message?, data?, error?}].  The text of a
    schema failure comes from [zod] and is left out. *)
Inductive Body :=
  | Failure (error : string)
  | ValidationFailure
  | Success (message : option string) (data : option Data).

Record Response := { status : Z; payload : Body }.

Definition fail (code : Z) (error : string) : Response :=
  {| status := code; payload := Failure error |}.

Definition json (message : option string) (data : option Data) : Response :=
  {| status := 200; payload := Success message data |}.

Record State := { db : Db; rateLimitMap : gmap string RateEntry }.

Definition withDb (st : State) (d : Db) : State :=
  {| db := d; rateLimitMap := rateLimitMap st |}.

Definition withLimits (st : State) (m : gmap string RateEntry) : State :=
  {| db := db st; rateLimitMap := m |}.

(** [req.ip || req.connection.remoteAddress || fallback] *)
Definition addressOr (req : Request) (fallback : string) : string :=
  let remote :=
    match remoteAddress req with
    | Some a => if String.eqb a "" then fallback else a
    | None => fallback
    end in
  match req_ip req with
  | Some ip => if String.eqb ip "" then remote else ip
  | None => remote
  end.

Definition clientIP (req : Request) : string := addressOr req "unknown".

(** [req.headers['user-agent'] || ""] *)
Definition userAgent (req : Request) : string := default "" (user_agent req).

(** ** Helpers of the server *)

Definition generateSessionToken (req : Request) : string :=
  toHex (randomBytes req).

(** [Date.now().toString()], then ["INT" + timestamp.slice(-6) + random]
    where [random] is
    [Math.random().toString(36).substring(2, 8).toUpperCase()]. *)
Definition generateReferenceNumber (now : Z) (random36 : string) : string :=
  let timestamp := pretty now in
  let random := toUpperCase (substring 2 6 random36) in
  "INT" +:+ sliceLast 6 timestamp +:+ random.

Definition hashPassword `{Platform} (password : string) (salt : string) : string :=
  bcrypt_hash password salt.

Definition verifyPassword `{Platform} (password hash : string) : bool :=
  bcrypt_compare password hash.

Definition signJwt `{Platform} (userId : string) (now : Z) : string :=
  jwt_sign userId now.

(** [String(v)] of an identifier.  Identifiers are strings; the
    rendering of numbers and dates is not needed and left empty. *)
Definition idString (v : value) : string :=
  match v with
  | VStr s => s
  | VUndef => "undefined"
  | VNull => "null"
  | VBool true => "true"
  | VBool false => "false"
  | VNum _ | VDate _ => ""
  end.

(** *** Input sanitization (the server with the fallback store) *)

(** [p] is a prefix of [s], letters compared without case. *)
Fixpoint prefixCI (p s : string) : bool :=
  match p, s with
  | EmptyString, _ => true
  | String a p', String b s' =>
      Ascii.eqb (lowerChar a) (lowerChar b) && prefixCI p' s'
  | String _ _, EmptyString => false
  end.

(** Index of the first [>] of [s]. *)
Fixpoint indexOfGt (s : string) : option nat :=
  match s with
  | EmptyString => None
  | String c s' => if Ascii.eqb c ">" then Some O else S <$> indexOfGt s'
  end.

(** Index of the first [</script>] of [s]. *)
Fixpoint indexOfClose (s : string) : option nat :=
  match s with
  | EmptyString => None
  | String c s' =>
      if prefixCI "</script>" s then Some O else S <$> indexOfClose s'
  end.

Fixpoint dropStr (n : nat) (s : string) : string :=
  match n, s with
  | O, _ => s
  | S n', String _ s' => dropStr n' s'
  | S _, EmptyString => EmptyString
  end.

(** Length of the match of [/<script[\s\S]*?>[\s\S]*?<\/script>/i] at
    the start of [s]: both lazy groups stop at the first occurrence. *)
Definition scriptMatchLength (s : string) : option nat :=
  if prefixCI "<script" s then
    match indexOfGt (dropStr 7 s) with
    | Some i =>
        match indexOfClose (dropStr (7 + i + 1) s) with
        | Some j => Some (7 + i + 1 + j + 9)%nat
        | None => None
        end
    | None => None
    end
  else None.

(** [value.replace(/<script...<\/script>/gi, '')]; [skip] counts the
    characters of a match still to be dropped. *)
Fixpoint stripScripts (skip : nat) (s : string) : string :=
  match s with
  | EmptyString => EmptyString
  | String c s' =>
      match skip with
      | S k => stripScripts k s'
      | O =>
          match scriptMatchLength s with
          | Some (S k) => stripScripts k s'
          | _ => String c (stripScripts O s')
          end
      end
  end.

(** [.replace(/</g, '&lt;').replace(/>/g, '&gt;')] *)
Fixpoint escapeAngles (s : string) : string :=
  match s with
  | EmptyString => EmptyString
  | String c s' =>
      if Ascii.eqb c "<" then "&lt;" +:+ escapeAngles s'
      else if Ascii.eqb c ">" then "&gt;" +:+ escapeAngles s'
      else String c (escapeAngles s')
  end.

(** [sanitizeValue] on the fields of a flat body: strings are cleaned,
    other values pass, [password] and [password_hash] are skipped. *)
Definition sanitizeValue (v : value) (skipSanitization : bool) : value :=
  if skipSanitization then v
  else match v with
       | VStr s => VStr (escapeAngles (stripScripts O s))
       | _ => v
       end.

Definition sanitizeObject (o : doc) : doc :=
  map_imap (λ k v,
    let shouldSkip := String.eqb k "password" || String.eqb k "password_hash" in
    Some (sanitizeValue v shouldSkip)) o.

(** [sanitizeInput]: the body and the query string. *)
Definition sanitizeInput (req : Request) : Request :=
  {| authorization := authorization req;
     req_ip := req_ip req;
     remoteAddress := remoteAddress req;
     user_agent := user_agent req;
     body := sanitizeObject (body req);
     param_id := param_id req;
     query_status :=
       (λ s, escapeAngles (stripScripts O s)) <$> query_status req;
     clock := clock req;
     randomUUID := randomUUID req;
     randomBytes := randomBytes req;
     mathRandom36 := mathRandom36 req;
     salt := salt req |}.

(** *** The schemas of [shared/types.ts]

    [schema.parse(body)] gives the validated object with the keys of the
    schema, or [None] when it throws. *)

Definition lengthBetween (lo hi : nat) (s : string) : bool :=
  (lo <=? String.length s)%nat && (String.length s <=? hi)%nat.

Definition isNameChar (c : ascii) : bool :=
  isLetter c || isSpace c || Ascii.eqb c "-" || Ascii.eqb c ".".
Definition isAccountCharCI (c : ascii) : bool :=
  isLetter c || isDigit c || Ascii.eqb c "-".
Definition isAccountChar (c : ascii) : bool :=
  isUpper c || isDigit c || Ascii.eqb c "-".
Definition isCountryChar (c : ascii) : bool := isLetter c || isSpace c.
Definition isSwiftChar (c : ascii) : bool := isUpper c || isDigit c.
Definition isPurposeChar (c : ascii) : bool :=
  isLetter c || isDigit c || isSpace c || Ascii.eqb c "-" || Ascii.eqb c "."
  || Ascii.eqb c ",".
Definition isSpecial (c : ascii) : bool :=
  existsb (Ascii.eqb c) (chars "@$!%*?&").
Definition isPasswordChar (c : ascii) : bool :=
  isLetter c || isDigit c || isSpecial c.

(** [/^[A-Z]{6}[A-Z0-9]{2}([A-Z0-9]{3})?$/] *)
Definition swiftPattern (s : string) : bool :=
  ((String.length s =? 8)%nat || (String.length s =? 11)%nat)
  && allOf isUpper (substring 0 6 s)
  && allOf isSwiftChar (dropStr 6 s).

(** The password policy of [RegisterSchema]. *)
Definition passwordPattern (s : string) : bool :=
  existsb isLower (chars s) && existsb isUpper (chars s)
  && existsb isDigit (chars s) && existsb isSpecial (chars s)
  && atLeast 1 isPasswordChar s.

Definition RegisterSchema `{Platform} (b : doc) : option doc :=
  match get b "email", get b "password" with
  | VStr email, VStr password =>
      if zod_email email && (String.length email <=? 254)%nat
         && (8 <=? String.length password)%nat && passwordPattern password
      then Some {[ "email" := VStr email; "password" := VStr password ]}
      else None
  | _, _ => None
  end.

(** An optional string field: absent, or a string passing [check]. *)
Definition optionalString (b : doc) (k : string) (check : string → bool)
    : option (option string) :=
  match get b k with
  | VUndef => Some None
  | VStr s => if check s then Some (Some s) else None
  | _ => None
  end.

Definition setOptional (k : string) (v : option string) (o : doc) : doc :=
  match v with
  | Some s => <[k := VStr s]> o
  | None => o
  end.

Definition LoginSchema `{Platform} (b : doc) : option doc :=
  match optionalString b "email"
          (λ e, zod_email e && (String.length e <=? 254)%nat),
        optionalString b "account_number"
          (λ a, lengthBetween 6 64 a && atLeast 1 isAccountCharCI a),
        get b "password" with
  | Some email, Some account_number, VStr password =>
      if (8 <=? String.length password)%nat
         && (from_option (λ e, negb (String.eqb e "")) false email
             || from_option (λ a, negb (String.eqb a "")) false account_number)
      then Some (setOptional "email" email
                   (setOptional "account_number" account_number
                      {[ "password" := VStr password ]}))
      else None
  | _, _, _ => None
  end.

Definition CreatePaymentSchema (b : doc) : option doc :=
  match get b "recipient_name", get b "recipient_account",
        get b "recipient_bank", get b "recipient_country",
        get b "swift_code", get b "amount", get b "currency",
        optionalString b "purpose"
          (λ p, (String.length p <=? 200)%nat && atLeast 1 isPurposeChar p) with
  | VStr name, VStr account, VStr bank, VStr country,
    VStr swift, VNum amount, VStr currency, Some purpose =>
      if lengthBetween 2 100 name && atLeast 1 isNameChar name
         && lengthBetween 8 64 account && atLeast 1 isAccountChar account
         && lengthBetween 2 100 bank && atLeast 1 isNameChar bank
         && lengthBetween 2 56 country && atLeast 1 isCountryChar country
         && lengthBetween 8 11 swift && swiftPattern swift
         && PrimFloat.leb 1 amount && PrimFloat.leb amount 50000
         && (String.length currency =? 3)%nat && allOf isUpper currency
      then Some (setOptional "purpose" purpose
                   {[ "recipient_name" := VStr name;
                      "recipient_account" := VStr account;
                      "recipient_bank" := VStr bank;
                      "recipient_country" := VStr country;
                      "swift_code" := VStr swift;
                      "amount" := VNum amount;
                      "currency" := VStr currency ]})
      else None
  | _, _, _, _, _, _, _, _ => None
  end.

(** ** Handlers shared by the two servers *)

(** An object literal. *)
Definition obj (fields : list (string * value)) : doc := list_to_map fields.

Definition VStrOpt (s : option string) : value := from_option VStr VUndef s.

(** [x * k] on a number. *)
Definition times (v : value) (k : float) : value :=
  match v with
  | VNum x => VNum (x * k)%float
  | _ => VNum nan
  end.

(** The string a validated field holds. *)
Definition text (v : value) : string :=
  match v with
  | VStr s => s
  | _ => EmptyString
  end.

(** The double nearest to 0.02, which the literal [0.02] denotes. *)
Definition feeRate : float := 0x1.47ae147ae147bp-6%float.

Inductive AuthResult :=
  | Next (user : doc)
  | Reject (r : Response).

(** The bearer credential: [authorization.split(' ')[1]], when the
    header is present and starts with ["Bearer "]. *)
Definition bearer (authorization : option string) : option value :=
  match authorization with
  | Some a =>
      if startsWith a "Bearer "
      then Some (VStrOpt (split " " a !! 1%nat))
      else None
  | None => None
  end.

Definition sessionQuery (token : value) (now : Z) : query :=
  [ ("session_token", QEq token);
    ("is_active", QEq (VBool true));
    ("expires_at", QOps (Some (VDate now)) None) ].

(** The whitelist checks of the payment handler; the first failing one
    gives the error. *)
Definition whitelist (paymentData : doc) : option string :=
  if negb (atLeast 2 isNameChar (text (get paymentData "recipient_name")))
  then Some "Invalid recipient name"
  else if negb (atLeast 8 isAccountCharCI (text (get paymentData "recipient_account")))
  then Some "Invalid recipient account format"
  else if negb (atLeast 2 isNameChar (text (get paymentData "recipient_bank")))
  then Some "Invalid recipient bank name"
  else if negb (atLeast 2 isCountryChar (text (get paymentData "recipient_country")))
  then Some "Invalid recipient country"
  else None.

Definition paymentAnswer (insertedId : value) (referenceNumber : string)
    (transactionFee : value) : Response :=
  json (Some "Payment initiated successfully")
       (Some (DDoc (obj [ ("transactionId", insertedId);
                          ("referenceNumber", VStr referenceNumber);
                          ("transactionFee", transactionFee);
                          ("status", VStr "pending") ]))).

Definition verifySet (now : Z) : doc :=
  obj [ ("is_processed", VBool true); ("status", VStr "completed");
        ("processed_at", VDate now); ("updated_at", VDate now) ].

Definition profileAnswer (user : doc) : Response :=
  json None
       (Some (DDoc (obj [ ("id", VStr (idString (get user "_id")));
                          ("email", jsOr (get user "email") VNull);
                          ("username", jsOr (get user "username") VNull);
                          ("full_name", jsOr (get user "full_name") VNull);
                          ("is_verified", VBool (truthy (get user "is_verified"))) ]))).

(** The lookup of the login handler: [{is_active: true}] plus the
    identifiers given. *)
Definition loginQuery (b : doc) : query :=
  ("is_active", QEq (VBool true))
  :: (if truthy (get b "account_number")
      then [("account_number", QEq (get b "account_number"))] else [])
  ++ (if truthy (get b "email") then [("email", QEq (get b "email"))] else []).

Definition sessionRecord (user : doc) (sessionToken : string) (req : Request) : doc :=
  obj [ ("user_id", get user "_id");
        ("session_token", VStr sessionToken);
        ("expires_at", VDate (clock req + 24 * 60 * 60 * 1000));
        ("ip_address", VStr (clientIP req));
        ("user_agent", VStr (userAgent req));
        ("is_active", VBool true);
        ("created_at", VDate (clock req));
        ("updated_at", VDate (clock req)) ].

Definition logoutSet (now : Z) : doc :=
  obj [ ("is_active", VBool false); ("updated_at", VDate now) ].

Inductive Endpoint :=
  | Register | Login | Logout | Profile | CreatePayment | History
  | GetPayment | AdminTransactions | Verify | Health.

(** [createIndex({f: 1}, {unique: true})] succeeds on a collection in
    which no document collides with an earlier one. *)
Fixpoint buildableAfter (ixs : list index) (earlier c : list doc) : bool :=
  match c with
  | [] => true
  | d :: c' => negb (violates ixs earlier d) && buildableAfter ixs (earlier ++ [d]) c'
  end.

Definition buildable (ixs : list index) (c : list doc) : bool :=
  buildableAfter ixs [] c.

Definition collectionNames : list string :=
  ["users"; "user_sessions"; "payment_transactions"].

Definition mongoDb (stored : gmap string (list doc)) : Db :=
  {| backend := Mongo; collections := stored |}.

Definition indexesBuildable (stored : gmap string (list doc)) : bool :=
  forallb (λ name, buildable (ixsOf name) (coll (mongoDb stored) name))
          collectionNames.

(** The indexes whose [createIndex] stops [connectToDatabase] when it
    fails.  The index on [username] is not among them: its creation is
    wrapped in a [try] of its own, and a failure is only logged. *)
Definition requiredIndexes : gmap string (list index) :=
  {[ "users" :=
       [ {| ix_field := "email"; ix_unique := true; ix_sparse := false |} ];
     "user_sessions" :=
       [ {| ix_field := "session_token"; ix_unique := true; ix_sparse := false |};
         {| ix_field := "expires_at"; ix_unique := false; ix_sparse := false |} ];
     "payment_transactions" :=
       [ {| ix_field := "user_id"; ix_unique := false; ix_sparse := false |};
         {| ix_field := "reference_number"; ix_unique := true; ix_sparse := false |} ] ]}.

Definition indexesCreated (stored : gmap string (list doc)) : bool :=
  forallb (λ name, buildable (default [] (requiredIndexes !! name))
                             (coll (mongoDb stored) name))
          collectionNames.

(** The expiry index of [user_sessions]: MongoDB removes the sessions
    whose [expires_at] has passed. *)
Definition expired (now : Z) (session : doc) : bool :=
  match get session "expires_at" with
  | VDate t => bool_decide (t <= now)
  | _ => false
  end.

Definition ttlSweep (now : Z) (d : Db) : Db :=
  match backend d with
  | InMemory => d
  | Mongo =>
      setColl d "user_sessions"
        (List.filter (λ s, negb (expired now s)) (coll d "user_sessions"))
  end.

(** ** The server with the in-memory fallback and signed tokens *)

Module Fallback.
Section Handlers.
Context `{Platform}.

Definition demoStaff (passwordHash : string) (now : Z) : doc :=
  obj [ ("email", VStr "test12345@gmail.com");
        ("password_hash", VStr passwordHash);
        ("full_name", VStr "Demo Staff");
        ("is_verified", VBool true);
        ("is_active", VBool true);
        ("is_staff", VBool true);
        ("created_at", VDate now);
        ("updated_at", VDate now) ].

Definition seededInMemoryDb (now : Z) (salt uuid : string) : Db :=
  let d := createInMemoryDb in
  match findOne d "users" [("email", QEq (VStr "test12345@gmail.com"))] with
  | Some _ => d
  | None =>
      match insertOne d "users" (demoStaff (hashPassword "P@ssw0rd!" salt) now) uuid with
      | Ok (d', _) => d'
      | Throw _ => d
      end
  end.

(** [connectToDatabase]: [mongo] is what the MongoDB at [MONGODB_URI]
    holds, [None] when no URI is configured or it cannot be reached.
    The server falls back to the in-memory store when the index on
    [email], [session_token] or [reference_number] cannot be built.
    When only the index on [username] cannot be built it stays on
    MongoDB, which then has no such index; no handler writes a
    [username], and a sparse index files no record without one, so
    that the handlers cannot tell (lemma [username_index_idle]). *)
Definition connectToDatabase (mongo : option (gmap string (list doc)))
    (now : Z) (salt uuid : string) : Db :=
  match mongo with
  | Some stored =>
      if indexesCreated stored then mongoDb stored
      else seededInMemoryDb now salt uuid
  | None => seededInMemoryDb now salt uuid
  end.

Definition findUserById (d : Db) (id : string) : option doc :=
  match backend d with
  | InMemory => findOne d "users" [("_id", QEq (VStr id))]
  | Mongo =>
      match ObjectId_new id with
      | Some oid => findOne d "users" [("_id", QEq (VStr oid))]
      | None => findOne d "users" [("_id", QEq (VStr id))]
      end
  end.

Definition incomingIP (req : Request) : string := addressOr req "".

Definition bindingMismatch (session : doc) (req : Request) : option string :=
  if SESSION_STRICT_BINDING then
    if truthy (get session "ip_address")
       && negb (strictEq (get session "ip_address") (VStr (incomingIP req)))
    then Some "Session IP mismatch"
    else if truthy (get session "user_agent")
            && negb (String.eqb (idString (get session "user_agent")) (userAgent req))
    then Some "Session User-Agent mismatch"
    else None
  else None.

Definition withStaffFlag (user principal : doc) : doc :=
  <["is_staff" := VBool (truthy (get user "is_staff"))]> principal.

(** The signed-token path of [authMiddleware]. *)
Definition jwtPath (st : State) (token : value) (now : Z) : AuthResult :=
  match token with
  | VStr t =>
      match jwt_verify t now with
      | Some (Some userId) =>
          if String.eqb userId "" then Reject (fail 401 "Invalid token payload")
          else match findUserById (db st) userId with
               | Some user => Next (withStaffFlag user user)
               | None => Reject (fail 401 "User not found")
               end
      | Some None => Reject (fail 401 "Invalid token payload")
      | None => Reject (fail 401 "Invalid or expired session")
      end
  | _ => Reject (fail 401 "Invalid or expired session")
  end.

Definition authMiddleware (st : State) (req : Request) : AuthResult :=
  match bearer (authorization req) with
  | None => Reject (fail 401 "Unauthorized")
  | Some token =>
      match findOne (db st) "user_sessions" (sessionQuery token (clock req)) with
      | Some session =>
          match findUserById (db st) (idString (get session "user_id")) with
          | None => Reject (fail 401 "User not found")
          | Some user =>
              match bindingMismatch session req with
              | Some e => Reject (fail 401 e)
              | None => Next (withStaffFlag user (spread session user))
              end
          end
      | None => jwtPath st token (clock req)
      end
  end.

Definition newUser (email : value) (passwordHash : string) (now : Z) : doc :=
  obj [ ("email", email);
        ("password_hash", VStr passwordHash);
        ("is_verified", VBool false);
        ("is_active", VBool true);
        ("is_staff", VBool false);
        ("created_at", VDate now);
        ("updated_at", VDate now) ].

Definition register (st : State) (req : Request) : State * Response :=
  match RegisterSchema (body req) with
  | None => (st, {| status := 400; payload := ValidationFailure |})
  | Some b =>
      let '(limits, allowed) :=
        checkRateLimit (clock req) ("register:" +:+ clientIP req) 3 300000
                       (rateLimitMap st) in
      let st := withLimits st limits in
      if negb allowed
      then (st, fail 429 "Too many registration attempts. Please try again later.")
      else
        match findOne (db st) "users" [("email", QEq (get b "email"))] with
        | Some _ => (st, fail 400 "Email already registered")
        | None =>
            let passwordHash := hashPassword (text (get b "password")) (salt req) in
            match insertOne (db st) "users"
                    (newUser (get b "email") passwordHash (clock req))
                    (randomUUID req) with
            | Ok (db', insertedId) =>
                (withDb st db',
                 json (Some "Registration successful")
                      (Some (DDoc (obj [("userId", insertedId)]))))
            | Throw _ => (st, fail 500 "Registration failed")
            end
        end
  end.

Definition loginUser (user : doc) : doc :=
  obj [ ("id", VStr (idString (get user "_id")));
        ("email", jsOr (get user "email") VNull);
        ("account_number", jsOr (get user "account_number") VNull);
        ("username", jsOr (get user "username") VNull);
        ("full_name", jsOr (get user "full_name") VNull);
        ("is_verified", VBool (truthy (get user "is_verified")));
        ("is_staff", VBool (truthy (get user "is_staff"))) ].

Definition login (st : State) (req : Request) : State * Response :=
  match LoginSchema (body req) with
  | None => (st, {| status := 400; payload := ValidationFailure |})
  | Some b =>
      let '(limits, allowed) :=
        checkRateLimit (clock req) ("login:" +:+ clientIP req) 5 900000
                       (rateLimitMap st) in
      let st := withLimits st limits in
      if negb allowed
      then (st, fail 429 "Too many login attempts. Please try again later.")
      else
        match findOne (db st) "users" (loginQuery b) with
        | None => (st, fail 401 "Invalid email or password")
        | Some user =>
            match get user "password_hash" with
            | VStr hash =>
                if negb (verifyPassword (text (get b "password")) hash)
                then (st, fail 401 "Invalid email or password")
                else
                  let sessionToken := generateSessionToken req in
                  match insertOne (db st) "user_sessions"
                          (sessionRecord user sessionToken req) (randomUUID req) with
                  | Ok (db', _) =>
                      let jwtToken := signJwt (idString (get user "_id")) (clock req) in
                      (withDb st db',
                       json (Some "Login successful")
                            (Some (DLogin (obj [ ("token", VStr sessionToken);
                                                 ("jwt", VStr jwtToken) ])
                                          (loginUser user))))
                  | Throw _ => (st, fail 500 "Login failed")
                  end
            | _ => (st, fail 500 "Login failed")
            end
        end
  end.

Definition logout (st : State) (req : Request) : State * Response :=
  match authMiddleware st req with
  | Reject r => (st, r)
  | Next user =>
      match updateOne (db st) "user_sessions"
              [("session_token", QEq (get user "session_token"))]
              (logoutSet (clock req)) with
      | Ok (db', _) => (withDb st db', json (Some "Logged out successfully") None)
      | Throw _ => (st, fail 500 "Logout failed")
      end
  end.

Definition profile (st : State) (req : Request) : State * Response :=
  match authMiddleware st req with
  | Reject r => (st, r)
  | Next user => (st, profileAnswer user)
  end.

Definition transaction (user paymentData : doc) (referenceNumber : string)
    (transactionFee : value) (now : Z) : doc :=
  obj [ ("user_id", get user "_id");
        ("user_account", jsOr (get user "account_number") VNull);
        ("swift_code", jsOr (get paymentData "swift_code") VNull);
        ("recipient_name", get paymentData "recipient_name");
        ("recipient_account", get paymentData "recipient_account");
        ("recipient_bank", get paymentData "recipient_bank");
        ("recipient_country", get paymentData "recipient_country");
        ("amount", get paymentData "amount");
        ("currency", get paymentData "currency");
        ("exchange_rate", VNull);
        ("converted_amount", VNull);
        ("purpose", jsOr (get paymentData "purpose") VNull);
        ("reference_number", VStr referenceNumber);
        ("status", VStr "pending");
        ("transaction_fee", transactionFee);
        ("is_processed", VBool false);
        ("processed_at", VNull);
        ("created_at", VDate now);
        ("updated_at", VDate now) ].

Definition createPayment (st : State) (req : Request) : State * Response :=
  match authMiddleware st req with
  | Reject r => (st, r)
  | Next user =>
      match CreatePaymentSchema (body req) with
      | None => (st, {| status := 400; payload := ValidationFailure |})
      | Some paymentData =>
          let '(limits, allowed) :=
            checkRateLimit (clock req) ("payments:" +:+ clientIP req) 10 3600000
                           (rateLimitMap st) in
          let st := withLimits st limits in
          if negb allowed
          then (st, fail 429 "Payment limit exceeded. Please try again later.")
          else
            match whitelist paymentData with
            | Some e => (st, fail 400 e)
            | None =>
                let referenceNumber :=
                  generateReferenceNumber (clock req) (mathRandom36 req) in
                let transactionFee := times (get paymentData "amount") feeRate in
                match insertOne (db st) "payment_transactions"
                        (transaction user paymentData referenceNumber
                                     transactionFee (clock req))
                        (randomUUID req) with
                | Ok (db', insertedId) =>
                    (withDb st db',
                     paymentAnswer insertedId referenceNumber transactionFee)
                | Throw _ => (st, fail 500 "Payment initiation failed")
                end
            end
      end
  end.

Definition history (st : State) (req : Request) : State * Response :=
  match authMiddleware st req with
  | Reject r => (st, r)
  | Next user =>
      let transactions :=
        toArray (limit 50 (sort "created_at"
          (find (db st) "payment_transactions"
                [("user_id", QEq (get user "_id"))]))) in
      (st, json None (Some (DList transactions)))
  end.

Definition getPayment (st : State) (req : Request) : State * Response :=
  match authMiddleware st req with
  | Reject r => (st, r)
  | Next user =>
      let transactionId := param_id req in
      let ownedBy id :=
        findOne (db st) "payment_transactions"
          [("_id", QEq (VStr id)); ("user_id", QEq (get user "_id"))] in
      let answer (transaction : option doc) :=
        match transaction with
        | None => (st, fail 404 "Transaction not found")
        | Some t => (st, json None (Some (DDoc t)))
        end in
      match backend (db st) with
      | InMemory => answer (ownedBy transactionId)
      | Mongo =>
          if negb (ObjectId_isValid transactionId)
          then (st, fail 400 "Invalid transaction ID")
          else match ObjectId_new transactionId with
               | Some oid => answer (ownedBy oid)
               | None => (st, fail 500 "Failed to fetch transaction details")
               end
      end
  end.

(** The listing for staff: the in-memory branch joins the submitter by
    hand, the MongoDB branch by the aggregation pipeline. *)
Definition withSubmitter (d : Db) (t : doc) : doc :=
  let submitter := findOne d "users" [("_id", QEq (get t "user_id"))] in
  match backend d with
  | InMemory =>
      let email := from_option (λ u, get u "email") VUndef submitter in
      let name := from_option (λ u, get u "full_name") VUndef submitter in
      <["user_name" := jsOr (jsOr name (get t "user_name")) (VStr "")]>
        (<["user_email" := jsOr (jsOr email (get t "user_email")) (VStr "")]> t)
  | Mongo =>
      let ifNull v := match v with VUndef | VNull => VStr "" | _ => v end in
      let email := from_option (λ u, get u "email") VUndef submitter in
      let name := from_option (λ u, get u "full_name") VUndef submitter in
      <["user_name" := ifNull name]> (<["user_email" := ifNull email]> t)
  end.

Definition statusFilter (req : Request) : query :=
  match query_status req with
  | Some status =>
      if String.eqb status "" then [] else [("status", QEq (VStr status))]
  | None => []
  end.

Definition adminTransactions (st : State) (req : Request) : State * Response :=
  match authMiddleware st req with
  | Reject r => (st, r)
  | Next user =>
      if negb (truthy (get user "is_staff")) then (st, fail 403 "Forbidden")
      else
        let txs :=
          toArray (limit 200 (sort "created_at"
            (find (db st) "payment_transactions" (statusFilter req)))) in
        (st, json None (Some (DList (withSubmitter (db st) <$> txs))))
  end.

Definition verify (st : State) (req : Request) : State * Response :=
  match authMiddleware st req with
  | Reject r => (st, r)
  | Next user =>
      if negb (truthy (get user "is_staff")) then (st, fail 403 "Forbidden")
      else
        let id := param_id req in
        let filter :=
          match backend (db st) with
          | InMemory => Ok [("_id", QEq (VStr id))]
          | Mongo =>
              match ObjectId_new id with
              | Some oid => Ok [("_id", QEq (VStr oid))]
              | None => Throw BSONError
              end
          end in
        match filter with
        | Throw _ => (st, fail 500 "Failed to verify transaction")
        | Ok filter =>
            match findOneAndUpdate (db st) "payment_transactions" filter
                    (verifySet (clock req)) with
            | Ok (db', Some updated) =>
                (withDb st db', json None (Some (DDoc updated)))
            | Ok (_, None) => (st, fail 404 "Transaction not found")
            | Throw _ => (st, fail 500 "Failed to verify transaction")
            end
        end
  end.

Definition health : Response :=
  json (Some "SecurePay Portal API is running with MongoDB") None.

(** The routes, behind the global [sanitizeInput]. *)
Definition handle (e : Endpoint) (st : State) (req0 : Request) : State * Response :=
  let req := sanitizeInput req0 in
  match e with
  | Register => register st req
  | Login => login st req
  | Logout => logout st req
  | Profile => profile st req
  | CreatePayment => createPayment st req
  | History => history st req
  | GetPayment => getPayment st req
  | AdminTransactions => adminTransactions st req
  | Verify => verify st req
  | Health => (st, health)
  end.

End Handlers.
End Fallback.

(** ** The base server (MongoDB only) *)

Module Base.
Section Handlers.
Context `{Platform}.

(** [connectToDatabase]: the process exits when MongoDB cannot be
    reached, or when the index on [email], [session_token] or
    [reference_number] cannot be built; a failure of the index on
    [username] is only logged. *)
Definition connectToDatabase (mongo : option (gmap string (list doc))) : option Db :=
  match mongo with
  | Some stored => if indexesCreated stored then Some (mongoDb stored) else None
  | None => None
  end.

Definition authMiddleware (st : State) (req : Request) : AuthResult :=
  match bearer (authorization req) with
  | None => Reject (fail 401 "Unauthorized")
  | Some token =>
      match findOne (db st) "user_sessions" (sessionQuery token (clock req)) with
      | None => Reject (fail 401 "Invalid or expired session")
      | Some session =>
          match findOne (db st) "users" [("_id", QEq (get session "user_id"))] with
          | None => Reject (fail 401 "User not found")
          | Some user => Next (spread session user)
          end
      end
  end.

Definition newUser (email : value) (passwordHash : string) (now : Z) : doc :=
  obj [ ("email", email);
        ("password_hash", VStr passwordHash);
        ("is_verified", VBool false);
        ("is_active", VBool true);
        ("created_at", VDate now);
        ("updated_at", VDate now) ].

Definition register (st : State) (req : Request) : State * Response :=
  match RegisterSchema (body req) with
  | None => (st, {| status := 400; payload := ValidationFailure |})
  | Some b =>
      let '(limits, allowed) :=
        checkRateLimit (clock req) (clientIP req) 3 300000 (rateLimitMap st) in
      let st := withLimits st limits in
      if negb allowed
      then (st, fail 429 "Too many registration attempts. Please try again later.")
      else
        match findOne (db st) "users" [("email", QEq (get b "email"))] with
        | Some _ => (st, fail 400 "Email already registered")
        | None =>
            let passwordHash := hashPassword (text (get b "password")) (salt req) in
            match insertOne (db st) "users"
                    (newUser (get b "email") passwordHash (clock req))
                    (randomUUID req) with
            | Ok (db', insertedId) =>
                (withDb st db',
                 json (Some "Registration successful")
                      (Some (DDoc (obj [("userId", insertedId)]))))
            | Throw _ => (st, fail 500 "Registration failed")
            end
        end
  end.

Definition loginUser (user : doc) : doc :=
  obj [ ("id", VStr (idString (get user "_id")));
        ("email", jsOr (get user "email") VNull);
        ("account_number", jsOr (get user "account_number") VNull);
        ("username", jsOr (get user "username") VNull);
        ("full_name", jsOr (get user "full_name") VNull);
        ("is_verified", VBool (truthy (get user "is_verified"))) ].

Definition login (st : State) (req : Request) : State * Response :=
  match LoginSchema (body req) with
  | None => (st, {| status := 400; payload := ValidationFailure |})
  | Some b =>
      let '(limits, allowed) :=
        checkRateLimit (clock req) (clientIP req) 5 900000 (rateLimitMap st) in
      let st := withLimits st limits in
      if negb allowed
      then (st, fail 429 "Too many login attempts. Please try again later.")
      else
        match findOne (db st) "users" (loginQuery b) with
        | None => (st, fail 401 "Invalid email or password")
        | Some user =>
            match get user "password_hash" with
            | VStr hash =>
                if negb (verifyPassword (text (get b "password")) hash)
                then (st, fail 401 "Invalid email or password")
                else
                  let sessionToken := generateSessionToken req in
                  match insertOne (db st) "user_sessions"
                          (sessionRecord user sessionToken req) (randomUUID req) with
                  | Ok (db', _) =>
                      (withDb st db',
                       json (Some "Login successful")
                            (Some (DLogin (obj [("token", VStr sessionToken)])
                                          (loginUser user))))
                  | Throw _ => (st, fail 500 "Login failed")
                  end
            | _ => (st, fail 500 "Login failed")
            end
        end
  end.

Definition logout (st : State) (req : Request) : State * Response :=
  match authMiddleware st req with
  | Reject r => (st, r)
  | Next user =>
      match updateOne (db st) "user_sessions"
              [("session_token", QEq (get user "session_token"))]
              (logoutSet (clock req)) with
      | Ok (db', _) => (withDb st db', json (Some "Logged out successfully") None)
      | Throw _ => (st, fail 500 "Logout failed")
      end
  end.

Definition profile (st : State) (req : Request) : State * Response :=
  match authMiddleware st req with
  | Reject r => (st, r)
  | Next user => (st, profileAnswer user)
  end.

Definition transaction (user paymentData : doc) (referenceNumber : string)
    (transactionFee : value) (now : Z) : doc :=
  obj [ ("user_id", get user "_id");
        ("user_account", jsOr (get user "account_number") VNull);
        ("recipient_name", get paymentData "recipient_name");
        ("recipient_account", get paymentData "recipient_account");
        ("recipient_bank", get paymentData "recipient_bank");
        ("recipient_country", get paymentData "recipient_country");
        ("amount", get paymentData "amount");
        ("currency", get paymentData "currency");
        ("exchange_rate", VNull);
        ("converted_amount", VNull);
        ("purpose", jsOr (get paymentData "purpose") VNull);
        ("reference_number", VStr referenceNumber);
        ("status", VStr "pending");
        ("transaction_fee", transactionFee);
        ("is_processed", VBool false);
        ("processed_at", VNull);
        ("created_at", VDate now);
        ("updated_at", VDate now) ].

Definition createPayment (st : State) (req : Request) : State * Response :=
  match authMiddleware st req with
  | Reject r => (st, r)
  | Next user =>
      match CreatePaymentSchema (body req) with
      | None => (st, {| status := 400; payload := ValidationFailure |})
      | Some paymentData =>
          let '(limits, allowed) :=
            checkRateLimit (clock req) (clientIP req) 10 3600000 (rateLimitMap st) in
          let st := withLimits st limits in
          if negb allowed
          then (st, fail 429 "Payment limit exceeded. Please try again later.")
          else
            match whitelist paymentData with
            | Some e => (st, fail 400 e)
            | None =>
                let referenceNumber :=
                  generateReferenceNumber (clock req) (mathRandom36 req) in
                let transactionFee := times (get paymentData "amount") feeRate in
                match insertOne (db st) "payment_transactions"
                        (transaction user paymentData referenceNumber
                                     transactionFee (clock req))
                        (randomUUID req) with
                | Ok (db', insertedId) =>
                    (withDb st db',
                     paymentAnswer insertedId referenceNumber transactionFee)
                | Throw _ => (st, fail 500 "Payment initiation failed")
                end
            end
      end
  end.

Definition history (st : State) (req : Request) : State * Response :=
  match authMiddleware st req with
  | Reject r => (st, r)
  | Next user =>
      let transactions :=
        toArray (limit 50 (sort "created_at"
          (find (db st) "payment_transactions"
                [("user_id", QEq (get user "_id"))]))) in
      (st, json None (Some (DList transactions)))
  end.

Definition getPayment (st : State) (req : Request) : State * Response :=
  match authMiddleware st req with
  | Reject r => (st, r)
  | Next user =>
      let transactionId := param_id req in
      if negb (ObjectId_isValid transactionId)
      then (st, fail 400 "Invalid transaction ID")
      else
        match ObjectId_new transactionId with
        | None => (st, fail 500 "Failed to fetch transaction details")
        | Some oid =>
            match findOne (db st) "payment_transactions"
                    [("_id", QEq (VStr oid)); ("user_id", QEq (get user "_id"))] with
            | None => (st, fail 404 "Transaction not found")
            | Some t => (st, json None (Some (DDoc t)))
            end
        end
  end.

Definition statusFilter (req : Request) : query :=
  match query_status req with
  | Some status =>
      if String.eqb status "" then [] else [("status", QEq (VStr status))]
  | None => []
  end.

Definition adminTransactions (st : State) (req : Request) : State * Response :=
  match authMiddleware st req with
  | Reject r => (st, r)
  | Next user =>
      if negb (truthy (get user "is_staff")) then (st, fail 403 "Forbidden")
      else
        let transactions :=
          toArray (limit 200 (sort "created_at"
            (find (db st) "payment_transactions" (statusFilter req)))) in
        (st, json None (Some (DList transactions)))
  end.

Definition verify (st : State) (req : Request) : State * Response :=
  match authMiddleware st req with
  | Reject r => (st, r)
  | Next user =>
      if negb (truthy (get user "is_staff")) then (st, fail 403 "Forbidden")
      else
        match ObjectId_new (param_id req) with
        | None => (st, fail 500 "Failed to verify transaction")
        | Some oid =>
            match findOneAndUpdate (db st) "payment_transactions"
                    [("_id", QEq (VStr oid))] (verifySet (clock req)) with
            | Ok (db', Some updated) =>
                (withDb st db', json None (Some (DDoc updated)))
            | Ok (_, None) => (st, fail 404 "Transaction not found")
            | Throw _ => (st, fail 500 "Failed to verify transaction")
            end
        end
  end.

Definition health : Response :=
  json (Some "SecurePay Portal API is running with MongoDB") None.

Definition handle (e : Endpoint) (st : State) (req : Request) : State * Response :=
  match e with
  | Register => register st req
  | Login => login st req
  | Logout => logout st req
  | Profile => profile st req
  | CreatePayment => createPayment st req
  | History => history st req
  | GetPayment => getPayment st req
  | AdminTransactions => adminTransactions st req
  | Verify => verify st req
  | Health => (st, health)
  end.

End Handlers.
End Base.

(** ** Runs of a server

    What happens between two observations: a request is handled, or
    MongoDB expires sessions. *)
Inductive Event :=
  | Call (e : Endpoint) (req : Request)
  | Expiry (now : Z).

Definition stepWith (handle : Endpoint → State → Request → State * Response)
    (st : State) (ev : Event) : State :=
  match ev with
  | Call e req => (handle e st req).1
  | Expiry now => withDb st (ttlSweep now (db st))
  end.

Definition runWith (handle : Endpoint → State → Request → State * Response)
    (st : State) (evs : list Event) : State :=
  foldl (stepWith handle) st evs.

(** The expected answers of a window: call number [i] (from 1) passes
    exactly when [i <= maxRequests]. *)
Fixpoint windowAnswers (i maxRequests : Z) (n : nat) : list bool :=
  match n with
  | O => []
  | S n' => bool_decide (i <= maxRequests) :: windowAnswers (i + 1) maxRequests n'
  end.

Definition callsOf (k : string) (cs : list RateCall) : list RateCall :=
  filter (fun c => rc_key c = k) cs.

(** A call at [now] finds no entry for [k], or an elapsed window. *)
Definition opensWindow (m : gmap string RateEntry) (k : string) (now : Z) : Prop :=
  m !! k = None ∨ ∃ e, m !! k = Some e ∧ now > resetTime e.

(** Seven login attempts from one origin inside a 15 minute window,
    with a registration from another origin in between. *)
Definition loginBurst : list RateCall :=
  [ {| rc_now := 1010; rc_key := "login:203.0.113.4"; rc_max := 5; rc_window := 900000 |};
    {| rc_now := 1020; rc_key := "login:203.0.113.4"; rc_max := 5; rc_window := 900000 |};
    {| rc_now := 1025; rc_key := "register:198.51.100.7"; rc_max := 3; rc_window := 300000 |};
    {| rc_now := 1030; rc_key := "login:203.0.113.4"; rc_max := 5; rc_window := 900000 |};
    {| rc_now := 1040; rc_key := "login:203.0.113.4"; rc_max := 5; rc_window := 900000 |};
    {| rc_now := 1050; rc_key := "login:203.0.113.4"; rc_max := 5; rc_window := 900000 |};
    {| rc_now := 901000; rc_key := "login:203.0.113.4"; rc_max := 5; rc_window := 900000 |} ].

(** ** Shapes of a reference number *)

Definition isRefChar (c : ascii) : bool := isUpper c || isDigit c.
Definition isBase36 (c : ascii) : bool := isDigit c || isLower c.

(** [/^INT\d{6}[A-Z0-9]{6}$/] *)
Definition refPattern (s : string) : bool :=
  (String.length s =? 15)%nat
  && startsWith s "INT"
  && allOf isDigit (substring 3 6 s)
  && allOf isRefChar (substring 9 6 s).

(** The six decimal digits of [n mod 10^6], with leading zeros. *)
Definition sixDigits (n : N) : string :=
  String (pretty_N_char (n / 100000 mod 10))
    (String (pretty_N_char (n / 10000 mod 10))
      (String (pretty_N_char (n / 1000 mod 10))
        (String (pretty_N_char (n / 100 mod 10))
          (String (pretty_N_char (n / 10 mod 10))
            (String (pretty_N_char (n mod 10)) EmptyString))))).

(** The rendering of a number of [0, 1) in base 36: ["0"], or ["0."]
    and at least one digit. *)
Definition isRandom36 (r : string) : bool :=
  String.eqb r "0"
  || (startsWith r "0." && atLeast 1 isBase36 (dropStr 2 r)).

(** ** Reading the store and the responses *)

(** A string without angle brackets. *)
Definition plain (s : string) : bool :=
  allOf (λ c, negb (Ascii.eqb c "<") && negb (Ascii.eqb c ">")) s.

(** The identifier under which a handler looks a transaction up: the
    path parameter in the in-memory store, its ObjectId on MongoDB. *)
Definition lookupId `{Platform} (d : Db) (id : string) : option string :=
  match backend d with
  | InMemory => Some id
  | Mongo => ObjectId_new id
  end.

Definition transactions (st : State) : list doc :=
  coll (db st) "payment_transactions".

Definition firstTransaction (st : State) : doc :=
  default ∅ (head (transactions st)).

Definition referenceNumbers (st : State) : list value :=
  (λ t, get t "reference_number") <$> transactions st.

(** What [authMiddleware] attaches to the request, if it passes. *)
Definition principalOf (a : AuthResult) : doc :=
  match a with
  | Next user => user
  | Reject _ => ∅
  end.

(** The object a response carries. *)
Definition answered (r : Response) : doc :=
  match payload r with
  | Success _ (Some (DDoc d)) => d
  | _ => ∅
  end.

(** The list a listing endpoint answers with. *)
Definition listed (r : Response) : list doc :=
  match payload r with
  | Success _ (Some (DList l)) => l
  | _ => []
  end.

Definition createdAt (l : list doc) (i : nat) : value :=
  from_option (λ t, get t "created_at") VUndef (l !! i).

(** [x] may stand before [y] in a descending listing. *)
Definition notAfter (field : string) (x y : doc) : Prop := before field y x = false.

(** ** What a request can do to the store

    The change a handler makes to the database, given the clock
    reading and the fresh identifier of its request, and the session
    token it issues, if it is a login. *)

Inductive Effect (d : Db) (now : Z) (uuid : string) (token : option string)
    : Db → Prop :=
  | eff_none : Effect d now uuid token d
  | eff_register (x : doc) (v : value) (d' : Db) :
      truthy (get x "is_staff") = false →
      x !! "_id" = None →
      insertOne d "users" x uuid = Ok (d', v) →
      Effect d now uuid token d'
  | eff_login (t : string) (user : doc) (req : Request) (v : value) (d' : Db) :
      token = Some t →
      insertOne d "user_sessions" (sessionRecord user t req) uuid = Ok (d', v) →
      Effect d now uuid token d'
  | eff_payment (x : doc) (v : value) (d' : Db) :
      insertOne d "payment_transactions" x uuid = Ok (d', v) →
      Effect d now uuid token d'
  | eff_logout (i : nat) (old new : doc) (d' : Db) :
      coll d "user_sessions" !! i = Some old →
      applySet d "user_sessions" i old (logoutSet now) = Ok (d', new) →
      Effect d now uuid token d'
  | eff_verify (i : nat) (old new : doc) (d' : Db) :
      coll d "payment_transactions" !! i = Some old →
      applySet d "payment_transactions" i old (verifySet now) = Ok (d', new) →
      Effect d now uuid token d'.

(** The session token a request makes the server issue. *)
Definition issued (e : Endpoint) (req : Request) : option string :=
  match e with
  | Login => Some (generateSessionToken req)
  | _ => None
  end.

(** One event of a run took the store from [d] to [d']. *)
Definition Moved (d d' : Db) : Prop :=
  (∃ now uuid token, Effect d now uuid token d') ∨ (∃ now, d' = ttlSweep now d).

(** ** Who is staff *)

Definition userById (d : Db) (uid : string) : option doc :=
  findOne d "users" [("_id", QEq (VStr uid))].

(** The identifier [uid] resolves to a user without the staff flag. *)
Definition nonStaff (d : Db) (uid : string) : Prop :=
  ∃ u, userById d uid = Some u ∧ truthy (get u "is_staff") = false.

(** No session record carries a staff flag of its own. *)
Definition plainSessions (d : Db) : Prop :=
  ∀ s, s ∈ coll d "user_sessions" → truthy (get s "is_staff") = false.

(** Every user record has an [_id]. *)
Definition identified (d : Db) : Prop :=
  ∀ u, u ∈ coll d "users" → is_Some (u !! "_id").

Definition adminEndpoint (e : Endpoint) : Prop :=
  e = AdminTransactions ∨ e = Verify.

Definition registered (uid : string) : Response :=
  json (Some "Registration successful") (Some (DDoc (obj [("userId", VStr uid)]))).

(** No user of [st] has the identifier [uid]. *)
Definition freshId (st : State) (uid : string) : bool :=
  forallb (λ u, negb (strictEq (VStr uid) (get u "_id"))) (coll (db st) "users").

(** ** Sessions and their revocation *)

(** Every session record that carries [tok] is inactive. *)
Definition revoked (d : Db) (tok : string) : Prop :=
  ∀ s, s ∈ coll d "user_sessions" → get s "session_token" = VStr tok →
       strictEq (VBool true) (get s "is_active") = false.

(** At most one session record carries [tok]. *)
Definition singleToken (d : Db) (tok : string) : Prop :=
  ∀ i j s1 s2,
    coll d "user_sessions" !! i = Some s1 → coll d "user_sessions" !! j = Some s2 →
    get s1 "session_token" = VStr tok → get s2 "session_token" = VStr tok → i = j.

(** No session record carries [tok]. *)
Definition unissued (d : Db) (tok : string) : Prop :=
  ∀ s, s ∈ coll d "user_sessions" → get s "session_token" ≠ VStr tok.

(** No login of the run draws [tok] again. *)
Definition notReissued (tok : string) (evs : list Event) : Prop :=
  ∀ e req, Call e req ∈ evs → issued e req ≠ Some tok.

Definition loggedOut : Response := json (Some "Logged out successfully") None.

Definition expiredAnswer : Response := fail 401 "Invalid or expired session".

(** Checks of the three conditions on a given state and run. *)
Definition carries (tok : string) (s : doc) : bool :=
  strictEq (VStr tok) (get s "session_token").

Definition singleTokenb (d : Db) (tok : string) : bool :=
  (length (List.filter (carries tok) (coll d "user_sessions")) <=? 1)%nat.

Definition unissuedb (d : Db) (tok : string) : bool :=
  forallb (λ s, negb (carries tok s)) (coll d "user_sessions").

Definition notReissuedb (tok : string) (evs : list Event) : bool :=
  forallb (λ ev, match ev with
                 | Call e req =>
                     match issued e req with
                     | Some t => negb (String.eqb t tok)
                     | None => true
                     end
                 | Expiry _ => true
                 end) evs.

(** ** Uniqueness of the indexed fields *)

(** No record collides with a later one on a unique index. *)
Fixpoint uniqueP (ixs : list index) (c : list doc) : Prop :=
  match c with
  | [] => True
  | x :: c' =>
      (∀ y ix, y ∈ c' → ix ∈ ixs → ix_unique ix = true → collides ix x y = false)
      ∧ uniqueP ixs c'
  end.

Definition indexed (d : Db) : Prop :=
  ∀ name, name ∈ collectionNames → uniqueP (ixsOf name) (coll d name).

(** No two records of [c] hold the same string in [field]. *)
Definition distinctOn (field : string) (c : list doc) : Prop :=
  ∀ i j x y v,
    c !! i = Some x → c !! j = Some y → i ≠ j →
    x !! field = Some (VStr v) → y !! field ≠ Some (VStr v).

Definition uniqueIndex (field : string) : index :=
  {| ix_field := field; ix_unique := true; ix_sparse := false |}.

(** ** A scenario: register, log in, pay

    A stand-in for the libraries, and the requests and states of the
    end-to-end scenarios of the specification. *)

Definition isHexChar (c : ascii) : bool :=
  isDigit c || inRange "a" "f" c || inRange "A" "F" c.

Fixpoint toLowerCase (s : string) : string :=
  match s with
  | EmptyString => EmptyString
  | String c s' => String (lowerChar c) (toLowerCase s')
  end.

(** Signed tokens of the stand-in are ["jwt.<sub>.<expiry>"]. *)
Definition demoVerify (token : string) (now : Z) : option (option string) :=
  match split "." token with
  | [hd; sub; e] =>
      if String.eqb hd "jwt" && String.eqb e "late" then Some (Some sub)
      else if String.eqb hd "jwt" && String.eqb e (pretty (now / 3600000 + 1))
      then Some (Some sub)
      else None
  | _ => None
  end.

#[local] Instance demoPlatform : Platform := {|
  jwt_sign userId now := "jwt." +:+ userId +:+ "." +:+ pretty (now / 3600000 + 1);
  jwt_verify := demoVerify;
  bcrypt_hash password salt := salt +:+ "$" +:+ password;
  bcrypt_compare password hash :=
    match split "$" hash with
    | [_; p] => String.eqb p password
    | _ => false
    end;
  ObjectId_new id :=
    if (String.length id =? 24)%nat && allOf isHexChar id
    then Some (toLowerCase id) else None;
  zod_email e :=
    match split "@" e with
    | [a; b] => negb (String.eqb a "") && negb (String.eqb b "")
    | _ => false
    end;
  SESSION_STRICT_BINDING := false
|}.

Definition blank : Request :=
  {| authorization := None; req_ip := Some "203.0.113.4"; remoteAddress := None;
     user_agent := Some "curl/8.5"; body := ∅; param_id := ""; query_status := None;
     clock := 1700000000123; randomUUID := "u-0"; randomBytes := [];
     mathRandom36 := "0.k3x9q2m7"; salt := "s0" |}.

Definition withBody (b : doc) (uuid : string) (now : Z) (req : Request) : Request :=
  {| authorization := authorization req; req_ip := req_ip req;
     remoteAddress := remoteAddress req; user_agent := user_agent req;
     body := b; param_id := param_id req; query_status := query_status req;
     clock := now; randomUUID := uuid; randomBytes := randomBytes req;
     mathRandom36 := mathRandom36 req; salt := salt req |}.

Definition withBearer (token : string) (id : string) (req : Request) : Request :=
  {| authorization := Some ("Bearer " +:+ token); req_ip := req_ip req;
     remoteAddress := remoteAddress req; user_agent := user_agent req;
     body := body req; param_id := id; query_status := query_status req;
     clock := clock req; randomUUID := randomUUID req; randomBytes := randomBytes req;
     mathRandom36 := mathRandom36 req; salt := salt req |}.

Definition withBytes (bs : list Byte.byte) (req : Request) : Request :=
  {| authorization := authorization req; req_ip := req_ip req;
     remoteAddress := remoteAddress req; user_agent := user_agent req;
     body := body req; param_id := param_id req; query_status := query_status req;
     clock := clock req; randomUUID := randomUUID req; randomBytes := bs;
     mathRandom36 := mathRandom36 req; salt := salt req |}.

Definition atClock (now : Z) (req : Request) : Request :=
  withBody (body req) (randomUUID req) now req.

Definition credentials : doc :=
  obj [ ("email", VStr "a@x.com"); ("password", VStr "Abc12345!") ].

Definition paymentBody : doc :=
  obj [ ("recipient_name", VStr "JOHN SMITH");
        ("recipient_account", VStr "GB82WEST123");
        ("recipient_bank", VStr "HSBC Bank");
        ("recipient_country", VStr "United Kingdom");
        ("swift_code", VStr "NWBKGB2L");
        ("amount", VNum 1500);
        ("currency", VStr "USD") ].

Definition tokenBytes : list Byte.byte := [Byte.x3a; Byte.x7f; Byte.x00; Byte.xc4].
Definition tokenA : string := toHex tokenBytes.

(** A registers, logs in and pays, then tries the staff listing. *)
Definition registerA : Request := withBody credentials "user-a" 1700000000100 blank.

Definition loginA : Request :=
  withBytes tokenBytes (withBody credentials "sess-a" 1700000000110 blank).

(** The in-memory server after [a@x.com] registered and logged in. *)
Definition fallbackStart : State :=
  {| db := Fallback.connectToDatabase None 1700000000000 "s" "staff-1";
     rateLimitMap := ∅ |}.

Definition fallbackLoggedIn : State :=
  let st1 := (Fallback.handle Register fallbackStart
                (withBody credentials "user-a" 1700000000100 blank)).1 in
  (Fallback.handle Login st1
     (withBytes tokenBytes (withBody credentials "sess-a" 1700000000110 blank))).1.

(** The base server on an empty MongoDB, after the same two requests. *)
Definition baseStart : State :=
  {| db := mongoDb ∅; rateLimitMap := ∅ |}.

Definition baseLoggedIn : State :=
  let st1 := (Base.handle Register baseStart
                (withBody credentials "64b7f3a2c9e1d4f5a6b7c8d9" 1700000000100 blank)).1 in
  (Base.handle Login st1
     (withBytes tokenBytes
        (withBody credentials "64b7f3a2c9e1d4f5a6b7c8da" 1700000000110 blank))).1.

Definition payRequest : Request :=
  withBearer tokenA "" (withBody paymentBody "64b7f3a2c9e1d4f5a6b7c8db" 1700000000123 blank).

(** A second user, and requests of the scenario. *)
Definition credentialsB : doc :=
  obj [ ("email", VStr "b@y.org"); ("password", VStr "Xyz98765?") ].

Definition tokenBytesB : list Byte.byte := [Byte.x51; Byte.xe2; Byte.x9d; Byte.x0b].
Definition tokenB : string := toHex tokenBytesB.

Definition fallbackPaid : State :=
  (Fallback.handle CreatePayment fallbackLoggedIn payRequest).1.

Definition fallbackTwoUsers : State :=
  let st1 := (Fallback.handle Register fallbackPaid
                (withBody credentialsB "user-b" 1700000000200 blank)).1 in
  (Fallback.handle Login st1
     (withBytes tokenBytesB (withBody credentialsB "sess-b" 1700000000210 blank))).1.

Definition basePaid : State :=
  (Base.handle CreatePayment baseLoggedIn payRequest).1.

Definition baseTwoUsers : State :=
  let st1 := (Base.handle Register basePaid
                (withBody credentialsB "64b7f3a2c9e1d4f5a6b7c8dc" 1700000000200 blank)).1 in
  (Base.handle Login st1
     (withBytes tokenBytesB
        (withBody credentialsB "64b7f3a2c9e1d4f5a6b7c8dd" 1700000000210 blank))).1.

(** The staff of the scenario logs in. *)
Definition staffCredentials : doc :=
  obj [ ("email", VStr "test12345@gmail.com"); ("password", VStr "P@ssw0rd!") ].

Definition tokenBytesS : list Byte.byte := [Byte.x0c; Byte.xaa; Byte.x17; Byte.xf3].
Definition tokenS : string := toHex tokenBytesS.

Definition fallbackStaffIn : State :=
  (Fallback.handle Login fallbackTwoUsers
     (withBytes tokenBytesS (withBody staffCredentials "sess-s" 1700000000300 blank))).1.

Definition verify1 : Request :=
  withBearer tokenS "64b7f3a2c9e1d4f5a6b7c8db" (atClock 1700000000400 blank).

Definition verify2 : Request :=
  withBearer tokenS "64b7f3a2c9e1d4f5a6b7c8db" (atClock 1700000000500 blank).

(** A is busy: a payment every 361 seconds, 51 in all. *)
Definition payAt (k : Z) : Request :=
  withBearer tokenA ""
    (withBody paymentBody ("tx-" +:+ pretty k) (1700000000123 + k * 361000) blank).

Definition fallbackBusy : State :=
  foldl (λ st k, (Fallback.handle CreatePayment st (payAt k)).1)
        fallbackLoggedIn (seqZ 0 51).

Definition historyRequest (now : Z) : Request :=
  withBearer tokenA "" (atClock now blank).

Definition afterRegistration : list Event :=
  [Call Login loginA; Call CreatePayment payRequest].

Definition adminRequest : Request :=
  withBearer tokenA "" (atClock 1700000000200 blank).

(** A logs out; then B logs in again and A asks for the history, once
    with the session token and once with the signed token of the login. *)
Definition logoutA : Request := withBearer tokenA "" (atClock 1700000000500 blank).

Definition afterLogout : list Event :=
  [ Call Login (withBytes tokenBytesB (withBody credentialsB "sess-b2" 1700000000600 blank));
    Expiry 1700000000700 ].

Definition jwtA : string := "jwt.user-a.472223".

Definition userA : doc :=
  default ∅ (Fallback.findUserById (db fallbackTwoUsers) "user-a").

(** A pays twice in the same millisecond, with the same random draw. *)
Definition payAgain : Request :=
  withBearer tokenA "" (withBody paymentBody "64b7f3a2c9e1d4f5a6b7c8de" 1700000000123 blank).

Definition mongoRun : list Event :=
  [ Call Register registerA; Call Login loginA; Call CreatePayment payRequest;
    Call CreatePayment payAgain; Expiry 1800000000000 ].

(** ** Further shapes of strings *)

(** A digit of [buffer.toString('hex')]. *)
Definition isLowerHex (c : ascii) : bool := isDigit c || inRange "a" "f" c.

Definition noSpace (s : string) : bool := allOf (λ c, negb (Ascii.eqb c " ")) s.

(** ** The helpers of the worker

    [worker/index.ts] has the rate limiter and the reference numbers of
    the server, and renders its session token byte by byte. *)

(** [b.toString(16)] of a byte. *)
Definition toString16 (n : N) : string :=
  if (n <? 16)%N then String (hexDigit n) EmptyString
  else String (hexDigit (n / 16)) (String (hexDigit (n mod 16)) EmptyString).

(** [s.padStart(n, fill)] *)
Definition padStart (n : nat) (fill : ascii) (s : string) : string :=
  string_of_list_ascii (replicate (n - String.length s) fill) +:+ s.

(** [parts.join('')] *)
Definition join (parts : list string) : string :=
  foldr String.append EmptyString parts.

Module Worker.

(** [Array.from(crypto.getRandomValues(new Uint8Array(32)))
      .map(b => b.toString(16).padStart(2, '0')).join('')] *)
Definition generateSessionToken (randomValues : list Byte.byte) : string :=
  join ((λ b, padStart 2 "0" (toString16 (Byte.to_N b))) <$> randomValues).

End Worker.

(** ** Acceptance of a payment *)

(** The request passed [authMiddleware] as [user], its body passed
    [CreatePaymentSchema] as [paymentData], and the limiter let it
    through under [key]. *)
Definition cleared (auth : AuthResult) (validated : option doc) (key : string)
    (st : State) (req : Request) (user paymentData : doc) : Prop :=
  auth = Next user
  ∧ validated = Some paymentData
  ∧ (checkRateLimit (clock req) key 10 3600000 (rateLimitMap st)).2 = true.

(** MongoDB does not refuse the transaction [t]: no unique index files a
    stored transaction under a key of [t].  The in-memory store refuses
    nothing. *)
Definition insertable (d : Db) (t : doc) (uuid : string) : Prop :=
  backend d = Mongo →
  violates (ixsOf "payment_transactions") (coll d "payment_transactions")
           (stored t uuid) = false.

(** ** Routes and their rate-limit counters *)

(** The routes behind [authMiddleware]. *)
Definition protected (e : Endpoint) : bool :=
  match e with
  | Register | Login | Health => false
  | _ => true
  end.

(** The key a route of the server with the fallback store passes to
    [checkRateLimit]. *)
Definition limiterKey (e : Endpoint) (req : Request) : option string :=
  match e with
  | Register => Some ("register:" +:+ clientIP req)
  | Login => Some ("login:" +:+ clientIP req)
  | CreatePayment => Some ("payments:" +:+ clientIP req)
  | _ => None
  end.

(** ** Accounts and logins *)

(** Some user record has the e-mail address [email]. *)
Definition emailTaken (d : Db) (email : string) : Prop :=
  ∃ u, u ∈ coll d "users" ∧ get u "email" = VStr email.


(** The user object of a login answer. *)
Definition loggedIn (r : Response) : doc :=
  match payload r with
  | Success _ (Some (DLogin _ user)) => user
  | _ => ∅
  end.



(** ** The life of a transaction *)

(** A transaction is pending and unprocessed, or completed and
    processed at some date. *)
Definition settled (t : doc) : Prop :=
  (get t "status" = VStr "pending" ∧ get t "is_processed" = VBool false
   ∧ get t "processed_at" = VNull)
  ∨ (get t "status" = VStr "completed" ∧ get t "is_processed" = VBool true
     ∧ ∃ ms, get t "processed_at" = VDate ms).

Definition allSettled (d : Db) : Prop :=
  ∀ t, t ∈ coll d "payment_transactions" → settled t.

(** ** The script [scripts/fixTransactionSwift.ts]

    One [updateMany] on [payment_transactions] of the MongoDB at
    [MONGODB_URI]. *)

(** The filter
    [{ $or: [{ swift_code: { $exists: false } }, { swift_code: null }] }];
    for MongoDB [null] matches a missing field as well. *)
Definition lacksSwift (t : doc) : bool :=
  match t !! "swift_code" with
  | None | Some VNull | Some VUndef => true
  | Some _ => false
  end.

(** [{ $set: { swift_code: 'NWBKGB2L', updated_at: new Date() } }] *)
Definition swiftSet (now : Z) : doc :=
  obj [ ("swift_code", VStr "NWBKGB2L"); ("updated_at", VDate now) ].

(** What [updateMany] does to one document. *)
Definition fillSwift (now : Z) (t : doc) : doc :=
  if lacksSwift t then spread t (swiftSet now) else t.

(** The run of the script: the store it leaves and the [modifiedCount]
    it logs.  Neither field of the [$set] is indexed, so that MongoDB
    refuses no update. *)
Definition fixTransactionSwift (now : Z) (d : Db) : Db * Z :=
  let transactions := coll d "payment_transactions" in
  (setColl d "payment_transactions" (fillSwift now <$> transactions),
   Z.of_nat (length (List.filter lacksSwift transactions))).

(** Every session record carries a token. *)
Definition tokenedb (d : Db) : bool :=
  forallb (λ s, negb (strictEq VUndef (get s "session_token")))
          (coll d "user_sessions").

(** The base server on a MongoDB that holds a staff account, after the
    staff logged in. *)
Definition staffRecord : doc :=
  obj [ ("_id", VStr "64b7f3a2c9e1d4f5a6b7c8e0");
        ("email", VStr "test12345@gmail.com");
        ("password_hash", VStr "s$P@ssw0rd!");
        ("full_name", VStr "Seeded Staff");
        ("is_verified", VBool true);
        ("is_active", VBool true);
        ("is_staff", VBool true) ].

Definition baseStaffIn : State :=
  (Base.handle Login
     {| db := mongoDb {[ "users" := [staffRecord] ]}; rateLimitMap := ∅ |}
     (withBytes tokenBytesS
        (withBody staffCredentials "64b7f3a2c9e1d4f5a6b7c8e1" 1700000000300 blank))).1.

(** ** The payment form of the client ([PaymentForm.tsx]) *)

(** [parseFloat] of the browser. *)
Class Browser := { parseFloat : string → float }.

Module PaymentForm.

(** The state [formData]: what the inputs hold, all strings. *)
Record FormData := {
  recipient_name : string;
  recipient_account : string;
  recipient_bank : string;
  recipient_country : string;
  swift_code : string;
  amount : string;
  currency : string;
  purpose : string
}.

(** The codes of [currencies] and the names of [countries], which the
    two [select] elements offer. *)
Definition currencies : list string :=
  ["USD"; "EUR"; "GBP"; "JPY"; "CAD"; "AUD"; "CHF"; "CNY"].

Definition countries : list string :=
  [ "United States"; "United Kingdom"; "Canada"; "Australia"; "Germany";
    "France"; "Japan"; "Switzerland"; "Netherlands"; "Singapore";
    "Hong Kong"; "Ireland"; "Italy"; "Spain"; "Belgium"; "Austria";
    "Sweden"; "Norway"; "Denmark"; "Finland"; "New Zealand" ].

(** [errors.field = message], when a check fails. *)
Definition setError (field : string) (message : option string)
    (errors : gmap string string) : gmap string string :=
  match message with
  | Some m => <[field := m]> errors
  | None => errors
  end.

Section Form.
Context `{Browser}.

(** [validateForm]: the errors it sets, and whether there are none. *)
Definition validateForm (formData : FormData) : gmap string string * bool :=
  let errors := ∅ in
  let errors :=
    setError "recipient_name"
      (if String.eqb (recipient_name formData) ""
       then Some "Recipient name is required"
       else if (String.length (recipient_name formData) <? 2)%nat
       then Some "Recipient name must be at least 2 characters"
       else if negb (atLeast 1 isNameChar (recipient_name formData))
       then Some "Recipient name can only contain letters, spaces, hyphens and dots"
       else None) errors in
  let errors :=
    setError "recipient_account"
      (if String.eqb (recipient_account formData) ""
       then Some "Account number is required"
       else if (String.length (recipient_account formData) <? 8)%nat
       then Some "Account number must be at least 8 characters"
       else if negb (atLeast 1 isAccountChar (recipient_account formData))
       then Some "Invalid account number format"
       else None) errors in
  let errors :=
    setError "recipient_bank"
      (if String.eqb (recipient_bank formData) ""
       then Some "Bank name is required"
       else if negb (atLeast 1 isNameChar (recipient_bank formData))
       then Some "Bank name can only contain letters, spaces, hyphens and dots"
       else None) errors in
  let errors :=
    setError "recipient_country"
      (if String.eqb (recipient_country formData) ""
       then Some "Country is required" else None) errors in
  let errors :=
    setError "swift_code"
      (if String.eqb (swift_code formData) ""
       then Some "SWIFT code is required"
       else if negb (swiftPattern (swift_code formData))
       then Some "Invalid SWIFT code format (e.g., BOFAUS3N or DEUTDEFF500)"
       else None) errors in
  let errors :=
    setError "amount"
      (if String.eqb (amount formData) ""
       then Some "Amount is required"
       else
         let amount := parseFloat (amount formData) in
         if PrimFloat.is_nan amount || PrimFloat.leb amount 0
         then Some "Amount must be a positive number"
         else if PrimFloat.ltb amount 1
         then Some "Minimum amount is 1"
         else if PrimFloat.ltb 50000 amount
         then Some "Maximum amount is 50,000"
         else None) errors in
  let errors :=
    setError "purpose"
      (if negb (String.eqb (purpose formData) "")
          && (200 <? String.length (purpose formData))%nat
       then Some "Purpose cannot exceed 200 characters"
       else if negb (String.eqb (purpose formData) "")
               && negb (atLeast 1 isPurposeChar (purpose formData))
       then Some "Purpose contains invalid characters"
       else None) errors in
  (errors, bool_decide (errors = ∅)).

(** What [handleConfirm] submits, as the server reads it from the JSON
    body: [purpose] is left out when it is empty. *)
Definition handleConfirm (formData : FormData) : doc :=
  (if String.eqb (purpose formData) "" then id
   else <["purpose" := VStr (purpose formData)]>)
    (obj [ ("recipient_name", VStr (recipient_name formData));
           ("recipient_account", VStr (recipient_account formData));
           ("recipient_bank", VStr (recipient_bank formData));
           ("recipient_country", VStr (recipient_country formData));
           ("swift_code", VStr (swift_code formData));
           ("amount", VNum (parseFloat (amount formData)));
           ("currency", VStr (currency formData)) ]).

(** [calculateFee] *)
Definition calculateFee (formData : FormData) : float :=
  let amount := parseFloat (amount formData) in
  if PrimFloat.is_nan amount then 0%float else (amount * feeRate)%float.

End Form.

End PaymentForm.

(** A stand-in for the browser, and a form as a user fills it in. *)
#[local] Instance demoBrowser : Browser := {|
  parseFloat s := if String.eqb s "1500" then 1500%float else nan
|}.

Definition demoForm : PaymentForm.FormData :=
  {| PaymentForm.recipient_name := "JOHN SMITH";
     PaymentForm.recipient_account := "GB82WEST123";
     PaymentForm.recipient_bank := "HSBC Bank";
     PaymentForm.recipient_country := "United Kingdom";
     PaymentForm.swift_code := "NWBKGB2L";
     PaymentForm.amount := "1500";
     PaymentForm.currency := "USD";
     PaymentForm.purpose := "" |}.

(** * Properties *)

(** ** Rate limiter *)

Section RateLimiter.
Implicit Types (m : gmap string RateEntry) (k : string).

Lemma checkRateLimit_reset m k now maxRequests windowMs :
  opensWindow m k now →
  checkRateLimit now k maxRequests windowMs m
  = (<[k := {| count := 1; resetTime := now + windowMs |}]> m, true).
Proof.
  unfold checkRateLimit. intros [-> | (e & -> & Hgt)]; [done|].
  by rewrite bool_decide_eq_true_2.
Qed.

Lemma checkRateLimit_counting m k e now maxRequests windowMs :
  m !! k = Some e → ¬ now > resetTime e →
  checkRateLimit now k maxRequests windowMs m
  = if bool_decide (count e + 1 <= maxRequests)
    then (<[k := {| count := count e + 1; resetTime := resetTime e |}]> m, true)
    else (m, false).
Proof.
  unfold checkRateLimit. intros -> Hle.
  rewrite bool_decide_eq_false_2 by done.
  destruct (decide (count e >= maxRequests)) as [Hge | Hlt].
  - rewrite bool_decide_eq_true_2 by done.
    rewrite bool_decide_eq_false_2 by lia. done.
  - rewrite bool_decide_eq_false_2 by done.
    rewrite bool_decide_eq_true_2 by lia. done.
Qed.

Lemma checkRateLimit_other_key m k k' now maxRequests windowMs :
  k' ≠ k →
  (checkRateLimit now k' maxRequests windowMs m).1 !! k = m !! k.
Proof.
  intros Hne. unfold checkRateLimit.
  destruct (m !! k') as [e|]; repeat case_bool_decide; simpl;
    by rewrite ?lookup_insert_ne.
Qed.

(** Inside a window the entry of [k] keeps its [resetTime], and the
    answers follow the number of calls made so far. *)
Lemma answersFor_window k maxRequests R cs : ∀ m c s,
  m !! k = Some {| count := c; resetTime := R |} →
  (c = s ∨ (maxRequests <= c ∧ maxRequests <= s)) →
  (∀ x, x ∈ cs → rc_key x = k → rc_max x = maxRequests ∧ rc_now x <= R) →
  (answersFor k m cs).2 = windowAnswers (s + 1) maxRequests (length (callsOf k cs))
  ∧ ∃ c', (answersFor k m cs).1 !! k = Some {| count := c'; resetTime := R |}.
Proof.
  induction cs as [|x cs IH]; intros m c s Hm Hinv Hcs.
  { simpl. eauto. }
  assert (Hcs' : ∀ y, y ∈ cs → rc_key y = k → rc_max y = maxRequests ∧ rc_now y <= R).
  { intros y Hy. apply Hcs. by right. }
  simpl. unfold callsOf. rewrite filter_cons.
  destruct (rateStep m x) as [m1 b] eqn:Hstep.
  destruct (answersFor k m1 cs) as [m2 bs] eqn:Hrest.
  destruct (decide (rc_key x = k)) as [Hk | Hk].
  - rewrite bool_decide_eq_true_2 by done. simpl.
    destruct (Hcs x) as [Hmax Hnow]; [by left | done |].
    unfold rateStep in Hstep. rewrite Hk, Hmax in Hstep.
    rewrite (checkRateLimit_counting m k _ _ _ _ Hm) in Hstep by (simpl; lia).
    simpl in Hstep. case_bool_decide as Hc; simplify_eq.
    + destruct (IH (<[rc_key x := {| count := c + 1; resetTime := R |}]> m)
                  (c + 1) (s + 1)) as [Hans Hent];
        [by rewrite lookup_insert_eq | lia | done |].
      rewrite Hrest in Hans, Hent. simpl in *. split; [|done].
      rewrite Hans. f_equal. rewrite bool_decide_eq_true_2; [done | lia].
    + destruct (IH m1 c (s + 1)) as [Hans Hent]; [done | lia | done |].
      rewrite Hrest in Hans, Hent. simpl in *. split; [|done].
      rewrite Hans. f_equal. rewrite bool_decide_eq_false_2; [done | lia].
  - rewrite bool_decide_eq_false_2 by done.
    assert (Hm1 : m1 !! k = Some {| count := c; resetTime := R |}).
    { replace m1 with (rateStep m x).1 by (by rewrite Hstep).
      unfold rateStep. by rewrite checkRateLimit_other_key. }
    destruct (IH m1 c s Hm1 Hinv Hcs') as [Hans Hent].
    rewrite Hrest in Hans, Hent. done.
Qed.

Lemma windowAnswers_lookup maxRequests (n i : nat) (j : Z) b :
  windowAnswers j maxRequests n !! i = Some b →
  b = bool_decide (j + Z.of_nat i <= maxRequests).
Proof.
  revert i j. induction n as [|n IH]; intros i j; [done|].
  destruct i as [|i]; simpl.
  - intros [= <-]. apply bool_decide_ext. lia.
  - intros H. rewrite (IH _ _ H). apply bool_decide_ext. lia.
Qed.

(** C2. The limiter is a fixed-window counter. A call that finds no
    entry for the key, or finds the window elapsed, stores count 1 and
    resetTime now+windowMs and passes; any other call passes exactly
    when the incremented count is at most maxRequests. So in a window
    opened at [t0], call number [i] for the key passes iff
    [i <= maxRequests], whatever happens on other keys; with a limit of
    5 the sixth call is refused; once the window has elapsed the next
    call passes and opens a new window. *)
Theorem checkRateLimit_fixed_window m k (maxRequests windowMs t0 : Z)
    (cs : list RateCall) :
  1 <= maxRequests →
  opensWindow m k t0 →
  (∀ x, x ∈ cs → rc_key x = k →
        rc_max x = maxRequests ∧ rc_now x <= t0 + windowMs) →
  let first := checkRateLimit t0 k maxRequests windowMs m in
  let rest := answersFor k first.1 cs in
  first = (<[k := {| count := 1; resetTime := t0 + windowMs |}]> m, true)
  ∧ (∀ m' e now mx w, m' !! k = Some e → ¬ now > resetTime e →
       (checkRateLimit now k mx w m').2 = bool_decide (count e + 1 <= mx))
  ∧ first.2 :: rest.2
    = windowAnswers 1 maxRequests (S (length (callsOf k cs)))
  ∧ (maxRequests = 5 → ∀ b, (first.2 :: rest.2) !! 5%nat = Some b → b = false)
  ∧ (∀ t mx w, t > t0 + windowMs →
       checkRateLimit t k mx w rest.1
       = (<[k := {| count := 1; resetTime := t + w |}]> rest.1, true)).
Proof.
  intros Hmax Hopen Hcs first rest. subst first rest.
  rewrite (checkRateLimit_reset _ _ _ _ _ Hopen). simpl.
  destruct (answersFor_window k maxRequests (t0 + windowMs) cs
              (<[k := {| count := 1; resetTime := t0 + windowMs |}]> m) 1 1)
    as [Hans [c' Hent]]; [by rewrite lookup_insert_eq | by left | done |].
  assert (Hall : true :: (answersFor k
             (<[k := {| count := 1; resetTime := t0 + windowMs |}]> m) cs).2
           = windowAnswers 1 maxRequests (S (length (callsOf k cs)))).
  { simpl. rewrite bool_decide_eq_true_2 by done. by rewrite Hans. }
  split_and!; [done | | done | |].
  - intros m' e now mx w Hm' Hnow.
    rewrite (checkRateLimit_counting _ _ _ _ _ _ Hm' Hnow).
    by case_bool_decide.
  - intros -> b Hb. rewrite Hans in Hb.
    apply windowAnswers_lookup in Hb. subst b. apply bool_decide_eq_false_2. lia.
  - intros t mx w Ht. apply checkRateLimit_reset. right.
    eexists. split; [exact Hent|]. simpl. lia.
Qed.

Lemma checkRateLimit_fixed_window_witness :
  let first := checkRateLimit 1000 "login:203.0.113.4" 5 900000 ∅ in
  let rest := answersFor "login:203.0.113.4" first.1 loginBurst in
  first.2 :: rest.2 = [true; true; true; true; true; false; false]
  ∧ (checkRateLimit 901001 "login:203.0.113.4" 5 900000 rest.1).2 = true.
Proof.
  assert (Hin : ∀ x, x ∈ loginBurst → rc_key x = "login:203.0.113.4" →
                     rc_max x = 5 ∧ rc_now x <= 1000 + 900000).
  { intros x Hx Hk. unfold loginBurst in Hx.
    repeat (apply elem_of_cons in Hx as [-> | Hx]; [simpl in *; first [lia | done] |]).
    by apply elem_of_nil in Hx. }
  pose proof (checkRateLimit_fixed_window ∅ "login:203.0.113.4" 5 900000 1000
                loginBurst ltac:(lia) (or_introl eq_refl) Hin) as H.
  cbv zeta in H. destruct H as (_ & _ & Hans & _ & Hafter).
  intros first rest. split.
  - subst first rest. rewrite Hans. reflexivity.
  - subst first rest. rewrite Hafter by lia. reflexivity.
Defined.
End RateLimiter.

(** ** Reference numbers *)

Lemma string_app_cons (x : ascii) (a b : string) :
  String x a +:+ b = String x (a +:+ b).
Proof. reflexivity. Qed.

Lemma string_app_assoc (a b c : string) : (a +:+ b) +:+ c = a +:+ (b +:+ c).
Proof.
  induction a as [|x a IH]; [done|]. by rewrite !string_app_cons, IH.
Qed.

Lemma string_app_length (a b : string) :
  String.length (a +:+ b) = (String.length a + String.length b)%nat.
Proof.
  induction a as [|x a IH]; [done|]. rewrite string_app_cons. simpl. by rewrite IH.
Qed.

Lemma substring_all (s : string) : substring 0 (String.length s) s = s.
Proof. induction s as [|x s IH]; simpl; [done | by rewrite IH]. Qed.

Lemma substring_skip (p s : string) (n : nat) :
  substring (String.length p) n (p +:+ s) = substring 0 n s.
Proof.
  induction p as [|x p IH]; [done|]. rewrite string_app_cons. simpl. apply IH.
Qed.

Lemma sliceLast_app (p s : string) (n : nat) :
  String.length s = n → sliceLast n (p +:+ s) = s.
Proof.
  intros <-. unfold sliceLast. rewrite string_app_length.
  replace (String.length p + String.length s - String.length s)%nat
    with (String.length p) by lia.
  by rewrite substring_skip, substring_all.
Qed.

Lemma pretty_N_go_app (x : N) (s : string) :
  pretty_N_go x s = pretty_N_go x "" +:+ s.
Proof.
  revert s. induction (N.lt_wf_0 x) as [x _ IH]. intros s.
  destruct (decide (x = 0)%N) as [-> | Hx]; [done|].
  rewrite (pretty_N_go_step x s), (pretty_N_go_step x "") by lia.
  rewrite (IH (x / 10)%N) by (apply N.div_lt; lia).
  rewrite (IH (x / 10)%N ltac:(apply N.div_lt; lia) (String _ "")).
  by rewrite string_app_assoc.
Qed.

(** The decimal rendering of a number of six digits or more ends with
    its last six digits. *)
Lemma pretty_last_six (n : N) :
  (100000 <= n)%N →
  pretty_N_go n "" = pretty_N_go (n / 1000000) "" +:+ sixDigits n.
Proof.
  intros Hn. unfold sixDigits.
  assert (H1 : (0 < n / 10)%N) by (apply N.div_str_pos; lia).
  assert (H2 : (0 < n / 10 / 10)%N) by (rewrite N.Div0.div_div; apply N.div_str_pos; lia).
  assert (H3 : (0 < n / 10 / 10 / 10)%N) by (rewrite !N.Div0.div_div; apply N.div_str_pos; lia).
  assert (H4 : (0 < n / 10 / 10 / 10 / 10)%N) by (rewrite !N.Div0.div_div; apply N.div_str_pos; lia).
  assert (H5 : (0 < n / 10 / 10 / 10 / 10 / 10)%N) by (rewrite !N.Div0.div_div; apply N.div_str_pos; lia).
  rewrite (pretty_N_go_step n) by lia.
  rewrite (pretty_N_go_step (n / 10)) by done.
  rewrite (pretty_N_go_step (n / 10 / 10)) by done.
  rewrite (pretty_N_go_step (n / 10 / 10 / 10)) by done.
  rewrite (pretty_N_go_step (n / 10 / 10 / 10 / 10)) by done.
  rewrite (pretty_N_go_step (n / 10 / 10 / 10 / 10 / 10)) by done.
  rewrite pretty_N_go_app. rewrite !N.Div0.div_div. simpl (_ * _)%N. done.
Qed.

Lemma sliceLast_timestamp (now : Z) :
  100000 <= now → sliceLast 6 (pretty now) = sixDigits (Z.to_N now).
Proof.
  intros Hnow. destruct now as [|p|p]; [lia | | lia].
  change (pretty (Z.pos p)) with (pretty (N.pos p)).
  unfold pretty, pretty_N. rewrite decide_False by done.
  rewrite pretty_last_six by lia. by apply sliceLast_app.
Qed.

Lemma pretty_N_char_digit (n : N) : isDigit (pretty_N_char n) = true.
Proof.
  destruct n as [|p]; [done|].
  do 4 (destruct p as [p|p|]; try done).
Qed.

Lemma upperChar_base36 (c : ascii) :
  isBase36 c = true → isRefChar (upperChar c) = true.
Proof.
  destruct c as [[] [] [] [] [] [] [] []]; vm_compute; congruence.
Qed.

Lemma toUpperCase_base36 (s : string) :
  allOf isBase36 s = true → allOf isRefChar (toUpperCase s) = true.
Proof.
  unfold allOf, chars. induction s as [|c s IH]; simpl; [done|].
  intros [Hc Hs]%andb_prop. by rewrite upperChar_base36, IH.
Qed.

Lemma toUpperCase_length (s : string) :
  String.length (toUpperCase s) = String.length s.
Proof. induction s as [|c s IH]; simpl; [done | by rewrite IH]. Qed.

Lemma substring_length_le (n m : nat) (s : string) :
  (String.length (substring n m s) <= m)%nat.
Proof.
  revert n m. induction s as [|c s IH]; intros [|n] [|m]; simpl; try lia.
  - specialize (IH 0%nat m). lia.
  - apply (IH n 0%nat).
  - apply (IH n (S m)).
Qed.

Lemma sliceLast_length_le (n : nat) (s : string) :
  (String.length (sliceLast n s) <= n)%nat.
Proof. apply substring_length_le. Qed.

Lemma generateReferenceNumber_length (now : Z) (random36 : string) :
  (String.length (generateReferenceNumber now random36) <= 15)%nat.
Proof.
  unfold generateReferenceNumber. rewrite !string_app_length, toUpperCase_length.
  pose proof (sliceLast_length_le 6 (pretty now)).
  pose proof (substring_length_le 2 6 random36). simpl. lia.
Qed.

(** C4, as amended.  A reference number is "INT", the last six
    characters of the decimal timestamp and the upper-cased characters 2
    to 7 of the base-36 rendering of the draw, at most 15 characters in
    all.  When the timestamp has six digits or more and the rendering has
    six fractional digits or more, it is "INT", the six last digits of
    the timestamp and six characters of A-Z0-9: 15 characters matching
    INT\d{6}[A-Z0-9]{6}. *)
Theorem generateReferenceNumber_shape (now : Z) (frac : string) :
  100000 <= now →
  (6 <= String.length frac)%nat →
  allOf isBase36 frac = true →
  generateReferenceNumber now ("0." +:+ frac)
  = "INT" +:+ sixDigits (Z.to_N now) +:+ toUpperCase (substring 0 6 frac)
  ∧ String.length (generateReferenceNumber now ("0." +:+ frac)) = 15%nat
  ∧ refPattern (generateReferenceNumber now ("0." +:+ frac)) = true
  ∧ (∀ t r, (String.length (generateReferenceNumber t r) <= 15)%nat).
Proof.
  intros Hnow Hlen Hfrac.
  assert (Heq : generateReferenceNumber now ("0." +:+ frac)
    = "INT" +:+ sixDigits (Z.to_N now) +:+ toUpperCase (substring 0 6 frac)).
  { unfold generateReferenceNumber. by rewrite sliceLast_timestamp. }
  rewrite Heq. split; [done|].
  destruct frac as [|c1 [|c2 [|c3 [|c4 [|c5 [|c6 rest]]]]]]; simpl in Hlen; try lia.
  unfold allOf, chars in Hfrac. simpl in Hfrac.
  repeat (apply andb_prop in Hfrac as [?%upperChar_base36 Hfrac]).
  replace (substring 0 6 (String c1 (String c2 (String c3 (String c4
             (String c5 (String c6 rest)))))))
    with (String c1 (String c2 (String c3 (String c4 (String c5 (String c6 ""))))))
    by (simpl; by destruct rest).
  split_and!.
  - reflexivity.
  - cbv [String.append String.length sixDigits substring toUpperCase refPattern
         allOf chars startsWith String.prefix list_ascii_of_string forallb dropStr].
    rewrite !pretty_N_char_digit. simpl.
    by repeat match goal with H : isRefChar _ = true |- _ => rewrite H; clear H end.
  - apply generateReferenceNumber_length.
Qed.

Lemma generateReferenceNumber_shape_witness :
  generateReferenceNumber 1700000000123 "0.k3x9q2m7"
  = "INT" +:+ sixDigits 1700000000123 +:+ toUpperCase "k3x9q2".
Proof.
  apply (generateReferenceNumber_shape 1700000000123 "k3x9q2m7");
    [lia | simpl; lia | reflexivity].
Defined.

(** The draw 0.5 renders as "0.i" in base 36: the reference number has
    a single random character and 10 characters in all. *)
Lemma generateReferenceNumber_short_draw :
  isRandom36 "0.i" = true
  ∧ generateReferenceNumber 1700000000123 "0.i" = "INT000123I"
  ∧ refPattern (generateReferenceNumber 1700000000123 "0.i") = false.
Proof. vm_compute. done. Qed.

(** ** The store *)

Lemma coll_setColl (d : Db) (name : string) (c : list doc) :
  coll (setColl d name c) name = c.
Proof. unfold coll, setColl. simpl. by rewrite lookup_insert_eq. Qed.

Lemma coll_setColl_ne (d : Db) (name name' : string) (c : list doc) :
  name ≠ name' → coll (setColl d name c) name' = coll d name'.
Proof. intros Hne. unfold coll, setColl. simpl. by rewrite lookup_insert_ne. Qed.

Lemma insertOne_Ok (d : Db) (name : string) (x : doc) (freshId : string)
    (d' : Db) (v : value) :
  insertOne d name x freshId = Ok (d', v) →
  d' = setColl d name (coll d name ++ [stored x freshId])
  ∧ v = get (stored x freshId) "_id"
  ∧ (backend d = Mongo →
     violates (ixsOf name) (coll d name) (stored x freshId) = false).
Proof.
  unfold insertOne. destruct (backend d).
  - intros [= <- <-]. done.
  - destruct (violates _ _ _) eqn:Hv; [done|]. intros [= <- <-]. done.
Qed.

Lemma get_stored_ne (x : doc) (freshId k : string) :
  k ≠ "_id" → stored x freshId !! k = x !! k.
Proof.
  intros Hk. unfold stored. case_decide; [done|]. by rewrite lookup_insert_ne.
Qed.

(** The sparse index on [username] refuses no record without a
    [username]: for the records the handlers write, MongoDB answers
    alike with and without this index. *)
Lemma username_index_idle (c : list doc) (x : doc) :
  x !! "username" = None →
  violates (ixsOf "users") c x
  = violates (idIndex :: default [] (requiredIndexes !! "users")) c x.
Proof.
  intros Hx.
  change (ixsOf "users")
    with [ idIndex;
           {| ix_field := "email"; ix_unique := true; ix_sparse := false |};
           {| ix_field := "username"; ix_unique := true; ix_sparse := true |} ].
  change (idIndex :: default [] (requiredIndexes !! "users"))
    with [ idIndex;
           {| ix_field := "email"; ix_unique := true; ix_sparse := false |} ].
  unfold violates. cbn [existsb]. rewrite !orb_false_r.
  assert (existsb (λ d', collides {| ix_field := "username"; ix_unique := true;
                                     ix_sparse := true |} d' x) c = false) as ->.
  { induction c as [|d c IH]; [done|]. cbn [existsb]. rewrite IH.
    unfold collides, ixKey. cbn [ix_field ix_sparse]. rewrite Hx.
    by destruct (d !! "username") as [[]|]. }
  by rewrite andb_false_r, orb_false_r.
Qed.

Lemma newUser_no_username `{Platform} (email : value) (hash : string) (now : Z)
    (uuid : string) :
  stored (Fallback.newUser email hash now) uuid !! "username" = None
  ∧ stored (Base.newUser email hash now) uuid !! "username" = None.
Proof. rewrite !get_stored_ne by done. split; by vm_compute. Qed.

(** ** Payment creation *)

Lemma atLeast_longer (n : nat) (p q : ascii → bool) (lo hi : nat) (s : string) :
  (n <= lo)%nat → (∀ c, p c = true → q c = true) →
  lengthBetween lo hi s = true → atLeast 1 p s = true → atLeast n q s = true.
Proof.
  unfold lengthBetween, atLeast, allOf. intros Hn Hpq [Hlo _]%andb_prop [_ Hall]%andb_prop.
  apply andb_true_intro. split.
  - apply Nat.leb_le. apply Nat.leb_le in Hlo. lia.
  - rewrite forallb_forall in Hall |- *. auto.
Qed.

Lemma isAccountChar_CI (c : ascii) : isAccountChar c = true → isAccountCharCI c = true.
Proof.
  unfold isAccountChar, isAccountCharCI, isLetter.
  destruct (isUpper c), (isLower c), (isDigit c), (Ascii.eqb c "-"); done.
Qed.

(** The whitelist checks of the handler follow from the schema. *)
Lemma whitelist_passes (b paymentData : doc) :
  CreatePaymentSchema b = Some paymentData → whitelist paymentData = None.
Proof.
  unfold CreatePaymentSchema. intros Hs.
  repeat (case_match; try done). simplify_eq.
  repeat match goal with H : _ && _ = true |- _ => apply andb_prop in H as [H ?] end.
  unfold whitelist.
  match goal with o : option string |- _ => destruct o end.
  all: repeat match goal with
       | |- context [get ?m ?k] =>
           let v := eval vm_compute in (get m k) in change (get m k) with v
       end.
  all: cbn [text].
  all: rewrite (atLeast_longer 2 isNameChar isNameChar 2 100) by (done || lia);
       rewrite (atLeast_longer 8 isAccountChar isAccountCharCI 8 64)
         by (done || lia || apply isAccountChar_CI);
       rewrite (atLeast_longer 2 isNameChar isNameChar 2 100) by (done || lia);
       rewrite (atLeast_longer 2 isCountryChar isCountryChar 2 56) by (done || lia);
       done.
Qed.

Section Payments.
Context `{Platform}.

Lemma Fallback_auth_reject (st : State) (req : Request) (r : Response) :
  Fallback.authMiddleware st req = Reject r → status r = 401.
Proof.
  unfold Fallback.authMiddleware, Fallback.jwtPath.
  repeat case_match; intros; by simplify_eq.
Qed.

Lemma Base_auth_reject (st : State) (req : Request) (r : Response) :
  Base.authMiddleware st req = Reject r → status r = 401.
Proof.
  unfold Base.authMiddleware. repeat case_match; intros; by simplify_eq.
Qed.

(** What an accepted body and its validated copy hold. *)
Lemma CreatePaymentSchema_fields (b paymentData : doc) :
  CreatePaymentSchema b = Some paymentData →
  ∃ amount swift,
    get b "amount" = VNum amount
    ∧ get paymentData "amount" = VNum amount
    ∧ get b "swift_code" = VStr swift
    ∧ get paymentData "swift_code" = VStr swift
    ∧ swiftPattern swift = true
    ∧ PrimFloat.leb 1 amount = true
    ∧ PrimFloat.leb amount 50000 = true.
Proof.
  unfold CreatePaymentSchema. intros Hs.
  repeat (case_match; try done). simplify_eq.
  repeat match goal with H : _ && _ = true |- _ => apply andb_prop in H as [H ?] end.
  eexists _, _. split_and!; try done;
    match goal with o : option string |- _ => destruct o end; by vm_compute.
Qed.

Lemma get_sanitizeObject (b : doc) (k : string) :
  get (sanitizeObject b) k
  = sanitizeValue (get b k) (String.eqb k "password" || String.eqb k "password_hash").
Proof.
  unfold get, sanitizeObject. rewrite map_lookup_imap.
  destruct (b !! k) as [v|]; simpl; [done|].
  unfold sanitizeValue. by destruct (_ || _).
Qed.

Lemma sanitizeValue_number (v : value) (skip : bool) (x : float) :
  sanitizeValue v skip = VNum x → v = VNum x.
Proof. unfold sanitizeValue. destruct skip, v; intros; by simplify_eq. Qed.

(** An accepted payment on the server with the fallback store. *)
Lemma Fallback_createPayment_accepted (st st' : State) (req : Request) (r : Response) :
  Fallback.createPayment st req = (st', r) → status r = 200 →
  ∃ user paymentData,
    Fallback.authMiddleware st req = Next user
    ∧ CreatePaymentSchema (body req) = Some paymentData
    ∧ coll (db st') "payment_transactions"
      = coll (db st) "payment_transactions"
        ++ [stored (Fallback.transaction user paymentData
                      (generateReferenceNumber (clock req) (mathRandom36 req))
                      (times (get paymentData "amount") feeRate) (clock req))
                   (randomUUID req)]
    ∧ r = paymentAnswer
            (get (stored (Fallback.transaction user paymentData
                      (generateReferenceNumber (clock req) (mathRandom36 req))
                      (times (get paymentData "amount") feeRate) (clock req))
                   (randomUUID req)) "_id")
            (generateReferenceNumber (clock req) (mathRandom36 req))
            (times (get paymentData "amount") feeRate).
Proof.
  unfold Fallback.createPayment. intros Hrun Hok.
  destruct (Fallback.authMiddleware st req) as [user | r0] eqn:Hauth.
  2:{ simplify_eq. apply Fallback_auth_reject in Hauth. congruence. }
  destruct (CreatePaymentSchema (body req)) as [paymentData|]; [|by simplify_eq].
  destruct (checkRateLimit _ _ _ _ _) as [limits allowed].
  destruct allowed; simpl in Hrun; [|by simplify_eq].
  destruct (whitelist paymentData); [by simplify_eq|].
  destruct (insertOne _ _ _ _) as [[db' insertedId]|] eqn:Hins; [|by simplify_eq].
  apply insertOne_Ok in Hins as (-> & -> & _). simplify_eq.
  exists user, paymentData. split_and!; try done.
  simpl. by rewrite coll_setColl.
Qed.

(** An accepted payment on the base server. *)
Lemma Base_createPayment_accepted (st st' : State) (req : Request) (r : Response) :
  Base.createPayment st req = (st', r) → status r = 200 →
  ∃ user paymentData,
    Base.authMiddleware st req = Next user
    ∧ CreatePaymentSchema (body req) = Some paymentData
    ∧ coll (db st') "payment_transactions"
      = coll (db st) "payment_transactions"
        ++ [stored (Base.transaction user paymentData
                      (generateReferenceNumber (clock req) (mathRandom36 req))
                      (times (get paymentData "amount") feeRate) (clock req))
                   (randomUUID req)]
    ∧ r = paymentAnswer
            (get (stored (Base.transaction user paymentData
                      (generateReferenceNumber (clock req) (mathRandom36 req))
                      (times (get paymentData "amount") feeRate) (clock req))
                   (randomUUID req)) "_id")
            (generateReferenceNumber (clock req) (mathRandom36 req))
            (times (get paymentData "amount") feeRate).
Proof.
  unfold Base.createPayment. intros Hrun Hok.
  destruct (Base.authMiddleware st req) as [user | r0] eqn:Hauth.
  2:{ simplify_eq. apply Base_auth_reject in Hauth. congruence. }
  destruct (CreatePaymentSchema (body req)) as [paymentData|]; [|by simplify_eq].
  destruct (checkRateLimit _ _ _ _ _) as [limits allowed].
  destruct allowed; simpl in Hrun; [|by simplify_eq].
  destruct (whitelist paymentData); [by simplify_eq|].
  destruct (insertOne _ _ _ _) as [[db' insertedId]|] eqn:Hins; [|by simplify_eq].
  apply insertOne_Ok in Hins as (-> & -> & _). simplify_eq.
  exists user, paymentData. split_and!; try done.
  simpl. by rewrite coll_setColl.
Qed.

Lemma Fallback_transaction_lookup (user paymentData : doc) (ref : string)
    (fee : value) (now : Z) (uuid : string) :
  get (stored (Fallback.transaction user paymentData ref fee now) uuid)
      "transaction_fee" = fee
  ∧ get (stored (Fallback.transaction user paymentData ref fee now) uuid) "amount"
    = get paymentData "amount"
  ∧ stored (Fallback.transaction user paymentData ref fee now) uuid !! "swift_code"
    = Some (jsOr (get paymentData "swift_code") VNull).
Proof.
  unfold get. rewrite !get_stored_ne by done. split_and!; by vm_compute.
Qed.

Lemma Base_transaction_lookup (user paymentData : doc) (ref : string)
    (fee : value) (now : Z) (uuid : string) :
  get (stored (Base.transaction user paymentData ref fee now) uuid)
      "transaction_fee" = fee
  ∧ get (stored (Base.transaction user paymentData ref fee now) uuid) "amount"
    = get paymentData "amount"
  ∧ stored (Base.transaction user paymentData ref fee now) uuid !! "swift_code"
    = None.
Proof.
  unfold get. rewrite !get_stored_ne by done. split_and!; by vm_compute.
Qed.

Lemma paymentAnswer_fee (insertedId : value) (ref : string) (fee : value) :
  ∃ data,
    payload (paymentAnswer insertedId ref fee)
    = Success (Some "Payment initiated successfully") (Some (DDoc data))
    ∧ get data "transactionFee" = fee.
Proof. eexists. split; [reflexivity | by vm_compute]. Qed.

(** A request that clears authentication, validation and the limiter,
    and whose transaction MongoDB does not refuse, is answered 200. *)
Lemma Base_createPayment_accepts (st : State) (req : Request) (user paymentData : doc) :
  cleared (Base.authMiddleware st req) (CreatePaymentSchema (body req))
          (clientIP req) st req user paymentData →
  insertable (db st)
    (Base.transaction user paymentData
       (generateReferenceNumber (clock req) (mathRandom36 req))
       (times (get paymentData "amount") feeRate) (clock req))
    (randomUUID req) →
  status (Base.createPayment st req).2 = 200.
Proof.
  intros (Hauth & Hschema & Hlimit) Hins. unfold Base.createPayment.
  rewrite Hauth, Hschema.
  destruct (checkRateLimit _ _ _ _ _) as [limits allowed]. cbn [snd] in Hlimit.
  subst allowed. cbn [negb]. rewrite (whitelist_passes _ _ Hschema).
  unfold insertOne. cbn [db withLimits].
  destruct (backend (db st)) eqn:Hb; [done|]. by rewrite (Hins Hb).
Qed.

Lemma Fallback_createPayment_accepts (st : State) (req : Request)
    (user paymentData : doc) :
  cleared (Fallback.authMiddleware st req) (CreatePaymentSchema (body req))
          ("payments:" +:+ clientIP req) st req user paymentData →
  insertable (db st)
    (Fallback.transaction user paymentData
       (generateReferenceNumber (clock req) (mathRandom36 req))
       (times (get paymentData "amount") feeRate) (clock req))
    (randomUUID req) →
  status (Fallback.createPayment st req).2 = 200.
Proof.
  intros (Hauth & Hschema & Hlimit) Hins. unfold Fallback.createPayment.
  rewrite Hauth, Hschema.
  destruct (checkRateLimit _ _ _ _ _) as [limits allowed]. cbn [snd] in Hlimit.
  subst allowed. cbn [negb]. rewrite (whitelist_passes _ _ Hschema).
  unfold insertOne. cbn [db withLimits].
  destruct (backend (db st)) eqn:Hb; [done|]. by rewrite (Hins Hb).
Qed.

(** C8. A payment request that clears authentication, validation and
    the limiter, and whose transaction MongoDB does not refuse, is
    answered 200, on the base server and on the server with the
    fallback store; and every request answered 200 stores and returns
    as fee the product of the amount of the request and the double
    0.02, unrounded: the binary64 product, which for 1500 is exactly
    30. *)
Theorem createPayment_transaction_fee (st : State) (req : Request) :
  (∀ user paymentData,
     cleared (Base.authMiddleware st req) (CreatePaymentSchema (body req))
             (clientIP req) st req user paymentData →
     insertable (db st)
       (Base.transaction user paymentData
          (generateReferenceNumber (clock req) (mathRandom36 req))
          (times (get paymentData "amount") feeRate) (clock req))
       (randomUUID req) →
     status (Base.handle CreatePayment st req).2 = 200)
  ∧ (∀ user paymentData,
       cleared (Fallback.authMiddleware st (sanitizeInput req))
               (CreatePaymentSchema (body (sanitizeInput req)))
               ("payments:" +:+ clientIP req) st req user paymentData →
       insertable (db st)
         (Fallback.transaction user paymentData
            (generateReferenceNumber (clock req) (mathRandom36 req))
            (times (get paymentData "amount") feeRate) (clock req))
         (randomUUID req) →
       status (Fallback.handle CreatePayment st req).2 = 200)
  ∧ (∀ st' r,
       Base.handle CreatePayment st req = (st', r)
       ∨ Fallback.handle CreatePayment st req = (st', r) →
       status r = 200 →
       ∃ amount t data,
         get (body req) "amount" = VNum amount
         ∧ coll (db st') "payment_transactions"
           = coll (db st) "payment_transactions" ++ [t]
         ∧ get t "amount" = VNum amount
         ∧ get t "transaction_fee" = VNum (amount * feeRate)
         ∧ payload r
           = Success (Some "Payment initiated successfully") (Some (DDoc data))
         ∧ get data "transactionFee" = VNum (amount * feeRate))
  ∧ (1500 * feeRate = 30)%float.
Proof.
  split_and!; [| | |done].
  - intros user paymentData. apply Base_createPayment_accepts.
  - intros user paymentData. apply (Fallback_createPayment_accepts st (sanitizeInput req)).
  - intros st' r [Hrun | Hrun] Hok.
    + change (Base.createPayment st req = (st', r)) in Hrun.
      destruct (Base_createPayment_accepted _ _ _ _ Hrun Hok)
        as (user & paymentData & _ & Hschema & Hcoll & ->).
      destruct (CreatePaymentSchema_fields _ _ Hschema)
        as (amount & swift & Hb & Hp & _).
      destruct (paymentAnswer_fee
        (get (stored (Base.transaction user paymentData
                (generateReferenceNumber (clock req) (mathRandom36 req))
                (times (get paymentData "amount") feeRate) (clock req))
              (randomUUID req)) "_id")
        (generateReferenceNumber (clock req) (mathRandom36 req))
        (times (get paymentData "amount") feeRate)) as (data & Hdata & Hfee).
      exists amount. eexists. exists data.
      split_and!; [done | exact Hcoll | | | exact Hdata | ].
      * by rewrite (proj1 (proj2 (Base_transaction_lookup _ _ _ _ _ _))).
      * by rewrite (proj1 (Base_transaction_lookup _ _ _ _ _ _)), Hp.
      * by rewrite Hfee, Hp.
    + change (Fallback.createPayment st (sanitizeInput req) = (st', r)) in Hrun.
      destruct (Fallback_createPayment_accepted _ _ _ _ Hrun Hok)
        as (user & paymentData & _ & Hschema & Hcoll & ->).
      destruct (CreatePaymentSchema_fields _ _ Hschema)
        as (amount & swift & Hb & Hp & _).
      change (body (sanitizeInput req)) with (sanitizeObject (body req)) in Hb.
      rewrite get_sanitizeObject in Hb. apply sanitizeValue_number in Hb.
      destruct (paymentAnswer_fee
        (get (stored (Fallback.transaction user paymentData
                (generateReferenceNumber (clock (sanitizeInput req))
                   (mathRandom36 (sanitizeInput req)))
                (times (get paymentData "amount") feeRate) (clock (sanitizeInput req)))
              (randomUUID (sanitizeInput req))) "_id")
        (generateReferenceNumber (clock (sanitizeInput req))
           (mathRandom36 (sanitizeInput req)))
        (times (get paymentData "amount") feeRate)) as (data & Hdata & Hfee).
      exists amount. eexists. exists data.
      split_and!; [done | exact Hcoll | | | exact Hdata | ].
      * by rewrite (proj1 (proj2 (Fallback_transaction_lookup _ _ _ _ _ _))).
      * by rewrite (proj1 (Fallback_transaction_lookup _ _ _ _ _ _)), Hp.
      * by rewrite Hfee, Hp.
Qed.

Lemma prefixCI_script_plain (c : ascii) (s : string) :
  Ascii.eqb c "<" = false → prefixCI "<script" (String c s) = false.
Proof.
  intros Hc.
  change (prefixCI "<script" (String c s))
    with (Ascii.eqb (lowerChar "<") (lowerChar c) && prefixCI "script" s).
  assert (Ascii.eqb (lowerChar "<") (lowerChar c) = false) as ->; [|done].
  revert Hc. destruct c as [[] [] [] [] [] [] [] []]; vm_compute; congruence.
Qed.

(** [sanitizeValue] leaves a string without angle brackets as it is. *)
Lemma sanitize_plain (s : string) :
  plain s = true → escapeAngles (stripScripts 0 s) = s.
Proof.
  unfold plain, allOf, chars. induction s as [|c s IH]; [done|].
  simpl. intros [[Hlt Hgt]%andb_prop Hs]%andb_prop.
  apply negb_true_iff in Hlt, Hgt.
  unfold scriptMatchLength. rewrite prefixCI_script_plain by done.
  simpl. rewrite Hlt, Hgt. f_equal. by apply IH.
Qed.

(** C10. On the base server the transaction stored for an accepted
    request has no [swift_code] field, although the schema made the
    request carry a valid one; on the server with the fallback store it
    has the [swift_code] of the validated request, which is the
    submitted one whenever that has no angle bracket. *)
Theorem createPayment_swift_code (st st' : State) (req : Request) (r : Response) :
  status r = 200 →
  (Base.handle CreatePayment st req = (st', r) →
   ∃ t swift,
     coll (db st') "payment_transactions"
     = coll (db st) "payment_transactions" ++ [t]
     ∧ t !! "swift_code" = None
     ∧ get (body req) "swift_code" = VStr swift
     ∧ swiftPattern swift = true)
  ∧ (Fallback.handle CreatePayment st req = (st', r) →
     ∃ t swift,
       coll (db st') "payment_transactions"
       = coll (db st) "payment_transactions" ++ [t]
       ∧ t !! "swift_code" = Some (VStr swift)
       ∧ get (body (sanitizeInput req)) "swift_code" = VStr swift
       ∧ swiftPattern swift = true
       ∧ (∀ s0, get (body req) "swift_code" = VStr s0 → plain s0 = true →
            swift = s0)).
Proof.
  intros Hok. split; intros Hrun.
  - change (Base.createPayment st req = (st', r)) in Hrun.
    destruct (Base_createPayment_accepted _ _ _ _ Hrun Hok)
      as (user & paymentData & _ & Hschema & Hcoll & _).
    destruct (CreatePaymentSchema_fields _ _ Hschema)
      as (amount & swift & _ & _ & Hb & _ & Hswift & _).
    eexists _, swift. split_and!; [exact Hcoll | | done | done].
    apply Base_transaction_lookup.
  - change (Fallback.createPayment st (sanitizeInput req) = (st', r)) in Hrun.
    destruct (Fallback_createPayment_accepted _ _ _ _ Hrun Hok)
      as (user & paymentData & _ & Hschema & Hcoll & _).
    destruct (CreatePaymentSchema_fields _ _ Hschema)
      as (amount & swift & _ & _ & Hb & Hp & Hswift & _).
    eexists _, swift. split_and!; [exact Hcoll | | done | done |].
    + rewrite (proj2 (proj2 (Fallback_transaction_lookup _ _ _ _ _ _))), Hp.
      unfold jsOr, truthy. destruct swift; [done | done].
    + intros s0 Hs0 Hplain.
      change (body (sanitizeInput req)) with (sanitizeObject (body req)) in Hb.
      rewrite get_sanitizeObject, Hs0 in Hb. simpl in Hb.
      rewrite sanitize_plain in Hb by done. congruence.
Qed.

End Payments.

Lemma createPayment_transaction_fee_witness :
  (status (Base.handle CreatePayment baseLoggedIn payRequest).2 = 200
   ∧ ∃ t, coll (db (Base.handle CreatePayment baseLoggedIn payRequest).1)
               "payment_transactions"
          = coll (db baseLoggedIn) "payment_transactions" ++ [t]
          ∧ get t "transaction_fee" = VNum 30)
  ∧ (status (Fallback.handle CreatePayment fallbackLoggedIn payRequest).2 = 200
     ∧ ∃ t, coll (db (Fallback.handle CreatePayment fallbackLoggedIn payRequest).1)
                 "payment_transactions"
            = coll (db fallbackLoggedIn) "payment_transactions" ++ [t]
            ∧ get t "transaction_fee" = VNum 30).
Proof.
  split.
  - destruct (createPayment_transaction_fee baseLoggedIn payRequest)
      as (Haccepts & _ & Hfee & H30).
    assert (Hok : status (Base.handle CreatePayment baseLoggedIn payRequest).2 = 200).
    { refine (Haccepts (principalOf (Base.authMiddleware baseLoggedIn payRequest))
                (default ∅ (CreatePaymentSchema (body payRequest))) _ _).
      - split_and!; vm_compute; reflexivity.
      - intros _. vm_compute. reflexivity. }
    split; [exact Hok|].
    destruct (Hfee _ _ (or_introl (surjective_pairing _)) Hok)
      as (amount & t & data & Hb & Hcoll & _ & Ht & _).
    exists t. split; [exact Hcoll|].
    vm_compute in Hb. injection Hb as <-. by rewrite Ht, H30.
  - destruct (createPayment_transaction_fee fallbackLoggedIn payRequest)
      as (_ & Haccepts & Hfee & H30).
    assert (Hok : status (Fallback.handle CreatePayment fallbackLoggedIn payRequest).2
                  = 200).
    { refine (Haccepts
                (principalOf (Fallback.authMiddleware fallbackLoggedIn
                                (sanitizeInput payRequest)))
                (default ∅ (CreatePaymentSchema (body (sanitizeInput payRequest)))) _ _).
      - split_and!; vm_compute; reflexivity.
      - intros Hb. vm_compute in Hb. discriminate Hb. }
    split; [exact Hok|].
    destruct (Hfee _ _ (or_intror (surjective_pairing _)) Hok)
      as (amount & t & data & Hb & Hcoll & _ & Ht & _).
    exists t. split; [exact Hcoll|].
    vm_compute in Hb. injection Hb as <-. by rewrite Ht, H30.
Defined.

Lemma createPayment_swift_code_witness :
  (∃ t, coll (db (Base.handle CreatePayment baseLoggedIn payRequest).1)
             "payment_transactions"
        = coll (db baseLoggedIn) "payment_transactions" ++ [t]
        ∧ t !! "swift_code" = None)
  ∧ (∃ t, coll (db (Fallback.handle CreatePayment fallbackLoggedIn payRequest).1)
               "payment_transactions"
          = coll (db fallbackLoggedIn) "payment_transactions" ++ [t]
          ∧ t !! "swift_code" = Some (VStr "NWBKGB2L")).
Proof.
  split.
  - destruct (createPayment_swift_code baseLoggedIn
                (Base.handle CreatePayment baseLoggedIn payRequest).1 payRequest
                (Base.handle CreatePayment baseLoggedIn payRequest).2) as [Hbase _].
    { vm_compute. reflexivity. }
    destruct (Hbase (surjective_pairing _)) as (t & swift & Hcoll & Hnone & _).
    exists t. split; [exact Hcoll | exact Hnone].
  - destruct (createPayment_swift_code fallbackLoggedIn
                (Fallback.handle CreatePayment fallbackLoggedIn payRequest).1 payRequest
                (Fallback.handle CreatePayment fallbackLoggedIn payRequest).2) as [_ Hfb].
    { vm_compute. reflexivity. }
    destruct (Hfb (surjective_pairing _)) as (t & swift & Hcoll & Hsome & _ & _ & Hsub).
    exists t. split; [exact Hcoll|].
    rewrite Hsome. f_equal. f_equal. apply Hsub; by vm_compute.
Defined.




Example scenario_fallback_payment :
  (Fallback.handle CreatePayment fallbackLoggedIn payRequest).2
  = paymentAnswer (VStr "64b7f3a2c9e1d4f5a6b7c8db") "INT000123K3X9Q2" (VNum 30).
Proof. vm_compute. reflexivity. Qed.

Example scenario_base_payment :
  (Base.handle CreatePayment baseLoggedIn payRequest).2
  = paymentAnswer (VStr "64b7f3a2c9e1d4f5a6b7c8db") "INT000123K3X9Q2" (VNum 30).
Proof. vm_compute. reflexivity. Qed.

(** ** Reading one transaction *)

Lemma strictEq_VStr (s : string) (v : value) :
  strictEq (VStr s) v = true ↔ v = VStr s.
Proof.
  destruct v; simpl; try (split; [done | congruence]).
  rewrite String.eqb_eq. split; congruence.
Qed.

Lemma findOne_None (d : Db) (name : string) (q : query) :
  (∀ x, x ∈ coll d name → match_ x q = false) → findOne d name q = None.
Proof.
  intros Hall. unfold findOne.
  destruct (list_find _ _) as [[i x]|] eqn:Hfind; [|done].
  apply list_find_Some in Hfind as (Hi & Hx & _).
  rewrite Hall in Hx; [done|]. by eapply list_elem_of_lookup_2.
Qed.

(** No transaction with identifier [id] belongs to [user]. *)
Lemma findOne_not_owned (st : State) (user : doc) (id : string) :
  (∀ t, t ∈ transactions st → get t "_id" = VStr id →
        strictEq (get user "_id") (get t "user_id") = false) →
  findOne (db st) "payment_transactions"
    [("_id", QEq (VStr id)); ("user_id", QEq (get user "_id"))] = None.
Proof.
  intros Hforeign. apply findOne_None. intros t Ht. cbn [match_ matchCond].
  destruct (strictEq (VStr id) (get t "_id")) eqn:Hid; [|done].
  apply strictEq_VStr in Hid. by rewrite (Hforeign t Ht Hid).
Qed.

Lemma single_transaction (st : State) :
  length (transactions st) = 1%nat → transactions st = [firstTransaction st].
Proof.
  unfold firstTransaction. by destruct (transactions st) as [|t [|t' l]].
Qed.

Section Reading.
Context `{Platform}.

Lemma Fallback_getPayment_not_owned (st : State) (req : Request) (user : doc)
    (id : string) :
  Fallback.authMiddleware st req = Next user →
  lookupId (db st) (param_id req) = Some id →
  (∀ t, t ∈ transactions st → get t "_id" = VStr id →
        strictEq (get user "_id") (get t "user_id") = false) →
  Fallback.handle GetPayment st req = (st, fail 404 "Transaction not found").
Proof.
  intros Hauth Hid Hforeign.
  change (Fallback.handle GetPayment st req)
    with (Fallback.getPayment st (sanitizeInput req)).
  unfold Fallback.getPayment.
  change (Fallback.authMiddleware st (sanitizeInput req))
    with (Fallback.authMiddleware st req).
  rewrite Hauth. change (param_id (sanitizeInput req)) with (param_id req).
  unfold lookupId in Hid. destruct (backend (db st)).
  - simplify_eq. by rewrite findOne_not_owned.
  - unfold ObjectId_isValid. rewrite Hid.
    rewrite bool_decide_eq_true_2 by eauto. simpl.
    by rewrite findOne_not_owned.
Qed.

Lemma Base_getPayment_not_owned (st : State) (req : Request) (user : doc)
    (id : string) :
  Base.authMiddleware st req = Next user →
  ObjectId_new (param_id req) = Some id →
  (∀ t, t ∈ transactions st → get t "_id" = VStr id →
        strictEq (get user "_id") (get t "user_id") = false) →
  Base.handle GetPayment st req = (st, fail 404 "Transaction not found").
Proof.
  intros Hauth Hid Hforeign.
  change (Base.handle GetPayment st req) with (Base.getPayment st req).
  unfold Base.getPayment. rewrite Hauth.
  unfold ObjectId_isValid. rewrite Hid.
  rewrite bool_decide_eq_true_2 by eauto. simpl.
  by rewrite findOne_not_owned.
Qed.

(** C5. A principal who asks for a transaction of another user gets
    the answer given for an identifier that matches no transaction: 404
    with the same body, on either server and either store. *)
Theorem getPayment_foreign_as_missing (st : State) (req req' : Request) (user : doc)
    (id id' : string) :
  (∃ t, t ∈ transactions st ∧ get t "_id" = VStr id) →
  (∀ t, t ∈ transactions st → get t "_id" = VStr id →
        strictEq (get user "_id") (get t "user_id") = false) →
  (∀ t, t ∈ transactions st → get t "_id" ≠ VStr id') →
  (Fallback.authMiddleware st req = Next user →
   Fallback.authMiddleware st req' = Next user →
   lookupId (db st) (param_id req) = Some id →
   lookupId (db st) (param_id req') = Some id' →
   Fallback.handle GetPayment st req = (st, fail 404 "Transaction not found")
   ∧ Fallback.handle GetPayment st req' = Fallback.handle GetPayment st req)
  ∧ (Base.authMiddleware st req = Next user →
     Base.authMiddleware st req' = Next user →
     ObjectId_new (param_id req) = Some id →
     ObjectId_new (param_id req') = Some id' →
     Base.handle GetPayment st req = (st, fail 404 "Transaction not found")
     ∧ Base.handle GetPayment st req' = Base.handle GetPayment st req).
Proof.
  intros _ Hforeign Hmissing. split.
  - intros Hauth Hauth' Hid Hid'.
    rewrite (Fallback_getPayment_not_owned st req user id) by done.
    rewrite (Fallback_getPayment_not_owned st req' user id'); [done.. |].
    intros t Ht Heq. by destruct (Hmissing t Ht).
  - intros Hauth Hauth' Hid Hid'.
    rewrite (Base_getPayment_not_owned st req user id) by done.
    rewrite (Base_getPayment_not_owned st req' user id'); [done.. |].
    intros t Ht Heq. by destruct (Hmissing t Ht).
Qed.

End Reading.

(** B asks for the transaction of A, then for one that does not exist. *)
Lemma getPayment_foreign_as_missing_witness :
  Fallback.handle GetPayment fallbackTwoUsers
    (withBearer tokenB "64b7f3a2c9e1d4f5a6b7c8db" blank)
  = (fallbackTwoUsers, fail 404 "Transaction not found")
  ∧ Fallback.handle GetPayment fallbackTwoUsers
      (withBearer tokenB "ffffffffffffffffffffffff" blank)
    = Fallback.handle GetPayment fallbackTwoUsers
        (withBearer tokenB "64b7f3a2c9e1d4f5a6b7c8db" blank).
Proof.
  assert (Htxs : transactions fallbackTwoUsers = [firstTransaction fallbackTwoUsers]).
  { apply single_transaction. vm_compute. reflexivity. }
  assert (Hid0 : get (firstTransaction fallbackTwoUsers) "_id"
                 = VStr "64b7f3a2c9e1d4f5a6b7c8db").
  { vm_compute. reflexivity. }
  assert (Howner : get (firstTransaction fallbackTwoUsers) "user_id" = VStr "user-a").
  { vm_compute. reflexivity. }
  set (t0 := firstTransaction fallbackTwoUsers) in *.
  assert (Hprincipal : get (principalOf (Fallback.authMiddleware fallbackTwoUsers
            (withBearer tokenB "64b7f3a2c9e1d4f5a6b7c8db" blank))) "_id"
          = VStr "user-b").
  { vm_compute. reflexivity. }
  destruct (getPayment_foreign_as_missing fallbackTwoUsers
           (withBearer tokenB "64b7f3a2c9e1d4f5a6b7c8db" blank)
           (withBearer tokenB "ffffffffffffffffffffffff" blank)
           (principalOf (Fallback.authMiddleware fallbackTwoUsers
                           (withBearer tokenB "64b7f3a2c9e1d4f5a6b7c8db" blank)))
           "64b7f3a2c9e1d4f5a6b7c8db" "ffffffffffffffffffffffff") as [Hfb _].
  - exists t0. rewrite Htxs. split; [apply list_elem_of_here | exact Hid0].
  - intros t Ht _. rewrite Htxs in Ht. apply list_elem_of_singleton in Ht.
    rewrite Ht, Howner, Hprincipal. reflexivity.
  - intros t Ht. rewrite Htxs in Ht. apply list_elem_of_singleton in Ht.
    rewrite Ht, Hid0. discriminate.
  - refine (Hfb _ _ _ _); vm_compute; reflexivity.
Defined.

(** ** Verification by staff *)

Lemma list_find_update {A} (P : A → Prop) `{∀ x, Decision (P x)}
    (l : list A) (i : nat) (x y : A) :
  list_find P l = Some (i, x) → P y → list_find P (<[i := y]> l) = Some (i, y).
Proof.
  intros (Hi & _ & Hbefore)%list_find_Some Hy. apply list_find_Some.
  split_and!; [| done |].
  - apply list_lookup_insert_eq. by eapply lookup_lt_Some.
  - intros j z Hj Hlt. rewrite list_lookup_insert_ne in Hj by lia. eauto.
Qed.

Lemma get_spread_set (old set : doc) (k : string) (v : value) :
  set !! k = Some v → get (spread old set) k = v.
Proof. intros Hk. unfold get, spread. by rewrite (lookup_union_Some_l _ _ _ _ Hk). Qed.

Lemma get_spread_old (old set : doc) (k : string) :
  set !! k = None → get (spread old set) k = get old k.
Proof. intros Hk. unfold get, spread. by rewrite lookup_union_r. Qed.

Lemma match_id (d : doc) (id : string) :
  match_ d [("_id", QEq (VStr id))] = true ↔ get d "_id" = VStr id.
Proof.
  cbn [match_ matchCond]. rewrite <- strictEq_VStr.
  by destruct (strictEq (VStr id) (get d "_id")).
Qed.

Lemma findOneAndUpdate_verify (d : Db) (id : string) (now : Z) (i : nat) (old : doc) :
  list_find (λ x, match_ x [("_id", QEq (VStr id))] = true)
            (coll d "payment_transactions") = Some (i, old) →
  findOneAndUpdate d "payment_transactions" [("_id", QEq (VStr id))] (verifySet now)
  = Ok (setColl d "payment_transactions"
          (<[i := spread old (verifySet now)]> (coll d "payment_transactions")),
        Some (spread old (verifySet now))).
Proof.
  intros Hfind. unfold findOneAndUpdate, applySet. rewrite Hfind.
  by destruct (backend d).
Qed.

(** After a verification the transaction is found again, completed. *)
Lemma verified_found (d : Db) (id : string) (now : Z) (i : nat) (old : doc) :
  list_find (λ x, match_ x [("_id", QEq (VStr id))] = true)
            (coll d "payment_transactions") = Some (i, old) →
  list_find (λ x, match_ x [("_id", QEq (VStr id))] = true)
            (coll (setColl d "payment_transactions"
                     (<[i := spread old (verifySet now)]> (coll d "payment_transactions")))
                  "payment_transactions")
  = Some (i, spread old (verifySet now)).
Proof.
  intros Hfind. rewrite coll_setColl. apply (list_find_update _ _ _ _ _ Hfind).
  apply match_id. rewrite get_spread_old by done.
  apply list_find_Some in Hfind as (_ & Hold & _). by apply match_id.
Qed.

Section Verification.
Context `{Platform}.

Lemma Fallback_auth_frame (st st' : State) (req : Request) :
  backend (db st') = backend (db st) →
  coll (db st') "users" = coll (db st) "users" →
  coll (db st') "user_sessions" = coll (db st) "user_sessions" →
  Fallback.authMiddleware st' req = Fallback.authMiddleware st req.
Proof.
  intros Hb Hu Hs.
  unfold Fallback.authMiddleware, Fallback.jwtPath, Fallback.findUserById, findOne.
  by rewrite Hb, Hu, Hs.
Qed.

Lemma Base_auth_frame (st st' : State) (req : Request) :
  coll (db st') "users" = coll (db st) "users" →
  coll (db st') "user_sessions" = coll (db st) "user_sessions" →
  Base.authMiddleware st' req = Base.authMiddleware st req.
Proof.
  intros Hu Hs. unfold Base.authMiddleware, findOne. by rewrite Hu, Hs.
Qed.

(** One verification by staff of an existing transaction. *)
Lemma Fallback_verify_found (st : State) (req : Request) (staff : doc)
    (id : string) (i : nat) (old : doc) :
  Fallback.authMiddleware st req = Next staff →
  truthy (get staff "is_staff") = true →
  lookupId (db st) (param_id req) = Some id →
  list_find (λ x, match_ x [("_id", QEq (VStr id))] = true) (transactions st)
  = Some (i, old) →
  Fallback.handle Verify st req
  = (withDb st (setColl (db st) "payment_transactions"
                  (<[i := spread old (verifySet (clock req))]> (transactions st))),
     json None (Some (DDoc (spread old (verifySet (clock req)))))).
Proof.
  intros Hauth Hstaff Hid Hfind.
  change (Fallback.handle Verify st req) with (Fallback.verify st (sanitizeInput req)).
  unfold Fallback.verify.
  change (Fallback.authMiddleware st (sanitizeInput req))
    with (Fallback.authMiddleware st req).
  rewrite Hauth, Hstaff. cbn [negb].
  change (param_id (sanitizeInput req)) with (param_id req).
  change (clock (sanitizeInput req)) with (clock req).
  unfold lookupId in Hid. destruct (backend (db st)) eqn:Hb.
  - simplify_eq. by rewrite (findOneAndUpdate_verify _ _ _ _ _ Hfind).
  - rewrite Hid. by rewrite (findOneAndUpdate_verify _ _ _ _ _ Hfind).
Qed.

Lemma Base_verify_found (st : State) (req : Request) (staff : doc)
    (id : string) (i : nat) (old : doc) :
  Base.authMiddleware st req = Next staff →
  truthy (get staff "is_staff") = true →
  ObjectId_new (param_id req) = Some id →
  list_find (λ x, match_ x [("_id", QEq (VStr id))] = true) (transactions st)
  = Some (i, old) →
  Base.handle Verify st req
  = (withDb st (setColl (db st) "payment_transactions"
                  (<[i := spread old (verifySet (clock req))]> (transactions st))),
     json None (Some (DDoc (spread old (verifySet (clock req)))))).
Proof.
  intros Hauth Hstaff Hid Hfind.
  change (Base.handle Verify st req) with (Base.verify st req).
  unfold Base.verify. rewrite Hauth, Hstaff. cbn [negb]. rewrite Hid.
  by rewrite (findOneAndUpdate_verify _ _ _ _ _ Hfind).
Qed.

(** C6. Verifying an existing transaction twice succeeds twice: both
    calls answer 200 with the transaction, which after each call is found
    with status "completed" and [is_processed] true; the second call only
    refreshes [processed_at] and [updated_at]. *)
Theorem verify_idempotent (st : State) (req1 req2 : Request) (staff1 staff2 : doc)
    (id : string) :
  (∃ t, t ∈ transactions st ∧ get t "_id" = VStr id) →
  truthy (get staff1 "is_staff") = true →
  truthy (get staff2 "is_staff") = true →
  ∃ u1 u2,
    (get u1 "status" = VStr "completed" ∧ get u1 "is_processed" = VBool true)
    ∧ (get u2 "status" = VStr "completed" ∧ get u2 "is_processed" = VBool true)
    ∧ u2 = spread u1 (verifySet (clock req2))
    ∧ (Fallback.authMiddleware st req1 = Next staff1 →
       Fallback.authMiddleware st req2 = Next staff2 →
       lookupId (db st) (param_id req1) = Some id →
       lookupId (db st) (param_id req2) = Some id →
       (Fallback.handle Verify st req1).2 = json None (Some (DDoc u1))
       ∧ (Fallback.handle Verify (Fallback.handle Verify st req1).1 req2).2
         = json None (Some (DDoc u2))
       ∧ findOne (db (Fallback.handle Verify st req1).1) "payment_transactions"
           [("_id", QEq (VStr id))] = Some u1
       ∧ findOne (db (Fallback.handle Verify (Fallback.handle Verify st req1).1 req2).1)
           "payment_transactions" [("_id", QEq (VStr id))] = Some u2)
    ∧ (Base.authMiddleware st req1 = Next staff1 →
       Base.authMiddleware st req2 = Next staff2 →
       ObjectId_new (param_id req1) = Some id →
       ObjectId_new (param_id req2) = Some id →
       (Base.handle Verify st req1).2 = json None (Some (DDoc u1))
       ∧ (Base.handle Verify (Base.handle Verify st req1).1 req2).2
         = json None (Some (DDoc u2))
       ∧ findOne (db (Base.handle Verify st req1).1) "payment_transactions"
           [("_id", QEq (VStr id))] = Some u1
       ∧ findOne (db (Base.handle Verify (Base.handle Verify st req1).1 req2).1)
           "payment_transactions" [("_id", QEq (VStr id))] = Some u2).
Proof.
  intros (t & Ht & Hid) Hstaff1 Hstaff2.
  destruct (list_find_elem_of (λ x, match_ x [("_id", QEq (VStr id))] = true)
              (transactions st) t Ht) as [[i old] Hfind]; [by apply match_id|].
  set (u1 := spread old (verifySet (clock req1))).
  set (u2 := spread u1 (verifySet (clock req2))).
  set (st1 := withDb st (setColl (db st) "payment_transactions"
                           (<[i := u1]> (transactions st)))).
  assert (Hfind1 : list_find (λ x, match_ x [("_id", QEq (VStr id))] = true)
                     (transactions st1) = Some (i, u1)).
  { apply (verified_found (db st) id (clock req1) i old Hfind). }
  assert (Hfind2 : list_find (λ x, match_ x [("_id", QEq (VStr id))] = true)
            (coll (setColl (db st1) "payment_transactions"
                     (<[i := u2]> (transactions st1))) "payment_transactions")
          = Some (i, u2)).
  { apply (verified_found (db st1) id (clock req2) i u1 Hfind1). }
  assert (Husers : coll (db st1) "users" = coll (db st) "users")
    by (by apply coll_setColl_ne).
  assert (Hsessions : coll (db st1) "user_sessions" = coll (db st) "user_sessions")
    by (by apply coll_setColl_ne).
  exists u1, u2. split_and!.
  - by apply get_spread_set.
  - by apply get_spread_set.
  - by apply get_spread_set.
  - by apply get_spread_set.
  - done.
  - intros Hauth1 Hauth2 Hid1 Hid2.
    rewrite (Fallback_verify_found st req1 staff1 id i old) by done.
    cbn [fst snd]. fold u1. fold st1.
    rewrite (Fallback_verify_found st1 req2 staff2 id i u1);
      [| by rewrite <- Hauth2; apply Fallback_auth_frame | done | done | done].
    cbn [fst snd]. fold u2. unfold findOne. cbn [db withDb].
    change (coll (db st1) "payment_transactions") with (transactions st1).
    unfold transactions in Hfind1. unfold transactions at 1.
    by rewrite Hfind1, Hfind2.
  - intros Hauth1 Hauth2 Hid1 Hid2.
    rewrite (Base_verify_found st req1 staff1 id i old) by done.
    cbn [fst snd]. fold u1. fold st1.
    rewrite (Base_verify_found st1 req2 staff2 id i u1);
      [| by rewrite <- Hauth2; apply Base_auth_frame | done | done | done].
    cbn [fst snd]. fold u2. unfold findOne. cbn [db withDb].
    change (coll (db st1) "payment_transactions") with (transactions st1).
    unfold transactions in Hfind1. unfold transactions at 1.
    by rewrite Hfind1, Hfind2.
Qed.

End Verification.

(** The staff of the scenario verifies the payment of A twice. *)
Lemma verify_idempotent_witness :
  status (Fallback.handle Verify fallbackStaffIn verify1).2 = 200
  ∧ status (Fallback.handle Verify
              (Fallback.handle Verify fallbackStaffIn verify1).1 verify2).2 = 200.
Proof.
  destruct (verify_idempotent fallbackStaffIn verify1 verify2
              (principalOf (Fallback.authMiddleware fallbackStaffIn verify1))
              (principalOf (Fallback.authMiddleware fallbackStaffIn verify2))
              "64b7f3a2c9e1d4f5a6b7c8db")
    as (u1 & u2 & _ & _ & _ & Hfb & _).
  - exists (firstTransaction fallbackStaffIn). split.
    + rewrite (single_transaction fallbackStaffIn) at 1.
      * apply list_elem_of_here.
      * vm_compute. reflexivity.
    + vm_compute. reflexivity.
  - vm_compute. reflexivity.
  - vm_compute. reflexivity.
  - destruct Hfb as (H1 & H2 & _).
    + vm_compute. reflexivity.
    + vm_compute. reflexivity.
    + vm_compute. reflexivity.
    + vm_compute. reflexivity.
    + rewrite H1, H2. split; reflexivity.
Defined.

(** ** Transaction history *)

Lemma before_asym (f : string) (x y : doc) :
  before f x y = true → before f y x = false.
Proof.
  unfold before. destruct (dateOf f x), (dateOf f y); try done.
  intros Hlt%bool_decide_eq_true. apply bool_decide_eq_false. lia.
Qed.

Lemma notAfter_trans (f : string) (x y z : doc) :
  notAfter f x y → notAfter f y z → notAfter f x z.
Proof.
  unfold notAfter, before.
  destruct (dateOf f x), (dateOf f y), (dateOf f z); try done.
  intros H1%bool_decide_eq_false H2%bool_decide_eq_false.
  apply bool_decide_eq_false. lia.
Qed.

Lemma insertDesc_perm (f : string) (d : doc) (l : list doc) :
  insertDesc f d l ≡ₚ d :: l.
Proof.
  induction l as [|x l IH]; simpl; [done|].
  destruct (before f x d); [|done]. rewrite IH. apply Permutation_swap.
Qed.

Lemma sortDesc_perm (f : string) (l : list doc) : sortDesc f l ≡ₚ l.
Proof.
  induction l as [|x l IH]; simpl; [done|].
  rewrite insertDesc_perm. by f_equiv.
Qed.

Lemma insertDesc_sorted (f : string) (d : doc) (l : list doc) :
  StronglySorted (notAfter f) l → StronglySorted (notAfter f) (insertDesc f d l).
Proof.
  induction l as [|x l IH]; intros Hl; simpl.
  { repeat constructor. }
  apply StronglySorted_inv in Hl as [Hl Hx].
  destruct (before f x d) eqn:Hxd.
  - constructor; [by apply IH|].
    rewrite insertDesc_perm. constructor; [by apply before_asym | done].
  - constructor; [by constructor|].
    constructor; [done|].
    eapply Forall_impl; [exact Hx|]. intros y Hy. by eapply notAfter_trans.
Qed.

Lemma sortDesc_sorted (f : string) (l : list doc) :
  StronglySorted (notAfter f) (sortDesc f l).
Proof.
  induction l as [|x l IH]; simpl; [constructor | by apply insertDesc_sorted].
Qed.

Lemma take_sorted {A} (R : A → A → Prop) (n : nat) (l : list A) :
  StronglySorted R l → StronglySorted R (take n l).
Proof.
  revert n. induction l as [|x l IH]; intros [|n] Hl; simpl; try constructor.
  - apply IH. by apply StronglySorted_inv in Hl as [? _].
  - apply StronglySorted_inv in Hl as [_ Hx]. by apply Forall_take.
Qed.

Section History.
Context `{Platform}.

(** On MongoDB the listing is the 50 first of the transactions of the
    principal, latest first. *)
Lemma history_mongo (st : State) (req : Request) (user : doc) :
  backend (db st) = Mongo →
  (Base.authMiddleware st req = Next user →
   ∃ l, Base.handle History st req = (st, json None (Some (DList l)))
        ∧ (length l <= 50)%nat
        ∧ StronglySorted (notAfter "created_at") l
        ∧ ∀ t, t ∈ l → t ∈ transactions st
                       ∧ strictEq (get user "_id") (get t "user_id") = true)
  ∧ (Fallback.authMiddleware st req = Next user →
     ∃ l, Fallback.handle History st req = (st, json None (Some (DList l)))
          ∧ (length l <= 50)%nat
          ∧ StronglySorted (notAfter "created_at") l
          ∧ ∀ t, t ∈ l → t ∈ transactions st
                         ∧ strictEq (get user "_id") (get t "user_id") = true).
Proof.
  intros Hb.
  assert (Hlist : ∀ l, l = take 50 (sortDesc "created_at"
             (List.filter (λ d, match_ d [("user_id", QEq (get user "_id"))])
                          (transactions st))) →
           (length l <= 50)%nat
           ∧ StronglySorted (notAfter "created_at") l
           ∧ ∀ t, t ∈ l → t ∈ transactions st
                          ∧ strictEq (get user "_id") (get t "user_id") = true).
  { intros l ->. split_and!.
    - rewrite length_take. lia.
    - apply take_sorted, sortDesc_sorted.
    - intros t Ht%subseteq_take. rewrite sortDesc_perm in Ht.
      apply list_elem_of_In, filter_In in Ht as [Ht Hm].
      split; [by apply list_elem_of_In|].
      cbn [match_ matchCond] in Hm. by destruct (strictEq _ _). }
  split; intros Hauth; eexists; (split; [|apply Hlist; reflexivity]).
  - change (Base.handle History st req) with (Base.history st req).
    unfold Base.history, toArray, limit, sort, find. rewrite Hauth, Hb. done.
  - change (Fallback.handle History st req)
      with (Fallback.history st (sanitizeInput req)).
    unfold Fallback.history, toArray, limit, sort, find.
    change (Fallback.authMiddleware st (sanitizeInput req))
      with (Fallback.authMiddleware st req).
    rewrite Hauth, Hb. done.
Qed.

(** On the in-memory store [sort] and [limit] do nothing: the listing
    is every transaction of the principal, in insertion order. *)
Lemma history_in_memory (st : State) (req : Request) (user : doc) :
  backend (db st) = InMemory →
  Fallback.authMiddleware st req = Next user →
  Fallback.handle History st req
  = (st, json None (Some (DList
       (List.filter (λ d, match_ d [("user_id", QEq (get user "_id"))])
                    (transactions st))))).
Proof.
  intros Hb Hauth.
  change (Fallback.handle History st req)
    with (Fallback.history st (sanitizeInput req)).
  unfold Fallback.history, toArray, limit, sort, find.
  change (Fallback.authMiddleware st (sanitizeInput req))
    with (Fallback.authMiddleware st req).
  by rewrite Hauth, Hb.
Qed.

End History.

(** C7, on the in-memory store.  After 51 payments of A the history of
    A has 51 entries, the oldest first. *)
Theorem history_in_memory_uncapped_unsorted :
  let l := listed (Fallback.handle History fallbackBusy
                     (historyRequest 1700018411123)).2 in
  length l = 51%nat
  ∧ createdAt l 0 = VDate 1700000000123
  ∧ createdAt l 50 = VDate 1700018050123.
Proof. vm_compute. repeat split; reflexivity. Qed.

(** ** The effect of the handlers on the store *)

Lemma updateOne_effect (d d' : Db) (q : query) (now : Z) (uuid : string) (token : option string) (n : Z) :
  updateOne d "user_sessions" q (logoutSet now) = Ok (d', n) →
  Effect d now uuid token d'.
Proof.
  unfold updateOne.
  destruct (list_find _ _) as [[i old]|] eqn:Hfind; [|intros [= <- _]; constructor].
  destruct (applySet _ _ _ _ _) as [[d1 new]|] eqn:Hset; [|done].
  intros [= <- _]. apply list_find_Some in Hfind as (Hi & _).
  by eapply eff_logout.
Qed.

Lemma findOneAndUpdate_effect (d d' : Db) (q : query) (now : Z) (uuid : string)
    (token : option string) (r : option doc) :
  findOneAndUpdate d "payment_transactions" q (verifySet now) = Ok (d', r) →
  Effect d now uuid token d'.
Proof.
  unfold findOneAndUpdate.
  destruct (list_find _ _) as [[i old]|] eqn:Hfind; [|intros [= <- _]; constructor].
  destruct (applySet _ _ _ _ _) as [[d1 new]|] eqn:Hset; [|done].
  intros [= <- _]. apply list_find_Some in Hfind as (Hi & _).
  by eapply eff_verify.
Qed.

Section Effects.
Context `{Platform}.

Lemma Fallback_register_effect (st : State) (req : Request) (token : option string) :
  Effect (db st) (clock req) (randomUUID req) token
         (db (Fallback.register st req).1).
Proof.
  unfold Fallback.register.
  destruct (RegisterSchema _); [|constructor].
  destruct (checkRateLimit _ _ _ _ _) as [limits allowed].
  destruct allowed; cbn [negb]; [|constructor].
  destruct (findOne _ _ _); [constructor|].
  destruct (insertOne _ _ _ _) as [[d' v]|] eqn:Hins; [|constructor].
  eapply eff_register; [| | exact Hins]; by vm_compute.
Qed.

Lemma Base_register_effect (st : State) (req : Request) (token : option string) :
  Effect (db st) (clock req) (randomUUID req) token
         (db (Base.register st req).1).
Proof.
  unfold Base.register.
  destruct (RegisterSchema _); [|constructor].
  destruct (checkRateLimit _ _ _ _ _) as [limits allowed].
  destruct allowed; cbn [negb]; [|constructor].
  destruct (findOne _ _ _); [constructor|].
  destruct (insertOne _ _ _ _) as [[d' v]|] eqn:Hins; [|constructor].
  eapply eff_register; [| | exact Hins]; by vm_compute.
Qed.

Lemma Fallback_login_effect (st : State) (req : Request) :
  Effect (db st) (clock req) (randomUUID req) (Some (generateSessionToken req))
         (db (Fallback.login st req).1).
Proof.
  unfold Fallback.login.
  destruct (LoginSchema _); [|constructor].
  destruct (checkRateLimit _ _ _ _ _) as [limits allowed].
  destruct allowed; cbn [negb]; [|constructor].
  destruct (findOne _ _ _) as [user|]; [|constructor].
  destruct (get user "password_hash"); try constructor.
  destruct (verifyPassword _ _); cbn [negb]; [|constructor].
  destruct (insertOne _ _ _ _) as [[d' v]|] eqn:Hins; [|constructor].
  eapply eff_login; [reflexivity | exact Hins].
Qed.

Lemma Base_login_effect (st : State) (req : Request) :
  Effect (db st) (clock req) (randomUUID req) (Some (generateSessionToken req))
         (db (Base.login st req).1).
Proof.
  unfold Base.login.
  destruct (LoginSchema _); [|constructor].
  destruct (checkRateLimit _ _ _ _ _) as [limits allowed].
  destruct allowed; cbn [negb]; [|constructor].
  destruct (findOne _ _ _) as [user|]; [|constructor].
  destruct (get user "password_hash"); try constructor.
  destruct (verifyPassword _ _); cbn [negb]; [|constructor].
  destruct (insertOne _ _ _ _) as [[d' v]|] eqn:Hins; [|constructor].
  eapply eff_login; [reflexivity | exact Hins].
Qed.

Lemma Fallback_createPayment_effect (st : State) (req : Request) (token : option string) :
  Effect (db st) (clock req) (randomUUID req) token
         (db (Fallback.createPayment st req).1).
Proof.
  unfold Fallback.createPayment.
  destruct (Fallback.authMiddleware _ _); [|constructor].
  destruct (CreatePaymentSchema _); [|constructor].
  destruct (checkRateLimit _ _ _ _ _) as [limits allowed].
  destruct allowed; cbn [negb]; [|constructor].
  destruct (whitelist _); [constructor|].
  destruct (insertOne _ _ _ _) as [[d' v]|] eqn:Hins; [|constructor].
  eapply eff_payment. exact Hins.
Qed.

Lemma Base_createPayment_effect (st : State) (req : Request) (token : option string) :
  Effect (db st) (clock req) (randomUUID req) token
         (db (Base.createPayment st req).1).
Proof.
  unfold Base.createPayment.
  destruct (Base.authMiddleware _ _); [|constructor].
  destruct (CreatePaymentSchema _); [|constructor].
  destruct (checkRateLimit _ _ _ _ _) as [limits allowed].
  destruct allowed; cbn [negb]; [|constructor].
  destruct (whitelist _); [constructor|].
  destruct (insertOne _ _ _ _) as [[d' v]|] eqn:Hins; [|constructor].
  eapply eff_payment. exact Hins.
Qed.

(** Every request to the server with the fallback store has one of the
    effects. *)
Lemma Fallback_effect (e : Endpoint) (st : State) (req : Request) :
  Effect (db st) (clock req) (randomUUID req) (issued e req)
         (db (Fallback.handle e st req).1).
Proof.
  destruct e; cbn [Fallback.handle issued].
  - apply (Fallback_register_effect st (sanitizeInput req)).
  - apply (Fallback_login_effect st (sanitizeInput req)).
  - unfold Fallback.logout. destruct (Fallback.authMiddleware _ _); [|constructor].
    destruct (updateOne _ _ _ _) as [[d' n]|] eqn:Hup; [|constructor].
    by eapply updateOne_effect.
  - unfold Fallback.profile. destruct (Fallback.authMiddleware _ _); constructor.
  - apply (Fallback_createPayment_effect st (sanitizeInput req)).
  - unfold Fallback.history. destruct (Fallback.authMiddleware _ _); constructor.
  - unfold Fallback.getPayment. destruct (Fallback.authMiddleware _ _); [|constructor].
    repeat case_match; constructor.
  - unfold Fallback.adminTransactions.
    destruct (Fallback.authMiddleware _ _); [|constructor]. case_match; constructor.
  - unfold Fallback.verify. destruct (Fallback.authMiddleware _ _); [|constructor].
    destruct (negb _); [constructor|].
    destruct (match backend (db st) with InMemory => _ | Mongo => _ end);
      [|constructor].
    destruct (findOneAndUpdate _ _ _ _) as [[d' [u|]]|] eqn:Hup; try constructor.
    by eapply findOneAndUpdate_effect.
  - constructor.
Qed.

Lemma Base_effect (e : Endpoint) (st : State) (req : Request) :
  Effect (db st) (clock req) (randomUUID req) (issued e req)
         (db (Base.handle e st req).1).
Proof.
  destruct e; cbn [Base.handle issued].
  - apply Base_register_effect.
  - apply Base_login_effect.
  - unfold Base.logout. destruct (Base.authMiddleware _ _); [|constructor].
    destruct (updateOne _ _ _ _) as [[d' n]|] eqn:Hup; [|constructor].
    by eapply updateOne_effect.
  - unfold Base.profile. destruct (Base.authMiddleware _ _); constructor.
  - apply Base_createPayment_effect.
  - unfold Base.history. destruct (Base.authMiddleware _ _); constructor.
  - unfold Base.getPayment. destruct (Base.authMiddleware _ _); [|constructor].
    repeat case_match; constructor.
  - unfold Base.adminTransactions.
    destruct (Base.authMiddleware _ _); [|constructor]. case_match; constructor.
  - unfold Base.verify. destruct (Base.authMiddleware _ _); [|constructor].
    destruct (negb _); [constructor|].
    destruct (ObjectId_new _); [|constructor].
    destruct (findOneAndUpdate _ _ _ _) as [[d' [u|]]|] eqn:Hup; try constructor.
    by eapply findOneAndUpdate_effect.
  - constructor.
Qed.

End Effects.

(** ** Consequences of the effects *)

Lemma applySet_Ok (d : Db) (name : string) (i : nat) (old set : doc) (d' : Db)
    (new : doc) :
  applySet d name i old set = Ok (d', new) →
  d' = setColl d name (<[i := spread old set]> (coll d name))
  ∧ new = spread old set.
Proof.
  unfold applySet. destruct (backend d); [by intros [= <- <-]|].
  destruct (violates _ _ _); [done | by intros [= <- <-]].
Qed.

Lemma violates_false (ixs : list index) (c : list doc) (x : doc) :
  violates ixs c x = false →
  ∀ ix y, ix ∈ ixs → ix_unique ix = true → y ∈ c → collides ix y x = false.
Proof.
  unfold violates. intros Hv ix y Hix Hu Hy.
  destruct (collides ix y x) eqn:Hc; [|done].
  assert (existsb (λ ix, ix_unique ix && existsb (λ d', collides ix d' x) c) ixs = true)
    as Hex; [|congruence].
  apply existsb_exists. exists ix. split; [by apply list_elem_of_In|].
  rewrite Hu. cbn [andb]. apply existsb_exists. exists y.
  split; [by apply list_elem_of_In | done].
Qed.

Lemma stored_has_id (x : doc) (uuid : string) : is_Some (stored x uuid !! "_id").
Proof.
  unfold stored. case_decide; [done|]. rewrite lookup_insert_eq. eauto.
Qed.

Lemma stored_fresh_id (x : doc) (uuid : string) :
  x !! "_id" = None → get (stored x uuid) "_id" = VStr uuid.
Proof.
  intros Hx. unfold stored, get. rewrite decide_False.
  - by rewrite lookup_insert_eq.
  - rewrite Hx. by intros [? ?].
Qed.

Lemma Effect_backend (d d' : Db) (now : Z) (uuid : string) (token : option string) :
  Effect d now uuid token d' → backend d' = backend d.
Proof.
  destruct 1 as [| x v d' _ _ Hins | t user req v d' _ Hins | x v d' Hins
                 | i old new d' _ Hset | i old new d' _ Hset]; try done;
    try (by apply insertOne_Ok in Hins as (-> & _));
    by apply applySet_Ok in Hset as (-> & _).
Qed.

(** The users only grow, by records without the staff flag. *)
Lemma Effect_users (d d' : Db) (now : Z) (uuid : string) (token : option string) :
  Effect d now uuid token d' →
  coll d' "users" = coll d "users"
  ∨ ∃ x, truthy (get x "is_staff") = false ∧ x !! "_id" = None
         ∧ coll d' "users" = coll d "users" ++ [stored x uuid]
         ∧ (backend d = Mongo →
            violates (ixsOf "users") (coll d "users") (stored x uuid) = false).
Proof.
  destruct 1 as [| x v d' Hx Hid Hins | t user req v d' Ht Hins | x v d' Hins
                 | i old new d' _ Hset | i old new d' _ Hset].
  - by left.
  - right. exists x. apply insertOne_Ok in Hins as (-> & _ & Hv).
    by rewrite coll_setColl.
  - left. apply insertOne_Ok in Hins as (-> & _). by rewrite coll_setColl_ne.
  - left. apply insertOne_Ok in Hins as (-> & _). by rewrite coll_setColl_ne.
  - left. apply applySet_Ok in Hset as (-> & _). by rewrite coll_setColl_ne.
  - left. apply applySet_Ok in Hset as (-> & _). by rewrite coll_setColl_ne.
Qed.

(** The sessions grow by the record of a login, or have one closed. *)
Lemma Effect_sessions (d d' : Db) (now : Z) (uuid : string) (token : option string) :
  Effect d now uuid token d' →
  coll d' "user_sessions" = coll d "user_sessions"
  ∨ (∃ t user req,
       token = Some t
       ∧ coll d' "user_sessions"
         = coll d "user_sessions" ++ [stored (sessionRecord user t req) uuid])
  ∨ (∃ i old,
       coll d "user_sessions" !! i = Some old
       ∧ coll d' "user_sessions"
         = <[i := spread old (logoutSet now)]> (coll d "user_sessions")).
Proof.
  destruct 1 as [| x v d' Hx Hid Hins | t user req v d' Ht Hins | x v d' Hins
                 | i old new d' Hi Hset | i old new d' _ Hset].
  - by left.
  - left. apply insertOne_Ok in Hins as (-> & _). by rewrite coll_setColl_ne.
  - right. left. exists t, user, req. apply insertOne_Ok in Hins as (-> & _).
    by rewrite coll_setColl.
  - left. apply insertOne_Ok in Hins as (-> & _). by rewrite coll_setColl_ne.
  - right. right. exists i, old. apply applySet_Ok in Hset as (-> & _).
    by rewrite coll_setColl.
  - left. apply applySet_Ok in Hset as (-> & _). by rewrite coll_setColl_ne.
Qed.

Lemma ttlSweep_users (now : Z) (d : Db) :
  coll (ttlSweep now d) "users" = coll d "users".
Proof. unfold ttlSweep. destruct (backend d); [done | by rewrite coll_setColl_ne]. Qed.

Lemma ttlSweep_sessions (now : Z) (d : Db) (s : doc) :
  s ∈ coll (ttlSweep now d) "user_sessions" → s ∈ coll d "user_sessions".
Proof.
  unfold ttlSweep. destruct (backend d); [done|]. rewrite coll_setColl.
  intros [Hs _]%list_elem_of_In%filter_In. by apply list_elem_of_In.
Qed.

Lemma nonStaff_moved (d d' : Db) (uid : string) :
  Moved d d' → nonStaff d uid → nonStaff d' uid.
Proof.
  intros Hmove (u & Hu & Hstaff). exists u. split; [|done].
  unfold userById, findOne in *.
  destruct Hmove as [(now & uuid & token & Heff) | (now & ->)].
  - apply Effect_users in Heff as [-> | (x & _ & _ & -> & _)]; [done|].
    destruct (list_find _ (coll d "users")) as [[i u']|] eqn:Hfind; [|done].
    by rewrite (list_find_app_l _ _ _ _ _ Hfind).
  - by rewrite ttlSweep_users.
Qed.

Lemma identified_moved (d d' : Db) : Moved d d' → identified d → identified d'.
Proof.
  intros Hmove Hid u Hu.
  destruct Hmove as [(now & uuid & token & Heff) | (now & ->)].
  - apply Effect_users in Heff as [Heq | (x & _ & _ & Heq & _)];
      rewrite Heq in Hu; [by apply Hid|].
    apply elem_of_app in Hu as [Hu | ->%list_elem_of_singleton]; [by apply Hid|].
    apply stored_has_id.
  - rewrite ttlSweep_users in Hu. by apply Hid.
Qed.

Lemma plainSessions_moved (d d' : Db) :
  Moved d d' → plainSessions d → plainSessions d'.
Proof.
  intros Hmove Hplain s Hs.
  destruct Hmove as [(now & uuid & token & Heff) | (now & ->)].
  - apply Effect_sessions in Heff
      as [Heq | [(t & user & req & _ & Heq) | (i & old & Hi & Heq)]];
      rewrite Heq in Hs.
    + by apply Hplain.
    + apply elem_of_app in Hs as [Hs | ->%list_elem_of_singleton]; [by apply Hplain|].
      unfold get. rewrite get_stored_ne by done. by vm_compute.
    + apply list_elem_of_lookup in Hs as [j Hj].
      destruct (decide (i = j)) as [-> | Hne].
      * rewrite list_lookup_insert_eq in Hj by (by eapply lookup_lt_Some).
        injection Hj as <-. rewrite get_spread_old by done.
        apply Hplain. by eapply list_elem_of_lookup_2.
      * rewrite list_lookup_insert_ne in Hj by done.
        apply Hplain. by eapply list_elem_of_lookup_2.
  - apply Hplain. by eapply ttlSweep_sessions.
Qed.

(** ** Runs keep what every move keeps *)

Lemma run_invariant (P : Db → Prop)
    (handle : Endpoint → State → Request → State * Response) :
  (∀ st ev, Moved (db st) (db (stepWith handle st ev))) →
  (∀ d d', Moved d d' → P d → P d') →
  ∀ evs st, P (db st) → P (db (runWith handle st evs)).
Proof.
  intros Hstep Hkeep evs. unfold runWith.
  induction evs as [|ev evs IH]; intros st HP; [done|].
  simpl. apply IH. by eapply Hkeep.
Qed.

Lemma userId_inj (v w : value) :
  obj [("userId", v)] = obj [("userId", w)] → v = w.
Proof.
  intros Heq. assert (Hget : get (obj [("userId", v)]) "userId"
                            = get (obj [("userId", w)]) "userId") by by rewrite Heq.
  by vm_compute in Hget.
Qed.

Section Staff.
Context `{Platform}.

Lemma Fallback_step_moved (st : State) (ev : Event) :
  Moved (db st) (db (stepWith Fallback.handle st ev)).
Proof.
  destruct ev as [e req | now]; [left | right; by exists now].
  eexists _, _, _. apply Fallback_effect.
Qed.

Lemma Base_step_moved (st : State) (ev : Event) :
  Moved (db st) (db (stepWith Base.handle st ev)).
Proof.
  destruct ev as [e req | now]; [left | right; by exists now].
  eexists _, _, _. apply Base_effect.
Qed.

Lemma findOne_id (d : Db) (name : string) (x : string) (u : doc) :
  findOne d name [("_id", QEq (VStr x))] = Some u →
  u ∈ coll d name ∧ u !! "_id" = Some (VStr x).
Proof.
  unfold findOne. destruct (list_find _ _) as [[i u']|] eqn:Hfind; [|done].
  intros [= ->]. apply list_find_Some in Hfind as (Hi & Hm%match_id & _).
  split; [by eapply list_elem_of_lookup_2|].
  unfold get in Hm. by destruct (u !! "_id") as [v|]; simplify_eq/=.
Qed.

(** What [authMiddleware] attaches comes from a user found by [_id]. *)
Lemma Fallback_auth_user (st : State) (req : Request) (principal : doc) :
  Fallback.authMiddleware st req = Next principal →
  ∃ x user,
    userById (db st) x = Some user
    ∧ get principal "_id" = VStr x
    ∧ get principal "is_staff" = VBool (truthy (get user "is_staff")).
Proof.
  unfold Fallback.authMiddleware, Fallback.jwtPath, Fallback.findUserById.
  assert (Hall : ∀ x user session,
            findOne (db st) "users" [("_id", QEq (VStr x))] = Some user →
            (principal = Fallback.withStaffFlag user (spread session user)
             ∨ principal = Fallback.withStaffFlag user user) →
            ∃ x user,
              userById (db st) x = Some user
              ∧ get principal "_id" = VStr x
              ∧ get principal "is_staff" = VBool (truthy (get user "is_staff"))).
  { intros x user session Hfind Hp. exists x, user. split; [done|].
    apply findOne_id in Hfind as [_ Hid].
    unfold Fallback.withStaffFlag, get, spread in *. destruct Hp as [-> | ->].
    - rewrite lookup_insert_eq, lookup_insert_ne by done.
      by rewrite (lookup_union_Some_l _ _ _ _ Hid).
    - rewrite lookup_insert_eq, lookup_insert_ne by done. by rewrite Hid. }
  repeat case_match; intros Hauth; simplify_eq;
    first [ by eapply (Hall _ _ ∅); [eassumption | right]
          | by eapply Hall; [eassumption | left] ].
Qed.

Lemma Fallback_admin_refused (st : State) (req : Request) (principal : doc)
    (uid : string) (e : Endpoint) :
  nonStaff (db st) uid → adminEndpoint e →
  Fallback.authMiddleware st req = Next principal →
  get principal "_id" = VStr uid →
  Fallback.handle e st req = (st, fail 403 "Forbidden").
Proof.
  intros (u & Hu & Hstaff) He Hauth Hid.
  destruct (Fallback_auth_user _ _ _ Hauth) as (x & user & Hx & Hid' & Hflag).
  assert (x = uid) as -> by congruence.
  assert (user = u) as -> by congruence.
  destruct He as [-> | ->]; cbn [Fallback.handle];
    unfold Fallback.adminTransactions, Fallback.verify;
    change (Fallback.authMiddleware st (sanitizeInput req))
      with (Fallback.authMiddleware st req);
    by rewrite Hauth, Hflag, Hstaff.
Qed.

Lemma Base_admin_refused (st : State) (req : Request) (principal : doc)
    (uid : string) (e : Endpoint) :
  nonStaff (db st) uid → plainSessions (db st) → identified (db st) →
  adminEndpoint e →
  Base.authMiddleware st req = Next principal →
  get principal "_id" = VStr uid →
  Base.handle e st req = (st, fail 403 "Forbidden").
Proof.
  intros (u & Hu & Hstaff) Hplain Hident He Hauth Hid.
  assert (Hflag : truthy (get principal "is_staff") = false).
  { revert Hauth. unfold Base.authMiddleware.
    destruct (bearer _) as [token|]; [|done].
    destruct (findOne _ "user_sessions" _) as [session|] eqn:Hs; [|done].
    destruct (findOne _ "users" _) as [user|] eqn:Hfind; [|done].
    intros [= <-].
    assert (Hsession : session ∈ coll (db st) "user_sessions").
    { unfold findOne in Hs.
      destruct (list_find _ _) as [[i s]|] eqn:Hl; [|done]. simplify_eq/=.
      apply list_find_Some in Hl as (Hi & _). by eapply list_elem_of_lookup_2. }
    assert (Huser : user ∈ coll (db st) "users"
                    ∧ strictEq (get session "user_id") (get user "_id") = true).
    { unfold findOne in Hfind.
      destruct (list_find _ _) as [[i s]|] eqn:Hl; [|done]. simplify_eq/=.
      apply list_find_Some in Hl as (Hi & Hm & _).
      split; [by eapply list_elem_of_lookup_2|].
      cbn [match_ matchCond] in Hm. by destruct (strictEq _ _). }
    destruct Huser as [Huser Hmatch].
    destruct (Hident user Huser) as [v Hv].
    assert (Hv' : get user "_id" = v) by (unfold get; by rewrite Hv).
    unfold get, spread in Hid. rewrite (lookup_union_Some_l _ _ _ _ Hv) in Hid.
    simpl in Hid. subst v. rewrite Hv' in Hmatch.
    assert (get session "user_id" = VStr uid) as Hsu.
    { destruct (get session "user_id"); simpl in Hmatch; try done.
      apply String.eqb_eq in Hmatch. by subst. }
    rewrite Hsu in Hfind. unfold userById in Hu. simplify_eq.
    unfold get, spread. rewrite lookup_union.
    destruct (u !! "is_staff") as [w|] eqn:Hw.
    - unfold get in Hstaff. rewrite Hw in Hstaff.
      by destruct (session !! "is_staff").
    - rewrite left_id by apply _. by apply Hplain. }
  destruct He as [-> | ->]; cbn [Base.handle];
    unfold Base.adminTransactions, Base.verify; by rewrite Hauth, Hflag.
Qed.

(** A registration that answers with [uid] has stored a record with
    that identifier at the end of the users. *)
Lemma Fallback_register_stored (st : State) (req : Request) (uid : string) :
  (Fallback.register st req).2 = registered uid →
  ∃ email hash,
    coll (db (Fallback.register st req).1) "users"
    = coll (db st) "users"
      ++ [stored (Fallback.newUser email hash (clock req)) (randomUUID req)]
    ∧ randomUUID req = uid
    ∧ (backend (db st) = Mongo →
       violates (ixsOf "users") (coll (db st) "users")
         (stored (Fallback.newUser email hash (clock req)) (randomUUID req)) = false).
Proof.
  unfold Fallback.register, registered.
  destruct (RegisterSchema _) as [b|]; [|done].
  destruct (checkRateLimit _ _ _ _ _) as [limits allowed].
  destruct allowed; cbn [negb]; [|done].
  destruct (findOne _ _ _); [done|].
  destruct (insertOne _ _ _ _) as [[d' v]|] eqn:Hins; [|done].
  cbn [fst snd]. intros Heq%(f_equal answered).
  cbn [answered payload json] in Heq. apply userId_inj in Heq. subst v.
  apply insertOne_Ok in Hins as (-> & Hid & Hv).
  rewrite stored_fresh_id in Hid by (by vm_compute).
  eexists _, _. split_and!; [cbn [db withDb]; by rewrite coll_setColl | congruence | done].
Qed.

Lemma Base_register_stored (st : State) (req : Request) (uid : string) :
  (Base.register st req).2 = registered uid →
  ∃ email hash,
    coll (db (Base.register st req).1) "users"
    = coll (db st) "users"
      ++ [stored (Base.newUser email hash (clock req)) (randomUUID req)]
    ∧ randomUUID req = uid
    ∧ (backend (db st) = Mongo →
       violates (ixsOf "users") (coll (db st) "users")
         (stored (Base.newUser email hash (clock req)) (randomUUID req)) = false).
Proof.
  unfold Base.register, registered.
  destruct (RegisterSchema _) as [b|]; [|done].
  destruct (checkRateLimit _ _ _ _ _) as [limits allowed].
  destruct allowed; cbn [negb]; [|done].
  destruct (findOne _ _ _); [done|].
  destruct (insertOne _ _ _ _) as [[d' v]|] eqn:Hins; [|done].
  cbn [fst snd]. intros Heq%(f_equal answered).
  cbn [answered payload json] in Heq. apply userId_inj in Heq. subst v.
  apply insertOne_Ok in Hins as (-> & Hid & Hv).
  rewrite stored_fresh_id in Hid by (by vm_compute).
  eexists _, _. split_and!; [cbn [db withDb]; by rewrite coll_setColl | congruence | done].
Qed.

(** MongoDB refuses an [_id] that is taken. *)
Lemma violates_id_fresh (name : string) (c : list doc) (x : doc) (uid : string) :
  violates (ixsOf name) c x = false → get x "_id" = VStr uid →
  ∀ u, u ∈ c → get u "_id" ≠ VStr uid.
Proof.
  intros Hv Hx u Hu Hid.
  assert (Hc : collides idIndex u x = false).
  { eapply violates_false; [exact Hv | apply list_elem_of_here | done | done]. }
  unfold collides, ixKey, get in *. cbn [ix_field ix_sparse idIndex] in Hc.
  destruct (u !! "_id") as [[]|], (x !! "_id") as [[]|]; simplify_eq/=.
  by rewrite String.eqb_refl in Hc.
Qed.

(** A record appended under a fresh identifier is the one found. *)
Lemma userById_appended (d d' : Db) (x : doc) (uid : string) :
  coll d' "users" = coll d "users" ++ [x] →
  get x "_id" = VStr uid →
  (∀ u, u ∈ coll d "users" → get u "_id" ≠ VStr uid) →
  userById d' uid = Some x.
Proof.
  intros Heq Hx Hfresh. unfold userById, findOne. rewrite Heq.
  rewrite list_find_app_r.
  - simpl. rewrite decide_True by (by apply match_id). done.
  - apply list_find_None, Forall_forall. intros u Hu Hm%match_id.
    by apply (Hfresh u Hu).
Qed.

(** C9. A user created by registration is no staff: the server with
    the fallback store stores [is_staff] false, the base server stores
    no [is_staff], and from then on, whatever requests follow, a call of
    an admin endpoint with a credential of that user is answered 403. *)
Theorem registered_user_refused_admin (st0 : State) (reqR : Request) (uid : string)
    (evs : list Event) (req : Request) (principal : doc) (e : Endpoint) :
  (backend (db st0) = InMemory →
   ∀ u, u ∈ coll (db st0) "users" → get u "_id" ≠ VStr uid) →
  adminEndpoint e →
  get principal "_id" = VStr uid →
  ((Fallback.handle Register st0 reqR).2 = registered uid →
   (∃ u, coll (db (Fallback.handle Register st0 reqR).1) "users"
         = coll (db st0) "users" ++ [u]
         ∧ get u "_id" = VStr uid ∧ u !! "is_staff" = Some (VBool false))
   ∧ (Fallback.authMiddleware
        (runWith Fallback.handle (Fallback.handle Register st0 reqR).1 evs) req
      = Next principal →
      Fallback.handle e
        (runWith Fallback.handle (Fallback.handle Register st0 reqR).1 evs) req
      = (runWith Fallback.handle (Fallback.handle Register st0 reqR).1 evs,
         fail 403 "Forbidden")))
  ∧ (plainSessions (db st0) → identified (db st0) →
     (Base.handle Register st0 reqR).2 = registered uid →
     (∃ u, coll (db (Base.handle Register st0 reqR).1) "users"
           = coll (db st0) "users" ++ [u]
           ∧ get u "_id" = VStr uid ∧ u !! "is_staff" = None)
     ∧ (Base.authMiddleware
          (runWith Base.handle (Base.handle Register st0 reqR).1 evs) req
        = Next principal →
        Base.handle e (runWith Base.handle (Base.handle Register st0 reqR).1 evs) req
        = (runWith Base.handle (Base.handle Register st0 reqR).1 evs,
           fail 403 "Forbidden"))).
Proof.
  intros Hfresh He Hid. split.
  - intros Hreg.
    change (Fallback.handle Register st0 reqR)
      with (Fallback.register st0 (sanitizeInput reqR)) in *.
    destruct (Fallback_register_stored _ _ _ Hreg) as (email & hash & Husers & Huid & Hv).
    set (st1 := (Fallback.register st0 (sanitizeInput reqR)).1) in *.
    set (x := stored (Fallback.newUser email hash (clock (sanitizeInput reqR)))
                     (randomUUID (sanitizeInput reqR))) in *.
    assert (Hx : get x "_id" = VStr uid).
    { subst x. rewrite stored_fresh_id by (by vm_compute). by rewrite Huid. }
    assert (Hstaff : x !! "is_staff" = Some (VBool false)).
    { subst x. rewrite get_stored_ne by done. by vm_compute. }
    assert (Hfresh' : ∀ u, u ∈ coll (db st0) "users" → get u "_id" ≠ VStr uid).
    { destruct (backend (db st0)) eqn:Hb; [by apply Hfresh|].
      by eapply violates_id_fresh; [apply Hv|]. }
    split; [by exists x|]. intros Hauth.
    eapply Fallback_admin_refused; [| done | exact Hauth | done].
    apply (run_invariant (λ d, nonStaff d uid) Fallback.handle).
    + apply Fallback_step_moved.
    + intros d d'. apply nonStaff_moved.
    + exists x. split; [by eapply userById_appended|].
      unfold get. by rewrite Hstaff.
  - intros Hplain Hident Hreg.
    change (Base.handle Register st0 reqR) with (Base.register st0 reqR) in *.
    destruct (Base_register_stored _ _ _ Hreg) as (email & hash & Husers & Huid & Hv).
    set (st1 := (Base.register st0 reqR).1) in *.
    set (x := stored (Base.newUser email hash (clock reqR)) (randomUUID reqR)) in *.
    assert (Hx : get x "_id" = VStr uid).
    { subst x. rewrite stored_fresh_id by (by vm_compute). by rewrite Huid. }
    assert (Hstaff : x !! "is_staff" = None).
    { subst x. rewrite get_stored_ne by done. by vm_compute. }
    assert (Hfresh' : ∀ u, u ∈ coll (db st0) "users" → get u "_id" ≠ VStr uid).
    { destruct (backend (db st0)) eqn:Hb; [by apply Hfresh|].
      by eapply violates_id_fresh; [apply Hv|]. }
    assert (Hmoved : Moved (db st0) (db st1)).
    { left. eexists _, _, _. apply (Base_effect Register st0 reqR). }
    split; [by exists x|]. intros Hauth.
    eapply Base_admin_refused; [| | | done | exact Hauth | done].
    + apply (run_invariant (λ d, nonStaff d uid) Base.handle).
      * apply Base_step_moved.
      * intros d d'. apply nonStaff_moved.
      * exists x. split; [by eapply userById_appended|].
        unfold get. by rewrite Hstaff.
    + apply (run_invariant plainSessions Base.handle).
      * apply Base_step_moved.
      * apply plainSessions_moved.
      * by eapply plainSessions_moved.
    + apply (run_invariant identified Base.handle).
      * apply Base_step_moved.
      * apply identified_moved.
      * by eapply identified_moved.
Qed.

End Staff.

Lemma freshId_spec (st : State) (uid : string) :
  freshId st uid = true →
  ∀ u, u ∈ coll (db st) "users" → get u "_id" ≠ VStr uid.
Proof.
  unfold freshId. rewrite forallb_forall. intros Hall u Hu%list_elem_of_In Hid.
  specialize (Hall u Hu). apply negb_true_iff in Hall.
  by rewrite (proj2 (strictEq_VStr uid _) Hid) in Hall.
Qed.

Lemma registered_user_refused_admin_witness :
  status (Fallback.handle AdminTransactions
            (runWith Fallback.handle
               (Fallback.handle Register fallbackStart registerA).1
               afterRegistration)
            adminRequest).2 = 403.
Proof.
  destruct (registered_user_refused_admin fallbackStart registerA "user-a"
              afterRegistration adminRequest
              (principalOf (Fallback.authMiddleware
                 (runWith Fallback.handle
                    (Fallback.handle Register fallbackStart registerA).1
                    afterRegistration) adminRequest))
              AdminTransactions) as [Hfb _].
  - intros _. apply freshId_spec. vm_compute. reflexivity.
  - left. reflexivity.
  - vm_compute. reflexivity.
  - destruct Hfb as [_ Hrefused].
    + vm_compute. reflexivity.
    + rewrite Hrefused.
      * reflexivity.
      * vm_compute. reflexivity.
Defined.

(** ** Logout *)

Lemma list_find_insert_same {A} (P : A → Prop) `{∀ x, Decision (P x)}
    (l : list A) (i : nat) (x y : A) :
  l !! i = Some x → ¬ P x → ¬ P y → list_find P (<[i := y]> l) = list_find P l.
Proof.
  revert i. induction l as [|z l IH]; intros [|i] Hi Hx Hy; simplify_eq/=.
  - by rewrite !decide_False.
  - by rewrite (IH i).
Qed.

Lemma run_invariant_guarded (P : Db → Prop)
    (handle : Endpoint → State → Request → State * Response) (tok : string) :
  (∀ e st req, Effect (db st) (clock req) (randomUUID req) (issued e req)
                      (db (handle e st req).1)) →
  (∀ d d' now uuid token,
     token ≠ Some tok → Effect d now uuid token d' → P d → P d') →
  (∀ d now, P d → P (ttlSweep now d)) →
  ∀ evs st, notReissued tok evs → P (db st) → P (db (runWith handle st evs)).
Proof.
  intros Heff Hkeep Hsweep evs. unfold runWith.
  induction evs as [|ev evs IH]; intros st Hevs HP; [done|].
  simpl. apply IH.
  - intros e req Hin. apply Hevs. by right.
  - destruct ev as [e req | now]; simpl.
    + eapply Hkeep; [| apply Heff | done]. apply Hevs. by left.
    + by apply Hsweep.
Qed.

Lemma session_token_stored (user : doc) (t : string) (req : Request) (uuid : string) :
  get (stored (sessionRecord user t req) uuid) "session_token" = VStr t.
Proof. unfold get. rewrite get_stored_ne by done. by vm_compute. Qed.

Lemma revoked_effect (d d' : Db) (now : Z) (uuid : string) (token : option string)
    (tok : string) :
  token ≠ Some tok → Effect d now uuid token d' → revoked d tok → revoked d' tok.
Proof.
  intros Htok Heff Hrev s Hs Hst.
  apply Effect_sessions in Heff
    as [Heq | [(t & user & req & -> & Heq) | (i & old & Hi & Heq)]];
    rewrite Heq in Hs.
  - by apply Hrev.
  - apply elem_of_app in Hs as [Hs | ->%list_elem_of_singleton]; [by apply Hrev|].
    rewrite session_token_stored in Hst. congruence.
  - apply list_elem_of_lookup in Hs as [j Hj].
    destruct (decide (i = j)) as [-> | Hne].
    + rewrite list_lookup_insert_eq in Hj by (by eapply lookup_lt_Some).
      injection Hj as <-. by rewrite (get_spread_set _ _ "is_active" (VBool false)).
    + rewrite list_lookup_insert_ne in Hj by done.
      apply Hrev; [by eapply list_elem_of_lookup_2 | done].
Qed.

Lemma revoked_sweep (d : Db) (now : Z) (tok : string) :
  revoked d tok → revoked (ttlSweep now d) tok.
Proof. intros Hrev s Hs. apply Hrev. by eapply ttlSweep_sessions. Qed.

Lemma unissued_effect (d d' : Db) (now : Z) (uuid : string) (token : option string)
    (tok : string) :
  token ≠ Some tok → Effect d now uuid token d' → unissued d tok → unissued d' tok.
Proof.
  intros Htok Heff Hun s Hs Hst.
  apply Effect_sessions in Heff
    as [Heq | [(t & user & req & -> & Heq) | (i & old & Hi & Heq)]];
    rewrite Heq in Hs.
  - by apply (Hun s).
  - apply elem_of_app in Hs as [Hs | ->%list_elem_of_singleton]; [by apply (Hun s)|].
    rewrite session_token_stored in Hst. congruence.
  - apply list_elem_of_lookup in Hs as [j Hj].
    destruct (decide (i = j)) as [-> | Hne].
    + rewrite list_lookup_insert_eq in Hj by (by eapply lookup_lt_Some).
      injection Hj as <-. rewrite get_spread_old in Hst by done.
      apply (Hun old); [by eapply list_elem_of_lookup_2 | done].
    + rewrite list_lookup_insert_ne in Hj by done.
      apply (Hun s); [by eapply list_elem_of_lookup_2 | done].
Qed.

Lemma unissued_sweep (d : Db) (now : Z) (tok : string) :
  unissued d tok → unissued (ttlSweep now d) tok.
Proof. intros Hun s Hs. apply Hun. by eapply ttlSweep_sessions. Qed.

(** The lookup of a session that the token of the request matches. *)
Lemma sessionQuery_match (s : doc) (tok : string) (now : Z) :
  match_ s (sessionQuery (VStr tok) now) = true →
  get s "session_token" = VStr tok ∧ strictEq (VBool true) (get s "is_active") = true.
Proof.
  unfold sessionQuery. cbn [match_ matchCond].
  destruct (strictEq (VStr tok) _) eqn:Htok; [|done].
  apply strictEq_VStr in Htok. by destruct (strictEq (VBool true) _).
Qed.

Lemma findOne_session_none (d : Db) (tok : string) (now : Z) :
  (revoked d tok ∨ unissued d tok) →
  findOne d "user_sessions" (sessionQuery (VStr tok) now) = None.
Proof.
  intros Hno. apply findOne_None. intros s Hs.
  destruct (match_ s _) eqn:Hm; [|done].
  apply sessionQuery_match in Hm as [Htok Hactive].
  destruct Hno as [Hrev | Hun].
  - by rewrite (Hrev s Hs Htok) in Hactive.
  - by destruct (Hun s Hs).
Qed.

Lemma match_token (s : doc) (tok : string) :
  match_ s [("session_token", QEq (VStr tok))] = true ↔ get s "session_token" = VStr tok.
Proof.
  cbn [match_ matchCond]. rewrite <- strictEq_VStr.
  by destruct (strictEq (VStr tok) (get s "session_token")).
Qed.

Section Logout.
Context `{Platform}.

Lemma Fallback_auth_same (st st' : State) (req : Request) :
  backend (db st') = backend (db st) →
  coll (db st') "users" = coll (db st) "users" →
  (∀ token, bearer (authorization req) = Some token →
     findOne (db st') "user_sessions" (sessionQuery token (clock req))
     = findOne (db st) "user_sessions" (sessionQuery token (clock req))) →
  Fallback.authMiddleware st' req = Fallback.authMiddleware st req.
Proof.
  intros Hb Hu Hs. unfold Fallback.authMiddleware.
  destruct (bearer (authorization req)) as [token|]; [|done].
  rewrite (Hs token eq_refl).
  unfold Fallback.jwtPath, Fallback.findUserById, findOne. by rewrite Hb, Hu.
Qed.

Lemma findUserById_effect (d d' : Db) (now : Z) (uuid : string)
    (token : option string) (id : string) (user : doc) :
  Effect d now uuid token d' →
  Fallback.findUserById d id = Some user → Fallback.findUserById d' id = Some user.
Proof.
  intros Heff. unfold Fallback.findUserById, findOne.
  rewrite (Effect_backend _ _ _ _ _ Heff).
  apply Effect_users in Heff as [-> | (x & _ & _ & -> & _)]; [done|].
  assert (Hgrow : ∀ q, snd <$> list_find (λ u, match_ u q = true) (coll d "users")
                       = Some user →
                       snd <$> list_find (λ u, match_ u q = true)
                                 (coll d "users" ++ [stored x uuid]) = Some user).
  { intros q. destruct (list_find _ (coll d "users")) as [[i u]|] eqn:Hfind; [|done].
    by rewrite (list_find_app_l _ _ _ _ _ Hfind). }
  destruct (backend d); [apply Hgrow|]. destruct (ObjectId_new id); apply Hgrow.
Qed.

Lemma findUserById_sweep (d : Db) (now : Z) (id : string) :
  Fallback.findUserById (ttlSweep now d) id = Fallback.findUserById d id.
Proof.
  unfold Fallback.findUserById, findOne. rewrite ttlSweep_users.
  unfold ttlSweep. destruct (backend d) eqn:Hb; rewrite ?Hb; [done|].
  cbn [backend setColl]. by rewrite Hb.
Qed.

(** What a logout with the session token [tok] does. *)
Lemma Fallback_logout_step (st : State) (req : Request) (principal : doc)
    (tok : string) :
  Fallback.authMiddleware st req = Next principal →
  get principal "session_token" = VStr tok →
  (Fallback.handle Logout st req).2 = loggedOut
  ∧ backend (db (Fallback.handle Logout st req).1) = backend (db st)
  ∧ coll (db (Fallback.handle Logout st req).1) "users" = coll (db st) "users"
  ∧ ((coll (db (Fallback.handle Logout st req).1) "user_sessions"
      = coll (db st) "user_sessions" ∧ unissued (db st) tok)
     ∨ ∃ i old,
         coll (db st) "user_sessions" !! i = Some old
         ∧ get old "session_token" = VStr tok
         ∧ coll (db (Fallback.handle Logout st req).1) "user_sessions"
           = <[i := spread old (logoutSet (clock req))]> (coll (db st) "user_sessions")).
Proof.
  intros Hauth Htok.
  change (Fallback.handle Logout st req) with (Fallback.logout st (sanitizeInput req)).
  unfold Fallback.logout.
  change (Fallback.authMiddleware st (sanitizeInput req))
    with (Fallback.authMiddleware st req).
  change (clock (sanitizeInput req)) with (clock req).
  rewrite Hauth, Htok. unfold updateOne.
  destruct (list_find _ _) as [[i old]|] eqn:Hfind.
  - apply list_find_Some in Hfind as (Hi & Hold%match_token & _).
    unfold applySet.
    assert (Hset : ∀ c x, violates (touched (logoutSet (clock req))
                            (ixsOf "user_sessions")) c x = false) by done.
    destruct (backend (db st)) eqn:Hb; rewrite ?Hset; cbn [fst snd db withDb];
      (split_and!; [done | done | by rewrite coll_setColl_ne |]);
      right; exists i, old; by rewrite coll_setColl.
  - cbn [fst snd db withDb]. split_and!; [done..|]. left. split; [done|].
    intros s Hs Hst. eapply list_find_None, Forall_forall in Hfind; [|exact Hs].
    by apply Hfind, match_token.
Qed.

(** C1. A logout with a session token succeeds and revokes it: from
    then on, whatever requests follow and as long as no login draws the
    same token again, the token is answered 401.  The logout changes no
    answer given to another credential, and a signed token that names an
    existing user keeps passing, in every later state, at every clock
    reading at which its signature and expiry verify. *)
Theorem logout_revokes_session_only (st : State) (req : Request) (principal : doc)
    (tok : string) (evs : list Event) :
  Fallback.authMiddleware st req = Next principal →
  get principal "session_token" = VStr tok →
  singleToken (db st) tok →
  (∀ now, jwt_verify tok now = None) →
  notReissued tok evs →
  (Fallback.handle Logout st req).2 = loggedOut
  ∧ (∀ req', bearer (authorization req') = Some (VStr tok) →
       Fallback.authMiddleware
         (runWith Fallback.handle (Fallback.handle Logout st req).1 evs) req'
       = Reject expiredAnswer)
  ∧ (∀ req' j, bearer (authorization req') = Some (VStr j) → j ≠ tok →
       Fallback.authMiddleware (Fallback.handle Logout st req).1 req'
       = Fallback.authMiddleware st req')
  ∧ (∀ req' j uid user,
       bearer (authorization req') = Some (VStr j) →
       unissued (db st) j → notReissued j evs →
       jwt_verify j (clock req') = Some (Some uid) → uid ≠ "" →
       Fallback.findUserById (db st) uid = Some user →
       Fallback.authMiddleware
         (runWith Fallback.handle (Fallback.handle Logout st req).1 evs) req'
       = Next (Fallback.withStaffFlag user user)).
Proof.
  intros Hauth Htok Hsingle Hnojwt Hevs.
  destruct (Fallback_logout_step st req principal tok Hauth Htok)
    as (Hanswer & Hbackend & Husers & Hsessions).
  set (st' := (Fallback.handle Logout st req).1) in *.
  assert (Hrevoked : revoked (db st') tok).
  { intros s Hs Hst. destruct Hsessions as [[Heq Hun] | (i & old & Hi & Hold & Heq)];
      rewrite Heq in Hs.
    - by destruct (Hun s Hs).
    - apply list_elem_of_lookup in Hs as [j Hj].
      destruct (decide (i = j)) as [-> | Hne].
      + rewrite list_lookup_insert_eq in Hj by (by eapply lookup_lt_Some).
        injection Hj as <-. by rewrite (get_spread_set _ _ "is_active" (VBool false)).
      + rewrite list_lookup_insert_ne in Hj by done.
        by destruct (Hne (Hsingle i j old s Hi Hj Hold Hst)). }
  split_and!; [done | | |].
  - intros req' Hbearer. unfold Fallback.authMiddleware. rewrite Hbearer.
    rewrite findOne_session_none.
    + unfold Fallback.jwtPath. by rewrite Hnojwt.
    + left. apply (run_invariant_guarded (λ d, revoked d tok) Fallback.handle tok);
        [apply Fallback_effect | | | done | done].
      * intros d d' now uuid token. apply revoked_effect.
      * intros d now. apply revoked_sweep.
  - intros req' j Hbearer Hj. apply Fallback_auth_same; [done | done |].
    intros token Htoken. rewrite Hbearer in Htoken. injection Htoken as <-.
    destruct Hsessions as [[Heq _] | (i & old & Hi & Hold & Heq)];
      unfold findOne; rewrite Heq; [done|].
    rewrite (list_find_insert_same _ _ i old); [done | done | |].
    + intros [Hm _]%sessionQuery_match. congruence.
    + intros [Hm _]%sessionQuery_match.
      rewrite get_spread_old in Hm by done. congruence.
  - intros req' j uid user Hbearer Hun Hjevs Hverify Huid Huser.
    assert (Hun' : unissued (db st') j).
    { eapply (unissued_effect (db st) (db st') (clock req) (randomUUID req) None);
        [done | apply (Fallback_effect Logout st req) | done]. }
    assert (Huser' : Fallback.findUserById (db st') uid = Some user).
    { eapply findUserById_effect; [apply (Fallback_effect Logout st req) | done]. }
    unfold Fallback.authMiddleware. rewrite Hbearer.
    rewrite findOne_session_none.
    + unfold Fallback.jwtPath. rewrite Hverify.
      rewrite (proj2 (String.eqb_neq uid "") Huid).
      rewrite (run_invariant_guarded
                 (λ d, Fallback.findUserById d uid = Some user) Fallback.handle j);
        [done | apply Fallback_effect | | | done | done].
      * intros d d' now uuid token _. apply findUserById_effect.
      * intros d now. by rewrite findUserById_sweep.
    + right. apply (run_invariant_guarded (λ d, unissued d j) Fallback.handle j);
        [apply Fallback_effect | | | done | done].
      * intros d d' now uuid token. apply unissued_effect.
      * intros d now. apply unissued_sweep.
Qed.

End Logout.

Lemma singleTokenb_spec (d : Db) (tok : string) :
  singleTokenb d tok = true → singleToken d tok.
Proof.
  unfold singleTokenb, singleToken. intros Hlen%Nat.leb_le.
  revert Hlen. generalize (coll d "user_sessions") as l.
  assert (Hcarries : ∀ s, get s "session_token" = VStr tok → carries tok s = true).
  { intros s Hs. by apply strictEq_VStr. }
  induction l as [|x l IH]; intros Hlen i j s1 s2 Hi Hj H1 H2; [done|].
  assert (Hnone : carries tok x = true → ∀ k s, l !! k = Some s →
                  get s "session_token" = VStr tok → False).
  { intros Hx k s Hk Hs. simpl in Hlen. rewrite Hx in Hlen. simpl in Hlen.
    assert (Hin : In s (List.filter (carries tok) l)).
    { apply filter_In. split; [|by apply Hcarries].
      apply list_elem_of_In. by eapply list_elem_of_lookup_2. }
    destruct (List.filter (carries tok) l); [done | simpl in Hlen; lia]. }
  destruct i as [|i], j as [|j]; simplify_eq/=; [done | | |].
  - destruct (Hnone (Hcarries _ H1) j s2 Hj H2).
  - destruct (Hnone (Hcarries _ H2) i s1 Hi H1).
  - f_equal. apply (IH ltac:(destruct (carries tok x); simpl in Hlen; lia)
                       i j s1 s2 Hi Hj H1 H2).
Qed.

Lemma unissuedb_spec (d : Db) (tok : string) :
  unissuedb d tok = true → unissued d tok.
Proof.
  unfold unissuedb, unissued. rewrite forallb_forall.
  intros Hall s Hs%list_elem_of_In Htok. specialize (Hall s Hs).
  apply negb_true_iff in Hall. unfold carries in Hall.
  by rewrite (proj2 (strictEq_VStr tok _) Htok) in Hall.
Qed.

Lemma notReissuedb_spec (tok : string) (evs : list Event) :
  notReissuedb tok evs = true → notReissued tok evs.
Proof.
  unfold notReissuedb, notReissued. rewrite forallb_forall.
  intros Hall e req Hin%list_elem_of_In Heq. specialize (Hall _ Hin).
  simpl in Hall. rewrite Heq in Hall. by rewrite String.eqb_refl in Hall.
Qed.

(** A logs out of the scenario: the session token is refused from then
    on, the signed token of the same login still passes. *)
Lemma logout_revokes_session_only_witness :
  Fallback.authMiddleware
    (runWith Fallback.handle (Fallback.handle Logout fallbackTwoUsers logoutA).1
             afterLogout)
    (historyRequest 1700000000800)
  = Reject expiredAnswer
  ∧ Fallback.authMiddleware
      (runWith Fallback.handle (Fallback.handle Logout fallbackTwoUsers logoutA).1
               afterLogout)
      (withBearer jwtA "" (atClock 1700000000800 blank))
    = Next (Fallback.withStaffFlag userA userA).
Proof.
  destruct (logout_revokes_session_only fallbackTwoUsers logoutA
              (principalOf (Fallback.authMiddleware fallbackTwoUsers logoutA))
              tokenA afterLogout) as (_ & Hrevoked & _ & Hjwt).
  - vm_compute. reflexivity.
  - vm_compute. reflexivity.
  - apply singleTokenb_spec. vm_compute. reflexivity.
  - intros now. vm_compute. reflexivity.
  - apply notReissuedb_spec. vm_compute. reflexivity.
  - split.
    + apply Hrevoked. vm_compute. reflexivity.
    + apply (Hjwt (withBearer jwtA "" (atClock 1700000000800 blank)) jwtA "user-a" userA).
      * vm_compute. reflexivity.
      * apply unissuedb_spec. vm_compute. reflexivity.
      * apply notReissuedb_spec. vm_compute. reflexivity.
      * vm_compute. reflexivity.
      * discriminate.
      * vm_compute. reflexivity.
Defined.

(** The login of A issues the two credentials used above. *)
Example scenario_login_tokens :
  payload (Fallback.handle Login
             (Fallback.handle Register fallbackStart registerA).1 loginA).2
  = Success (Some "Login successful")
      (Some (DLogin (obj [("token", VStr tokenA); ("jwt", VStr jwtA)])
                    (Fallback.loginUser userA))).
Proof. vm_compute. reflexivity. Qed.

(** ** Unique indexes *)

Lemma uniqueP_app (ixs : list index) (c : list doc) (x : doc) :
  uniqueP ixs c →
  (∀ y ix, y ∈ c → ix ∈ ixs → ix_unique ix = true → collides ix y x = false) →
  uniqueP ixs (c ++ [x]).
Proof.
  induction c as [|z c IH]; simpl; intros Hc Hx.
  { split; [|done]. intros y ix Hy. by apply elem_of_nil in Hy. }
  destruct Hc as [Hz Hc]. split.
  - intros y ix [Hy | ->%list_elem_of_singleton]%elem_of_app Hix Hu.
    + by apply Hz.
    + apply Hx; [by left | done | done].
  - apply IH; [done|]. intros y ix Hy. apply Hx. by right.
Qed.

Lemma uniqueP_filter (ixs : list index) (f : doc → bool) (c : list doc) :
  uniqueP ixs c → uniqueP ixs (List.filter f c).
Proof.
  induction c as [|z c IH]; simpl; [done|]. intros [Hz Hc].
  destruct (f z); simpl; [|by apply IH]. split; [|by apply IH].
  intros y ix Hy%list_elem_of_In%filter_In. apply Hz. apply list_elem_of_In, Hy.
Qed.

Lemma collides_key_l (ix : index) (x x' y : doc) :
  ixKey ix x' = ixKey ix x → collides ix x' y = collides ix x y.
Proof. unfold collides. by intros ->. Qed.

Lemma collides_key_r (ix : index) (x y y' : doc) :
  ixKey ix y' = ixKey ix y → collides ix x y' = collides ix x y.
Proof. unfold collides. by intros ->. Qed.

Lemma uniqueP_insert (ixs : list index) (c : list doc) (i : nat) (old new : doc) :
  (∀ ix, ix ∈ ixs → ixKey ix new = ixKey ix old) →
  c !! i = Some old → uniqueP ixs c → uniqueP ixs (<[i := new]> c).
Proof.
  intros Hkey. revert i. induction c as [|z c IH]; intros [|i] Hi; simplify_eq/=.
  - intros [Hz Hc]. split; [|done]. intros y ix Hy Hix Hu.
    rewrite (collides_key_l ix old new) by by apply Hkey. by apply Hz.
  - intros [Hz Hc]. split; [|by eapply IH].
    intros y ix Hy Hix Hu. apply list_elem_of_lookup in Hy as [j Hj].
    destruct (decide (i = j)) as [-> | Hne].
    + rewrite list_lookup_insert_eq in Hj by (by eapply lookup_lt_Some).
      injection Hj as <-. rewrite (collides_key_r ix z old new) by by apply Hkey.
      apply Hz; [by eapply list_elem_of_lookup_2 | done | done].
    + rewrite list_lookup_insert_ne in Hj by done.
      apply Hz; [by eapply list_elem_of_lookup_2 | done | done].
Qed.

Lemma buildableAfter_unique (ixs : list index) (c earlier : list doc) :
  buildableAfter ixs earlier c = true → uniqueP ixs earlier →
  uniqueP ixs (earlier ++ c).
Proof.
  revert earlier. induction c as [|x c IH]; intros earlier; simpl.
  { by rewrite app_nil_r. }
  intros [Hx Hc]%andb_prop Hearlier. apply negb_true_iff in Hx.
  replace (earlier ++ x :: c) with ((earlier ++ [x]) ++ c)
    by (by rewrite <- app_assoc).
  apply IH; [done|]. apply uniqueP_app; [done|].
  intros y ix Hy Hix Hu. by eapply violates_false.
Qed.

Lemma ixKey_spread (ix : index) (old set : doc) :
  set !! ix_field ix = None → ixKey ix (spread old set) = ixKey ix old.
Proof. intros Hset. unfold ixKey, spread. by rewrite lookup_union_r. Qed.

Lemma indexed_setColl (d : Db) (name : string) (c : list doc) :
  indexed d → uniqueP (ixsOf name) c → indexed (setColl d name c).
Proof.
  intros Hd Hc name' Hname'. destruct (decide (name = name')) as [<- | Hne].
  - by rewrite coll_setColl.
  - rewrite coll_setColl_ne by done. by apply Hd.
Qed.

Lemma indexed_insertOne (d d' : Db) (name : string) (x : doc) (uuid : string)
    (v : value) :
  backend d = Mongo → name ∈ collectionNames →
  insertOne d name x uuid = Ok (d', v) → indexed d → indexed d'.
Proof.
  intros Hb Hname (-> & _ & Hv)%insertOne_Ok Hd. apply indexed_setColl; [done|].
  apply uniqueP_app; [by apply Hd|].
  intros y ix Hy Hix Hu. eapply violates_false; [by apply Hv | done..].
Qed.

Lemma indexed_applySet (d d' : Db) (name : string) (i : nat) (old set new : doc) :
  name ∈ collectionNames →
  (∀ ix, ix ∈ ixsOf name → set !! ix_field ix = None) →
  coll d name !! i = Some old →
  applySet d name i old set = Ok (d', new) → indexed d → indexed d'.
Proof.
  intros Hname Hset Hi (-> & _)%applySet_Ok Hd. apply indexed_setColl; [done|].
  eapply uniqueP_insert; [| exact Hi | by apply Hd].
  intros ix Hix. apply ixKey_spread. by apply Hset.
Qed.

Lemma untouched_by_sets (now : Z) (ix : index) :
  (ix ∈ ixsOf "user_sessions" → logoutSet now !! ix_field ix = None)
  ∧ (ix ∈ ixsOf "payment_transactions" → verifySet now !! ix_field ix = None).
Proof.
  split; intros Hix; vm_compute in Hix;
    repeat (apply elem_of_cons in Hix as [-> | Hix]; [by vm_compute|]);
    by apply elem_of_nil in Hix.
Qed.

Lemma indexed_effect (d d' : Db) (now : Z) (uuid : string) (token : option string) :
  backend d = Mongo → Effect d now uuid token d' → indexed d → indexed d'.
Proof.
  intros Hb Heff Hd.
  destruct Heff as [| x v d' _ _ Hins | t user req v d' _ Hins | x v d' Hins
                    | i old new d' Hi Hset | i old new d' Hi Hset]; [done | ..].
  - eapply indexed_insertOne; [done | | exact Hins | done]. set_solver.
  - eapply indexed_insertOne; [done | | exact Hins | done]. set_solver.
  - eapply indexed_insertOne; [done | | exact Hins | done]. set_solver.
  - eapply indexed_applySet; [| | exact Hi | exact Hset | done]; [set_solver|].
    intros ix. apply untouched_by_sets.
  - eapply indexed_applySet; [| | exact Hi | exact Hset | done]; [set_solver|].
    intros ix. apply untouched_by_sets.
Qed.

Lemma indexed_sweep (d : Db) (now : Z) : indexed d → indexed (ttlSweep now d).
Proof.
  intros Hd. unfold ttlSweep. destruct (backend d); [done|].
  apply indexed_setColl; [done|]. apply uniqueP_filter. apply Hd. set_solver.
Qed.

Lemma indexed_moved (d d' : Db) :
  Moved d d' → backend d = Mongo ∧ indexed d → backend d' = Mongo ∧ indexed d'.
Proof.
  intros [(now & uuid & token & Heff) | (now & ->)] [Hb Hd].
  - split; [by rewrite (Effect_backend _ _ _ _ _ Heff) | by eapply indexed_effect].
  - split; [|by apply indexed_sweep].
    unfold ttlSweep. by rewrite Hb.
Qed.

Lemma indexed_connected (stored : gmap string (list doc)) :
  indexesBuildable stored = true → indexed (mongoDb stored).
Proof.
  unfold indexesBuildable. rewrite forallb_forall. intros Hall name Hname.
  apply (buildableAfter_unique _ _ []); [|done].
  apply Hall. by apply list_elem_of_In.
Qed.

(** What uniqueness on an index says of two records. *)
Lemma uniqueP_distinct (field : string) (name : string) (c : list doc) :
  uniqueIndex field ∈ ixsOf name → uniqueP (ixsOf name) c → distinctOn field c.
Proof.
  intros Hix Hc.
  assert (Hpair : ∀ i j x y v, (i < j)%nat → c !! i = Some x → c !! j = Some y →
            x !! field = Some (VStr v) → y !! field = Some (VStr v) → False).
  { clear -Hix Hc. induction c as [|z c IH]; intros i j x y v Hlt Hi Hj Hx Hy; [done|].
    destruct Hc as [Hz Hc]. destruct j as [|j]; [lia|]. destruct i as [|i]; simplify_eq/=.
    - assert (collides (uniqueIndex field) x y = false) as Hcol.
      { apply Hz; [by eapply list_elem_of_lookup_2 | done | done]. }
      unfold collides, ixKey in Hcol. cbn [ix_field uniqueIndex] in Hcol.
      rewrite Hx, Hy in Hcol. simpl in Hcol. by rewrite String.eqb_refl in Hcol.
    - eapply (IH Hc i j); [lia | done..]. }
  intros i j x y v Hi Hj Hne Hx Hy.
  destruct (decide (i < j)%nat); [by eapply (Hpair i j)|].
  eapply (Hpair j i); [lia | done..].
Qed.

Lemma insertOne_duplicate (d : Db) (name : string) (x : doc) (uuid : string)
    (y : doc) (ix : index) :
  backend d = Mongo → y ∈ coll d name → ix ∈ ixsOf name → ix_unique ix = true →
  collides ix y (stored x uuid) = true →
  insertOne d name x uuid = Throw (DuplicateKey name).
Proof.
  intros Hb Hy Hix Hu Hcol. unfold insertOne. rewrite Hb.
  destruct (violates _ _ _) eqn:Hv; [done|].
  by rewrite (violates_false _ _ _ Hv ix y Hix Hu Hy) in Hcol.
Qed.

Section Uniqueness.
Context `{Platform}.

Lemma indexed_run (handle : Endpoint → State → Request → State * Response)
    (st : State) (evs : list Event) :
  (∀ st ev, Moved (db st) (db (stepWith handle st ev))) →
  backend (db st) = Mongo → indexed (db st) →
  distinctOn "email" (coll (db (runWith handle st evs)) "users")
  ∧ distinctOn "session_token" (coll (db (runWith handle st evs)) "user_sessions")
  ∧ distinctOn "reference_number"
      (coll (db (runWith handle st evs)) "payment_transactions").
Proof.
  intros Hstep Hb Hd.
  destruct (run_invariant (λ d, backend d = Mongo ∧ indexed d) handle Hstep
              indexed_moved evs st (conj Hb Hd)) as [_ Hrun].
  split_and!; (eapply uniqueP_distinct; [|apply Hrun; set_solver]); set_solver.
Qed.

(** C3, as amended.  MongoDB refuses a record whose value on a unique
    index is taken, and on a server connected to MongoDB no two users
    share an e-mail, no two sessions a token and no two transactions a
    reference number, whatever requests were handled and whatever
    sessions expired.  The in-memory store has no index: [insertOne]
    always succeeds and appends the record. *)
Theorem unique_fields_on_mongo (stored0 : gmap string (list doc))
    (limits : gmap string RateEntry) (evs : list Event) :
  indexesBuildable stored0 = true →
  (distinctOn "email"
     (coll (db (runWith Base.handle
                  {| db := mongoDb stored0; rateLimitMap := limits |} evs)) "users")
   ∧ distinctOn "session_token"
       (coll (db (runWith Base.handle
                    {| db := mongoDb stored0; rateLimitMap := limits |} evs))
             "user_sessions")
   ∧ distinctOn "reference_number"
       (coll (db (runWith Base.handle
                    {| db := mongoDb stored0; rateLimitMap := limits |} evs))
             "payment_transactions"))
  ∧ (distinctOn "email"
       (coll (db (runWith Fallback.handle
                    {| db := mongoDb stored0; rateLimitMap := limits |} evs)) "users")
     ∧ distinctOn "session_token"
         (coll (db (runWith Fallback.handle
                      {| db := mongoDb stored0; rateLimitMap := limits |} evs))
               "user_sessions")
     ∧ distinctOn "reference_number"
         (coll (db (runWith Fallback.handle
                      {| db := mongoDb stored0; rateLimitMap := limits |} evs))
               "payment_transactions"))
  ∧ (∀ d name x uuid y ix,
       backend d = Mongo → y ∈ coll d name → ix ∈ ixsOf name → ix_unique ix = true →
       collides ix y (stored x uuid) = true →
       insertOne d name x uuid = Throw (DuplicateKey name))
  ∧ (∀ d name x uuid,
       backend d = InMemory →
       insertOne d name x uuid
       = Ok (setColl d name (coll d name ++ [stored x uuid]),
             get (stored x uuid) "_id")).
Proof.
  intros Hbuild. apply indexed_connected in Hbuild.
  split; [|split; [|split]].
  - by apply indexed_run; [apply Base_step_moved | |].
  - by apply indexed_run; [apply Fallback_step_moved | |].
  - intros d name x uuid y ix. apply insertOne_duplicate.
  - intros d name x uuid Hb. unfold insertOne. by rewrite Hb.
Qed.

End Uniqueness.

(** On an empty MongoDB, the second payment of the same millisecond is
    refused and one reference number is stored. *)
Lemma unique_fields_on_mongo_witness :
  distinctOn "reference_number"
    (coll (db (runWith Base.handle baseStart mongoRun)) "payment_transactions")
  ∧ referenceNumbers (runWith Base.handle baseStart mongoRun)
    = [VStr "INT000123K3X9Q2"].
Proof.
  assert (Hbuild : indexesBuildable ∅ = true) by (vm_compute; reflexivity).
  destruct (unique_fields_on_mongo ∅ ∅ mongoRun Hbuild) as ((_ & _ & Href) & _).
  split.
  - exact Href.
  - vm_compute. reflexivity.
Defined.

(** C3 fails on the in-memory store: the two payments of the same
    millisecond are both accepted and both stored, under one reference
    number. *)
Lemma in_memory_duplicate_reference :
  status (Fallback.handle CreatePayment fallbackPaid payAgain).2 = 200
  ∧ referenceNumbers (Fallback.handle CreatePayment fallbackPaid payAgain).1
    = [VStr "INT000123K3X9Q2"; VStr "INT000123K3X9Q2"].
Proof. vm_compute. split; reflexivity. Qed.

(** ** Input sanitization *)

Lemma escapeAngles_plain (s : string) : plain (escapeAngles s) = true.
Proof.
  unfold plain, allOf, chars. induction s as [|c s IH]; [done|].
  cbn [escapeAngles].
  destruct (Ascii.eqb c "<") eqn:Hlt.
  { change ("&lt;" +:+ escapeAngles s)
      with (String "&" (String "l" (String "t" (String ";" (escapeAngles s))))).
    exact IH. }
  destruct (Ascii.eqb c ">") eqn:Hgt.
  { change ("&gt;" +:+ escapeAngles s)
      with (String "&" (String "g" (String "t" (String ";" (escapeAngles s))))).
    exact IH. }
  simpl. by rewrite Hlt, Hgt.
Qed.

(** X1. Whatever string is submitted, the string [sanitizeValue] gives
    for it has no angle bracket. *)
Theorem sanitizeValue_no_angle_bracket (s : string) :
  ∃ t, sanitizeValue (VStr s) false = VStr t ∧ plain t = true.
Proof. eexists. split; [done|]. apply escapeAngles_plain. Qed.

Lemma sanitizeValue_idem (v : value) (skip : bool) :
  sanitizeValue (sanitizeValue v skip) skip = sanitizeValue v skip.
Proof.
  unfold sanitizeValue. destruct skip; [done|]. destruct v; try done.
  f_equal. apply sanitize_plain, escapeAngles_plain.
Qed.

(** X2. [sanitizeInput] is idempotent: a request that went through it
    is left as it is by a second pass. *)
Theorem sanitizeInput_idempotent (req : Request) :
  sanitizeInput (sanitizeInput req) = sanitizeInput req.
Proof.
  unfold sanitizeInput. cbn. f_equal.
  - apply map_eq. intros k. unfold sanitizeObject.
    rewrite !map_lookup_imap. destruct (body req !! k) as [v|]; [|done].
    cbn. f_equal. apply sanitizeValue_idem.
  - destruct (query_status req) as [s|]; [|done]. cbn. f_equal.
    apply sanitize_plain, escapeAngles_plain.
Qed.

(** ** Session tokens *)

Lemma hexDigit_lower (n : N) : isLowerHex (hexDigit n) = true.
Proof.
  destruct n as [|p]; [done|].
  do 4 (destruct p as [p|p|]; try done).
Qed.

Lemma hexDigit_inj (a b : N) :
  (a < 16)%N → (b < 16)%N → hexDigit a = hexDigit b → a = b.
Proof.
  assert (Hcases : ∀ n : N, (n < 16)%N →
    (n = 0 ∨ n = 1 ∨ n = 2 ∨ n = 3 ∨ n = 4 ∨ n = 5 ∨ n = 6 ∨ n = 7 ∨ n = 8
     ∨ n = 9 ∨ n = 10 ∨ n = 11 ∨ n = 12 ∨ n = 13 ∨ n = 14 ∨ n = 15)%N) by lia.
  intros Ha Hb. destruct (Hcases a Ha) as [->|H]; repeat (destruct H as [->|H]);
    try subst a;
    (destruct (Hcases b Hb) as [->|H']; repeat (destruct H' as [->|H']);
     try subst b; by vm_compute).
Qed.

Lemma toHex_inj (bs bs' : list Byte.byte) : toHex bs = toHex bs' → bs = bs'.
Proof.
  revert bs'. induction bs as [|b bs IH]; intros [|b' bs']; try done.
  cbn [toHex]. intros [= Hhi Hlo Hrest].
  pose proof (Byte.to_N_bounded b) as Hb.
  pose proof (Byte.to_N_bounded b') as Hb'.
  apply hexDigit_inj in Hhi;
    [|apply N.Div0.div_lt_upper_bound; lia|apply N.Div0.div_lt_upper_bound; lia].
  apply hexDigit_inj in Hlo; [|apply N.mod_lt; lia|apply N.mod_lt; lia].
  f_equal; [|by apply IH].
  assert (Byte.to_N b = Byte.to_N b') as Heq.
  { rewrite (N.div_mod' (Byte.to_N b) 16), (N.div_mod' (Byte.to_N b') 16). congruence. }
  apply (inj Some). by rewrite <- !Byte.of_to_N, Heq.
Qed.

(** X3. The session token has two lower-case hexadecimal digits for
    every random byte, and two draws that differ give tokens that
    differ. *)
Theorem generateSessionToken_shape (req req' : Request) :
  String.length (generateSessionToken req) = (2 * length (randomBytes req))%nat
  ∧ allOf isLowerHex (generateSessionToken req) = true
  ∧ (generateSessionToken req = generateSessionToken req' →
     randomBytes req = randomBytes req').
Proof.
  unfold generateSessionToken. split_and!.
  - induction (randomBytes req) as [|b bs IH]; [done|]. cbn [toHex]. simpl. lia.
  - unfold allOf, chars. induction (randomBytes req) as [|b bs IH]; [done|].
    cbn [toHex]. simpl. by rewrite !hexDigit_lower, IH.
  - apply toHex_inj.
Qed.

(** X4. The worker's rendering of the random bytes, digit by digit with
    [padStart], is the hexadecimal string the server takes from
    [Buffer.toString('hex')]. *)
Theorem worker_session_token_agrees (req : Request) :
  Worker.generateSessionToken (randomBytes req) = generateSessionToken req.
Proof.
  unfold Worker.generateSessionToken, generateSessionToken, join.
  induction (randomBytes req) as [|b bs IH]; [done|].
  cbn [fmap list_fmap foldr toHex]. cbn [fmap] in IH. rewrite IH.
  by destruct b.
Qed.

(** ** The bearer credential *)

Lemma split_no_sep (sep : ascii) (t : string) :
  allOf (λ c, negb (Ascii.eqb c sep)) t = true → split sep t = [t].
Proof.
  unfold allOf, chars. induction t as [|c t IH]; [done|].
  simpl. intros [Hc Ht]%andb_prop. apply negb_true_iff in Hc.
  by rewrite Hc, IH.
Qed.

Lemma split_at_sep (sep : ascii) (t rest : string) :
  allOf (λ c, negb (Ascii.eqb c sep)) t = true →
  split sep (t +:+ String sep rest) = t :: split sep rest.
Proof.
  unfold allOf, chars. induction t as [|c t IH].
  - intros _. change ("" +:+ String sep rest) with (String sep rest).
    simpl. by rewrite Ascii.eqb_refl.
  - simpl. intros [Hc Ht]%andb_prop. apply negb_true_iff in Hc.
    by rewrite Hc, IH.
Qed.

(** X5. The credential of an [Authorization] header is the first word
    after ["Bearer "]: what follows a further space is ignored. *)
Theorem bearer_first_word (t rest : string) :
  noSpace t = true →
  bearer (Some ("Bearer " +:+ t)) = Some (VStr t)
  ∧ bearer (Some ("Bearer " +:+ t +:+ " " +:+ rest)) = Some (VStr t).
Proof.
  unfold noSpace. intros Ht. unfold bearer, startsWith.
  assert (Hp : ∀ u, String.prefix "Bearer " ("Bearer" +:+ String " " u) = true)
    by (by intros []).
  split.
  - change ("Bearer " +:+ t) with ("Bearer" +:+ String " " t).
    rewrite Hp, split_at_sep by done. by rewrite split_no_sep.
  - change ("Bearer " +:+ t +:+ " " +:+ rest)
      with ("Bearer" +:+ String " " (t +:+ String " " rest)).
    rewrite Hp, split_at_sep by done. by rewrite split_at_sep.
Qed.

Lemma bearer_first_word_witness :
  bearer (Some "Bearer 3a7f00c4") = Some (VStr "3a7f00c4")
  ∧ bearer (Some "Bearer 3a7f00c4 and more") = Some (VStr "3a7f00c4").
Proof. apply (bearer_first_word "3a7f00c4" "and more"). reflexivity. Defined.

(** ** The whitelist of the payment handler *)

Section Whitelist.
Context `{Platform}.

(** X6. The four whitelist checks of the payment handler never answer:
    a body that [CreatePaymentSchema] accepts passes them, so that every
    400 of the payment route is the failure of the schema, on both
    servers. *)
Theorem payment_400_is_schema_failure (st : State) (req : Request) :
  (∀ paymentData, CreatePaymentSchema (body req) = Some paymentData →
                  whitelist paymentData = None)
  ∧ (status (Fallback.handle CreatePayment st req).2 = 400 →
     payload (Fallback.handle CreatePayment st req).2 = ValidationFailure)
  ∧ (status (Base.handle CreatePayment st req).2 = 400 →
     payload (Base.handle CreatePayment st req).2 = ValidationFailure).
Proof.
  split_and!.
  - intros paymentData. apply whitelist_passes.
  - cbn [Fallback.handle]. unfold Fallback.createPayment.
    destruct (Fallback.authMiddleware _ _) as [user | r] eqn:Hauth.
    2:{ apply Fallback_auth_reject in Hauth. cbn [snd]. congruence. }
    destruct (CreatePaymentSchema _) as [paymentData|] eqn:Hschema; [|done].
    destruct (checkRateLimit _ _ _ _ _) as [limits [|]]; cbn [negb]; [|done].
    rewrite (whitelist_passes _ _ Hschema).
    by destruct (insertOne _ _ _ _) as [[d' v]|].
  - cbn [Base.handle]. unfold Base.createPayment.
    destruct (Base.authMiddleware _ _) as [user | r] eqn:Hauth.
    2:{ apply Base_auth_reject in Hauth. cbn [snd]. congruence. }
    destruct (CreatePaymentSchema _) as [paymentData|] eqn:Hschema; [|done].
    destruct (checkRateLimit _ _ _ _ _) as [limits [|]]; cbn [negb]; [|done].
    rewrite (whitelist_passes _ _ Hschema).
    by destruct (insertOne _ _ _ _) as [[d' v]|].
Qed.

End Whitelist.

Lemma payment_400_is_schema_failure_witness :
  whitelist (default ∅ (CreatePaymentSchema paymentBody)) = None
  ∧ payload (Fallback.handle CreatePayment fallbackLoggedIn
               (withBearer tokenA "" (atClock 1700000000123 blank))).2
    = ValidationFailure.
Proof.
  split.
  - refine (proj1 (payment_400_is_schema_failure fallbackLoggedIn payRequest) _ _).
    vm_compute. reflexivity.
  - refine (proj1 (proj2 (payment_400_is_schema_failure fallbackLoggedIn
                            (withBearer tokenA "" (atClock 1700000000123 blank)))) _).
    vm_compute. reflexivity.
Defined.

(** ** The period of the reference numbers *)

Lemma digit_period (n k : N) (p q : N) :
  (p * q = 100000)%N →
  (((n + k * 1000000) / p) mod 10 = (n / p) mod 10)%N.
Proof.
  intros Hpq. assert (p ≠ 0)%N by lia.
  replace (k * 1000000)%N with (k * q * 10 * p)%N.
  2: { replace (k * q * 10 * p)%N with (k * 10 * (p * q))%N by lia. rewrite Hpq. lia. }
  rewrite N.div_add by done. by rewrite N.Div0.mod_add.
Qed.

Lemma sixDigits_period (n k : N) : sixDigits (n + k * 1000000) = sixDigits n.
Proof.
  unfold sixDigits.
  rewrite (digit_period n k 100000 1), (digit_period n k 10000 10),
    (digit_period n k 1000 100), (digit_period n k 100 1000),
    (digit_period n k 10 10000) by done.
  replace ((n + k * 1000000) mod 10)%N with (n mod 10)%N; [done|].
  replace (k * 1000000)%N with (k * 100000 * 10)%N by lia.
  by rewrite N.Div0.mod_add.
Qed.

(** X7. The reference number keeps the last six digits of the clock
    only: with the same random draw, two clock readings that are a
    multiple of 1000 seconds apart give the same reference number. *)
Theorem generateReferenceNumber_period (now k : Z) (random36 : string) :
  100000 <= now → 0 <= k →
  generateReferenceNumber (now + k * 1000000) random36
  = generateReferenceNumber now random36.
Proof.
  intros Hnow Hk. unfold generateReferenceNumber.
  rewrite !sliceLast_timestamp by lia.
  replace (Z.to_N (now + k * 1000000)) with (Z.to_N now + Z.to_N k * 1000000)%N by lia.
  by rewrite sixDigits_period.
Qed.

Lemma generateReferenceNumber_period_witness :
  generateReferenceNumber (1700000000123 + 3 * 1000000) "0.k3x9q2m7"
  = generateReferenceNumber 1700000000123 "0.k3x9q2m7".
Proof. apply generateReferenceNumber_period; lia. Defined.

(** ** Strict binding of a session *)

Lemma clientIP_nonempty (req : Request) : String.eqb (clientIP req) "" = false.
Proof.
  unfold clientIP, addressOr.
  destruct (req_ip req) as [ip|]; [destruct (String.eqb ip "") eqn:Hip; [|done]|];
    (destruct (remoteAddress req) as [a|]; [destruct (String.eqb a "") eqn:Ha|]; done).
Qed.

Section Binding.
Context `{Platform}.

(** X8. With [SESSION_STRICT_BINDING] a session that login created is
    accepted from a request exactly when the address recorded at login
    is the address of the request, and the user agent recorded at
    login is empty or the user agent of the request. *)
Theorem strict_binding_of_login_session (user : doc) (tok : string)
    (reqL req : Request) :
  Fallback.bindingMismatch (sessionRecord user tok reqL) req = None
  ↔ SESSION_STRICT_BINDING = false
    ∨ (clientIP reqL = Fallback.incomingIP req
       ∧ (userAgent reqL = "" ∨ userAgent reqL = userAgent req)).
Proof.
  unfold Fallback.bindingMismatch.
  replace (get (sessionRecord user tok reqL) "ip_address")
    with (VStr (clientIP reqL)) by (by vm_compute).
  replace (get (sessionRecord user tok reqL) "user_agent")
    with (VStr (userAgent reqL)) by (by vm_compute).
  cbn [truthy strictEq idString]. rewrite clientIP_nonempty. cbn [negb andb].
  destruct SESSION_STRICT_BINDING; [|by split; [left|]].
  destruct (String.eqb_spec (clientIP reqL) (Fallback.incomingIP req)) as [Hip|Hip];
    cbn [negb].
  - destruct (String.eqb_spec (userAgent reqL) "") as [Hua|Hua]; cbn [negb andb].
    { split; [by right; split; [|left]|done]. }
    destruct (String.eqb_spec (userAgent reqL) (userAgent req)) as [Heq|Hne]; cbn [negb].
    + split; [by right; split; [|right]|done].
    + split; [done|]. intros [?|[_ [?|?]]]; done.
  - split; [done|]. intros [?|[? _]]; done.
Qed.

End Binding.

(** ** Requests that are turned away *)

Section TurnedAway.
Context `{Platform}.

(** X9. A request without a bearer credential to a route behind
    [authMiddleware] is answered 401 "Unauthorized" by both servers, and
    changes neither the store nor the rate-limit counters. *)
Theorem no_bearer_unauthorized (e : Endpoint) (st : State) (req : Request) :
  protected e = true →
  bearer (authorization req) = None →
  Fallback.handle e st req = (st, fail 401 "Unauthorized")
  ∧ Base.handle e st req = (st, fail 401 "Unauthorized").
Proof.
  intros He Hb. split.
  - assert (Fallback.authMiddleware st (sanitizeInput req)
            = Reject (fail 401 "Unauthorized")) as Hauth.
    { unfold Fallback.authMiddleware. cbn [authorization sanitizeInput]. by rewrite Hb. }
    destruct e; try done; cbn [Fallback.handle];
      unfold Fallback.logout, Fallback.profile, Fallback.createPayment,
        Fallback.history, Fallback.getPayment, Fallback.adminTransactions,
        Fallback.verify; by rewrite Hauth.
  - assert (Base.authMiddleware st req = Reject (fail 401 "Unauthorized")) as Hauth.
    { unfold Base.authMiddleware. by rewrite Hb. }
    destruct e; try done; cbn [Base.handle];
      unfold Base.logout, Base.profile, Base.createPayment,
        Base.history, Base.getPayment, Base.adminTransactions,
        Base.verify; by rewrite Hauth.
Qed.

(** X10. A request that is not answered 200 leaves the store as it was,
    on both servers. *)
Theorem failed_request_keeps_store (e : Endpoint) (st : State) (req : Request) :
  (status (Fallback.handle e st req).2 ≠ 200 →
   db (Fallback.handle e st req).1 = db st)
  ∧ (status (Base.handle e st req).2 ≠ 200 →
     db (Base.handle e st req).1 = db st).
Proof.
  split.
  - destruct e; cbn [Fallback.handle];
      unfold Fallback.register, Fallback.login, Fallback.logout, Fallback.profile,
        Fallback.createPayment, Fallback.history, Fallback.getPayment,
        Fallback.adminTransactions, Fallback.verify, Fallback.health, json;
      repeat (case_match; try done); done.
  - destruct e; cbn [Base.handle];
      unfold Base.register, Base.login, Base.logout, Base.profile,
        Base.createPayment, Base.history, Base.getPayment,
        Base.adminTransactions, Base.verify, Base.health, json;
      repeat (case_match; try done); done.
Qed.

End TurnedAway.

(** ** The counters of the routes *)

Lemma counting_step (m : gmap string RateEntry) (k : string) (c t now mx w : Z) :
  m !! k = Some {| count := c; resetTime := t |} → now <= t → c + 1 <= mx →
  (checkRateLimit now k mx w m).1 !! k = Some {| count := c + 1; resetTime := t |}.
Proof.
  intros Hm Hnow Hc. rewrite (checkRateLimit_counting m k _ now mx w Hm);
    cbn [count resetTime]; [|lia].
  rewrite bool_decide_eq_true_2 by done. cbn [fst]. by rewrite lookup_insert_eq.
Qed.

Section Counters.
Context `{Platform}.

(** X11. On the server with the fallback store a request changes at most
    the counter of its own action and address (["register:"],
    ["login:"] or ["payments:"], then the client address): every other
    counter is as before. *)
Theorem fallback_counter_of_own_action (e : Endpoint) (st : State) (req : Request)
    (k : string) :
  limiterKey e req ≠ Some k →
  rateLimitMap (Fallback.handle e st req).1 !! k = rateLimitMap st !! k.
Proof.
  intros Hk.
  destruct e; cbn [Fallback.handle limiterKey] in *;
    unfold Fallback.register, Fallback.login, Fallback.logout, Fallback.profile,
      Fallback.createPayment, Fallback.history, Fallback.getPayment,
      Fallback.adminTransactions, Fallback.verify;
    repeat (case_match; try done);
    cbn [fst rateLimitMap withLimits withDb]; try done;
    change (clientIP (sanitizeInput req)) with (clientIP req) in *;
    match goal with
    | Hc : checkRateLimit ?now ?key ?mx ?w ?m = (?l, ?a) |- ?l !! _ = _ =>
        replace l with (checkRateLimit now key mx w m).1 by (by rewrite Hc);
        apply checkRateLimit_other_key; congruence
    end.
Qed.

Lemma Base_login_limits (st : State) (req : Request) :
  is_Some (LoginSchema (body req)) →
  rateLimitMap (Base.handle Login st req).1
  = (checkRateLimit (clock req) (clientIP req) 5 900000 (rateLimitMap st)).1.
Proof.
  intros [b Hb]. cbn [Base.handle]. unfold Base.login. rewrite Hb.
  destruct (checkRateLimit _ _ _ _ _) as [limits allowed].
  repeat (case_match; try done).
Qed.

(** X12. On the base server the three limited routes count on one
    counter per address: after three login requests from an address,
    a registration from this address within the fifteen minutes of the
    login window is answered 429, and changes nothing. *)
Theorem base_counter_shared (st : State) (r1 r2 r3 rR : Request) (ip : string) :
  is_Some (LoginSchema (body r1)) → is_Some (LoginSchema (body r2)) →
  is_Some (LoginSchema (body r3)) → is_Some (RegisterSchema (body rR)) →
  clientIP r1 = ip → clientIP r2 = ip → clientIP r3 = ip → clientIP rR = ip →
  rateLimitMap st !! ip = None →
  clock r1 <= clock r2 → clock r2 <= clock r3 → clock r3 <= clock rR →
  clock rR <= clock r1 + 900000 →
  let st3 := runWith Base.handle st [Call Login r1; Call Login r2; Call Login r3] in
  Base.handle Register st3 rR
  = (st3, fail 429 "Too many registration attempts. Please try again later.").
Proof.
  intros H1 H2 H3 [b HR] Hip1 Hip2 Hip3 HipR Hnone Hc12 Hc23 Hc3R HcR st3.
  assert (rateLimitMap st3 !! ip
          = Some {| count := 3; resetTime := clock r1 + 900000 |}) as Hm.
  { subst st3. cbn [runWith foldl stepWith].
    rewrite Base_login_limits by done. rewrite Hip3.
    apply (counting_step _ _ 2); [|lia|lia].
    rewrite Base_login_limits by done. rewrite Hip2.
    apply (counting_step _ _ 1); [|lia|lia].
    rewrite Base_login_limits by done. rewrite Hip1.
    unfold checkRateLimit. rewrite Hnone. cbn [fst]. by rewrite lookup_insert_eq. }
  cbn [Base.handle]. unfold Base.register. rewrite HR, HipR.
  unfold checkRateLimit. rewrite Hm. cbn [count resetTime].
  rewrite bool_decide_eq_false_2 by lia. rewrite bool_decide_eq_true_2 by lia.
  cbn [negb]. by destruct st3.
Qed.

End Counters.

Lemma no_bearer_unauthorized_witness :
  Fallback.handle CreatePayment fallbackStart blank
  = (fallbackStart, fail 401 "Unauthorized")
  ∧ Base.handle CreatePayment fallbackStart blank
    = (fallbackStart, fail 401 "Unauthorized").
Proof. apply (no_bearer_unauthorized CreatePayment fallbackStart blank); reflexivity. Defined.

Lemma failed_request_keeps_store_witness :
  db (Fallback.handle Register fallbackLoggedIn registerA).1 = db fallbackLoggedIn.
Proof.
  apply (proj1 (failed_request_keeps_store Register fallbackLoggedIn registerA)).
  vm_compute. discriminate.
Defined.

Lemma fallback_counter_of_own_action_witness :
  rateLimitMap (Fallback.handle Login fallbackStart loginA).1 !! "register:203.0.113.4"
  = rateLimitMap fallbackStart !! "register:203.0.113.4".
Proof.
  apply (fallback_counter_of_own_action Login fallbackStart loginA).
  vm_compute. discriminate.
Defined.

Lemma base_counter_shared_witness :
  let st3 := runWith Base.handle baseStart
               [Call Login loginA; Call Login (atClock 1700000060000 loginA);
                Call Login (atClock 1700000120000 loginA)] in
  Base.handle Register st3 (atClock 1700000180000 registerA)
  = (st3, fail 429 "Too many registration attempts. Please try again later.").
Proof.
  refine (base_counter_shared baseStart loginA (atClock 1700000060000 loginA)
            (atClock 1700000120000 loginA) (atClock 1700000180000 registerA)
            "203.0.113.4" _ _ _ _ _ _ _ _ _ _ _ _ _);
    first [ apply (bool_decide_unpack _); vm_compute; exact I
          | vm_compute; reflexivity
          | vm_compute; discriminate ].
Defined.

(** ** Registration and login *)

Lemma emailTaken_moved (d d' : Db) (email : string) :
  Moved d d' → emailTaken d email → emailTaken d' email.
Proof.
  intros [(now & uuid & token & Heff) | (now & ->)] (u & Hu & He).
  - exists u. split; [|done].
    destruct (Effect_users _ _ _ _ _ Heff) as [-> | (x & _ & _ & -> & _)]; [done|].
    apply elem_of_app. by left.
  - exists u. by rewrite ttlSweep_users.
Qed.

Lemma emailTaken_found (d : Db) (email : string) :
  emailTaken d email →
  is_Some (findOne d "users" [("email", QEq (VStr email))]).
Proof.
  intros (u & Hu & He). unfold findOne.
  destruct (list_find_elem_of (λ d0, match_ d0 [("email", QEq (VStr email))] = true)
              (coll d "users") u Hu) as [[i y] Hfind].
  - cbn [match_ matchCond]. rewrite He. cbn [strictEq]. by rewrite String.eqb_refl.
  - rewrite Hfind. by eexists.
Qed.

Lemma RegisterSchema_email `{Platform} (body b : doc) :
  RegisterSchema body = Some b →
  ∃ email, get body "email" = VStr email ∧ get b "email" = VStr email.
Proof.
  unfold RegisterSchema. repeat (case_match; try done). intros [= <-].
  eexists. split; [done|]. by vm_compute.
Qed.

Section Accounts.
Context `{Platform}.

Lemma Fallback_register_taken (st : State) (req : Request) (email : string) :
  get (body req) "email" = VStr email → emailTaken (db st) email →
  status (Fallback.register st req).2 ≠ 200.
Proof.
  intros He Htaken. unfold Fallback.register.
  destruct (RegisterSchema _) as [b|] eqn:Hb; [|done].
  apply RegisterSchema_email in Hb as (email' & He' & Hb).
  rewrite He in He'. injection He' as <-.
  destruct (checkRateLimit _ _ _ _ _) as [limits [|]]; cbn [negb]; [|done].
  cbn [db withLimits]. rewrite Hb.
  by destruct (emailTaken_found _ _ Htaken) as [u ->].
Qed.

Lemma Base_register_taken (st : State) (req : Request) (email : string) :
  get (body req) "email" = VStr email → emailTaken (db st) email →
  status (Base.register st req).2 ≠ 200.
Proof.
  intros He Htaken. unfold Base.register.
  destruct (RegisterSchema _) as [b|] eqn:Hb; [|done].
  apply RegisterSchema_email in Hb as (email' & He' & Hb).
  rewrite He in He'. injection He' as <-.
  destruct (checkRateLimit _ _ _ _ _) as [limits [|]]; cbn [negb]; [|done].
  cbn [db withLimits]. rewrite Hb.
  by destruct (emailTaken_found _ _ Htaken) as [u ->].
Qed.

Lemma Fallback_register_takes (st : State) (req : Request) :
  status (Fallback.register st req).2 = 200 →
  ∃ email, get (body req) "email" = VStr email
           ∧ emailTaken (db (Fallback.register st req).1) email.
Proof.
  unfold Fallback.register.
  destruct (RegisterSchema _) as [b|] eqn:Hb; [|done].
  apply RegisterSchema_email in Hb as (email & He & Hb).
  destruct (checkRateLimit _ _ _ _ _) as [limits [|]]; cbn [negb]; [|done].
  destruct (findOne _ _ _); [done|].
  destruct (insertOne _ _ _ _) as [[d' v]|] eqn:Hins; [|done].
  intros _. exists email. split; [done|].
  apply insertOne_Ok in Hins as (-> & _).
  eexists. cbn [fst db withDb]. rewrite coll_setColl. split.
  - apply elem_of_app. right. by apply list_elem_of_singleton.
  - rewrite Hb. unfold get. rewrite get_stored_ne by done. by vm_compute.
Qed.

Lemma Base_register_takes (st : State) (req : Request) :
  status (Base.register st req).2 = 200 →
  ∃ email, get (body req) "email" = VStr email
           ∧ emailTaken (db (Base.register st req).1) email.
Proof.
  unfold Base.register.
  destruct (RegisterSchema _) as [b|] eqn:Hb; [|done].
  apply RegisterSchema_email in Hb as (email & He & Hb).
  destruct (checkRateLimit _ _ _ _ _) as [limits [|]]; cbn [negb]; [|done].
  destruct (findOne _ _ _); [done|].
  destruct (insertOne _ _ _ _) as [[d' v]|] eqn:Hins; [|done].
  intros _. exists email. split; [done|].
  apply insertOne_Ok in Hins as (-> & _).
  eexists. cbn [fst db withDb]. rewrite coll_setColl. split.
  - apply elem_of_app. right. by apply list_elem_of_singleton.
  - rewrite Hb. unfold get. rewrite get_stored_ne by done. by vm_compute.
Qed.

(** X13. Once a registration was answered 200, no later registration
    that submits the same e-mail address is answered 200, whatever
    requests and session expiries came in between, on both servers. *)
Theorem registered_email_stays_taken (st : State) (req req' : Request)
    (evs : list Event) :
  get (body req') "email" = get (body req) "email" →
  (status (Fallback.handle Register st req).2 = 200 →
   status (Fallback.handle Register
             (runWith Fallback.handle (Fallback.handle Register st req).1 evs)
             req').2 ≠ 200)
  ∧ (status (Base.handle Register st req).2 = 200 →
     status (Base.handle Register
               (runWith Base.handle (Base.handle Register st req).1 evs)
               req').2 ≠ 200).
Proof.
  intros Hsame. split; intros Hok.
  - cbn [Fallback.handle] in *.
    apply Fallback_register_takes in Hok as (email & He & Htaken).
    apply (Fallback_register_taken _ _ email).
    + cbn [body sanitizeInput] in *. rewrite get_sanitizeObject in He |- *.
      by rewrite Hsame.
    + revert Htaken. apply (run_invariant (λ d, emailTaken d email)).
      * apply Fallback_step_moved.
      * intros d d'. apply emailTaken_moved.
  - cbn [Base.handle] in *.
    apply Base_register_takes in Hok as (email & He & Htaken).
    apply (Base_register_taken _ _ email); [congruence|].
    revert Htaken. apply (run_invariant (λ d, emailTaken d email)).
    + apply Base_step_moved.
    + intros d d'. apply emailTaken_moved.
Qed.



End Accounts.

Lemma registered_email_stays_taken_witness :
  status (Fallback.handle Register
            (runWith Fallback.handle (Fallback.handle Register fallbackStart registerA).1
               afterRegistration)
            (atClock 1700000900000 registerA)).2 ≠ 200
  ∧ status (Base.handle Register
              (runWith Base.handle (Base.handle Register baseStart registerA).1
                 afterRegistration)
              (atClock 1700000900000 registerA)).2 ≠ 200.
Proof.
  split.
  - refine (proj1 (registered_email_stays_taken fallbackStart registerA
                     (atClock 1700000900000 registerA) afterRegistration _) _);
      vm_compute; reflexivity.
  - refine (proj2 (registered_email_stays_taken baseStart registerA
                     (atClock 1700000900000 registerA) afterRegistration _) _);
      vm_compute; reflexivity.
Defined.


(** ** The lifetime of a session *)

Lemma findOne_appended (d : Db) (name : string) (c : list doc) (x : doc) (q : query) :
  coll d name = c ++ [x] → (∀ y, y ∈ c → match_ y q = false) →
  findOne d name q = if match_ x q then Some x else None.
Proof.
  intros Hc Hall. unfold findOne. rewrite Hc.
  rewrite list_find_app_r.
  - cbn [list_find]. destruct (match_ x q) eqn:Hx.
    + by rewrite decide_True.
    + rewrite decide_False by congruence. done.
  - apply list_find_None. apply Forall_forall. intros y Hy. by rewrite Hall.
Qed.



Section Lifetime.
Context `{Platform}.



End Lifetime.



(** ** Identifiers that are no ObjectId *)

Section Malformed.
Context `{Platform}.

(** X16. On MongoDB, a transaction identifier that is no ObjectId is
    answered 400 "Invalid transaction ID" by the details route, but 500
    "Failed to verify transaction" by the verification route of staff;
    neither changes anything.  On both servers. *)
Theorem malformed_id_answers (st : State) (req : Request) (principal : doc) :
  ObjectId_new (param_id req) = None →
  truthy (get principal "is_staff") = true →
  (Base.authMiddleware st req = Next principal →
   Base.handle GetPayment st req = (st, fail 400 "Invalid transaction ID")
   ∧ Base.handle Verify st req = (st, fail 500 "Failed to verify transaction"))
  ∧ (backend (db st) = Mongo →
     Fallback.authMiddleware st (sanitizeInput req) = Next principal →
     Fallback.handle GetPayment st req = (st, fail 400 "Invalid transaction ID")
     ∧ Fallback.handle Verify st req = (st, fail 500 "Failed to verify transaction")).
Proof.
  intros Hid Hstaff. split.
  - intros Hauth. cbn [Base.handle]. unfold Base.getPayment, Base.verify.
    rewrite Hauth, Hstaff. unfold ObjectId_isValid. rewrite Hid. cbn [negb].
    rewrite bool_decide_eq_false_2 by (by intros [? ?]). done.
  - intros Hmongo Hauth. cbn [Fallback.handle].
    unfold Fallback.getPayment, Fallback.verify.
    rewrite Hauth, Hstaff, Hmongo. cbn [param_id sanitizeInput].
    unfold ObjectId_isValid. rewrite Hid. cbn [negb].
    rewrite bool_decide_eq_false_2 by (by intros [? ?]). done.
Qed.

End Malformed.

(** ** Logging out with a signed token *)

Section JwtLogout.
Context `{Platform}.

(** X17. A logout that authenticates by a signed token, and not by a
    session, is answered 200 "Logged out successfully" and changes
    nothing: no session is closed. *)
Theorem logout_with_jwt_changes_nothing (st : State) (req : Request)
    (t uid : string) (user : doc) :
  bearer (authorization req) = Some (VStr t) →
  findOne (db st) "user_sessions" (sessionQuery (VStr t) (clock req)) = None →
  jwt_verify t (clock req) = Some (Some uid) → uid ≠ "" →
  Fallback.findUserById (db st) uid = Some user →
  user !! "session_token" = None →
  (∀ s, s ∈ coll (db st) "user_sessions" → get s "session_token" ≠ VUndef) →
  Fallback.handle Logout st req = (st, json (Some "Logged out successfully") None).
Proof.
  intros Hb Hnone Hjwt Huid Huser Hplain Hsessions.
  cbn [Fallback.handle]. unfold Fallback.logout, Fallback.authMiddleware.
  cbn [authorization clock sanitizeInput]. rewrite Hb, Hnone.
  unfold Fallback.jwtPath. rewrite Hjwt.
  destruct (String.eqb_spec uid "") as [->|_]; [done|]. rewrite Huser.
  assert (get (Fallback.withStaffFlag user user) "session_token" = VUndef) as ->.
  { unfold Fallback.withStaffFlag, get. rewrite lookup_insert_ne by done.
    by rewrite Hplain. }
  unfold updateOne.
  rewrite (proj2 (list_find_None _ _)); [by destruct st|].
  apply Forall_forall. intros s Hs. cbn [match_ matchCond].
  specialize (Hsessions s Hs). by destruct (get s "session_token").
Qed.

End JwtLogout.

(** ** The staff account of the fallback store *)

Section DemoStaff.
Context `{Platform}.

(** X18. The server that starts on the in-memory store answers a login
    with the e-mail address test12345@gmail.com and the password
    P@ssw0rd! by 200, for a user with the staff flag, provided [bcrypt]
    accepts the password for the hash it made of it. *)
Theorem demo_staff_can_login (now : Z) (salt0 uuid : string) (req : Request) :
  zod_email "test12345@gmail.com" = true →
  bcrypt_compare "P@ssw0rd!" (bcrypt_hash "P@ssw0rd!" salt0) = true →
  body req = obj [ ("email", VStr "test12345@gmail.com");
                   ("password", VStr "P@ssw0rd!") ] →
  let st := {| db := Fallback.connectToDatabase None now salt0 uuid;
               rateLimitMap := ∅ |} in
  status (Fallback.handle Login st req).2 = 200
  ∧ get (loggedIn (Fallback.handle Login st req).2) "is_staff" = VBool true
  ∧ get (loggedIn (Fallback.handle Login st req).2) "email"
    = VStr "test12345@gmail.com".
Proof.
  intros Hzod Hbcrypt Hbody st.
  cbn [Fallback.handle]. unfold Fallback.login.
  assert (LoginSchema (body (sanitizeInput req))
          = Some (obj [ ("email", VStr "test12345@gmail.com");
                        ("password", VStr "P@ssw0rd!") ])) as ->.
  { cbn [body sanitizeInput]. rewrite Hbody. unfold LoginSchema, optionalString.
    replace (get (sanitizeObject _) "email") with (VStr "test12345@gmail.com")
      by (by vm_compute).
    replace (get (sanitizeObject _) "account_number") with VUndef by (by vm_compute).
    replace (get (sanitizeObject _) "password") with (VStr "P@ssw0rd!")
      by (by vm_compute).
    rewrite Hzod. by vm_compute. }
  unfold checkRateLimit. cbn [rateLimitMap st]. rewrite lookup_empty. cbn [negb].
  cbn [db withLimits st Fallback.connectToDatabase].
  set (staff := stored (Fallback.demoStaff (hashPassword "P@ssw0rd!" salt0) now) uuid).
  assert (Fallback.seededInMemoryDb now salt0 uuid
          = setColl createInMemoryDb "users" [staff]) as ->.
  { unfold Fallback.seededInMemoryDb. by vm_compute. }
  assert (get staff "is_active" = VBool true
          ∧ get staff "email" = VStr "test12345@gmail.com"
          ∧ get staff "password_hash" = VStr (bcrypt_hash "P@ssw0rd!" salt0)
          ∧ get staff "is_staff" = VBool true) as (Hactive & Hemail & Hhash & Hstaff).
  { unfold staff, get. rewrite !get_stored_ne by done. split_and!; by vm_compute. }
  replace (loginQuery (obj [ ("email", VStr "test12345@gmail.com");
                             ("password", VStr "P@ssw0rd!") ]))
    with [("is_active", QEq (VBool true));
          ("email", QEq (VStr "test12345@gmail.com"))] by (by vm_compute).
  assert (findOne (setColl createInMemoryDb "users" [staff]) "users"
            [("is_active", QEq (VBool true));
             ("email", QEq (VStr "test12345@gmail.com"))] = Some staff) as ->.
  { unfold findOne. rewrite coll_setColl. cbn [list_find].
    rewrite decide_True; [done|]. cbn [match_ matchCond].
    by rewrite Hactive, Hemail. }
  rewrite Hhash.
  replace (text (get (obj [ ("email", VStr "test12345@gmail.com");
                            ("password", VStr "P@ssw0rd!") ]) "password"))
    with "P@ssw0rd!" by (by vm_compute).
  unfold verifyPassword. rewrite Hbcrypt. cbn [negb].
  unfold insertOne. cbn [backend setColl createInMemoryDb].
  cbn [fst snd status json loggedIn payload].
  split_and!; [done | |]; unfold get, Fallback.loginUser, obj; cbn [list_to_map foldr];
    rewrite ?lookup_insert_ne by done; rewrite lookup_insert_eq; cbn [default id].
  - by rewrite Hstaff.
  - rewrite Hemail. done.
Qed.

End DemoStaff.

Lemma tokenedb_spec (d : Db) :
  tokenedb d = true →
  ∀ s, s ∈ coll d "user_sessions" → get s "session_token" ≠ VUndef.
Proof.
  unfold tokenedb. rewrite forallb_forall. intros Hall s Hs Heq.
  specialize (Hall s (proj1 (list_elem_of_In _ _) Hs)). by rewrite Heq in Hall.
Qed.

Lemma malformed_id_answers_witness :
  (Base.handle GetPayment baseStaffIn (withBearer tokenS "17" (atClock 1700000000400 blank))
   = (baseStaffIn, fail 400 "Invalid transaction ID")
   ∧ Base.handle Verify baseStaffIn (withBearer tokenS "17" (atClock 1700000000400 blank))
     = (baseStaffIn, fail 500 "Failed to verify transaction"))
  ∧ (Fallback.handle GetPayment baseStaffIn
       (withBearer tokenS "17" (atClock 1700000000400 blank))
     = (baseStaffIn, fail 400 "Invalid transaction ID")
     ∧ Fallback.handle Verify baseStaffIn
         (withBearer tokenS "17" (atClock 1700000000400 blank))
       = (baseStaffIn, fail 500 "Failed to verify transaction")).
Proof.
  split.
  - refine (proj1 (malformed_id_answers baseStaffIn
              (withBearer tokenS "17" (atClock 1700000000400 blank))
              (principalOf (Base.authMiddleware baseStaffIn
                 (withBearer tokenS "17" (atClock 1700000000400 blank)))) _ _) _);
      vm_compute; reflexivity.
  - refine (proj2 (malformed_id_answers baseStaffIn
              (withBearer tokenS "17" (atClock 1700000000400 blank))
              (principalOf (Fallback.authMiddleware baseStaffIn
                 (sanitizeInput (withBearer tokenS "17" (atClock 1700000000400 blank)))))
              _ _) _ _);
      vm_compute; reflexivity.
Defined.

Lemma logout_with_jwt_changes_nothing_witness :
  Fallback.handle Logout fallbackLoggedIn (withBearer jwtA "" (atClock 1700000000500 blank))
  = (fallbackLoggedIn, json (Some "Logged out successfully") None).
Proof.
  refine (logout_with_jwt_changes_nothing fallbackLoggedIn
            (withBearer jwtA "" (atClock 1700000000500 blank)) jwtA "user-a"
            (default ∅ (Fallback.findUserById (db fallbackLoggedIn) "user-a"))
            _ _ _ _ _ _ _);
    first [ apply tokenedb_spec; vm_compute; reflexivity
          | vm_compute; reflexivity
          | vm_compute; discriminate ].
Defined.

Lemma demo_staff_can_login_witness :
  status (Fallback.handle Login
            {| db := Fallback.connectToDatabase None 1700000000000 "s" "staff-1";
               rateLimitMap := ∅ |}
            (withBytes tokenBytesS
               (withBody staffCredentials "sess-s" 1700000000300 blank))).2 = 200
  ∧ get (loggedIn (Fallback.handle Login
            {| db := Fallback.connectToDatabase None 1700000000000 "s" "staff-1";
               rateLimitMap := ∅ |}
            (withBytes tokenBytesS
               (withBody staffCredentials "sess-s" 1700000000300 blank))).2) "is_staff"
    = VBool true
  ∧ get (loggedIn (Fallback.handle Login
            {| db := Fallback.connectToDatabase None 1700000000000 "s" "staff-1";
               rateLimitMap := ∅ |}
            (withBytes tokenBytesS
               (withBody staffCredentials "sess-s" 1700000000300 blank))).2) "email"
    = VStr "test12345@gmail.com".
Proof.
  refine (demo_staff_can_login 1700000000000 "s" "staff-1"
            (withBytes tokenBytesS
               (withBody staffCredentials "sess-s" 1700000000300 blank)) _ _ _);
    vm_compute; reflexivity.
Defined.

(** ** The life of a transaction *)

Lemma updateOne_other (d d' : Db) (name name' : string) (q : query) (set : doc) (n : Z) :
  name' ≠ name → updateOne d name q set = Ok (d', n) → coll d' name' = coll d name'.
Proof.
  intros Hne. unfold updateOne.
  destruct (list_find _ _) as [[i old]|]; [|by intros [= <- _]].
  destruct (applySet _ _ _ _ _) as [[d1 new]|] eqn:Hset; [|done].
  intros [= <- _]. apply applySet_Ok in Hset as (-> & _). by rewrite coll_setColl_ne.
Qed.

Lemma insertOne_other (d d' : Db) (name name' : string) (x : doc) (uuid : string)
    (v : value) :
  name' ≠ name → insertOne d name x uuid = Ok (d', v) → coll d' name' = coll d name'.
Proof.
  intros Hne Hins. apply insertOne_Ok in Hins as (-> & _). by rewrite coll_setColl_ne.
Qed.

Lemma allSettled_insert (d d' : Db) (x : doc) (uuid : string) (v : value) :
  settled (stored x uuid) →
  insertOne d "payment_transactions" x uuid = Ok (d', v) →
  allSettled d → allSettled d'.
Proof.
  intros Hx Hins Hall t. apply insertOne_Ok in Hins as (-> & _).
  rewrite coll_setColl. intros [Ht | ->%list_elem_of_singleton]%elem_of_app; auto.
Qed.

Lemma allSettled_verify (d d' : Db) (q : query) (now : Z) (r : option doc) :
  findOneAndUpdate d "payment_transactions" q (verifySet now) = Ok (d', r) →
  allSettled d → allSettled d'.
Proof.
  unfold findOneAndUpdate.
  destruct (list_find _ _) as [[i old]|] eqn:Hfind; [|by intros [= <- _]].
  destruct (applySet _ _ _ _ _) as [[d1 new]|] eqn:Hset; [|done].
  intros [= <- _] Hall t. apply applySet_Ok in Hset as (-> & _).
  rewrite coll_setColl. intros (j & Hj)%list_elem_of_lookup_1.
  apply list_lookup_insert_Some in Hj as [(-> & <- & _) | (_ & Hj)].
  - right.
    rewrite (get_spread_set old (verifySet now) "status" (VStr "completed"))
      by (by vm_compute).
    rewrite (get_spread_set old (verifySet now) "is_processed" (VBool true))
      by (by vm_compute).
    rewrite (get_spread_set old (verifySet now) "processed_at" (VDate now))
      by (by vm_compute).
    eauto.
  - apply Hall. by eapply list_elem_of_lookup_2.
Qed.

Lemma allSettled_same (d d' : Db) :
  coll d' "payment_transactions" = coll d "payment_transactions" →
  allSettled d → allSettled d'.
Proof. intros Heq Hall t. rewrite Heq. apply Hall. Qed.

Lemma transaction_settled (x : doc) (uuid : string) :
  x !! "status" = Some (VStr "pending") →
  x !! "is_processed" = Some (VBool false) →
  x !! "processed_at" = Some VNull →
  settled (stored x uuid).
Proof.
  intros Hs Hp Ha. left. unfold get. rewrite !get_stored_ne by done.
  by rewrite Hs, Hp, Ha.
Qed.

Section Lifecycle.
Context `{Platform}.

Lemma Fallback_keeps_settled (e : Endpoint) (st : State) (req : Request) :
  allSettled (db st) → allSettled (db (Fallback.handle e st req).1).
Proof.
  intros Hall.
  destruct e; cbn [Fallback.handle];
    unfold Fallback.register, Fallback.login, Fallback.logout, Fallback.profile,
      Fallback.createPayment, Fallback.history, Fallback.getPayment,
      Fallback.adminTransactions, Fallback.verify;
    repeat (case_match; try done); cbn [fst db withLimits withDb] in *; try done;
    first [ by eapply allSettled_verify
          | eapply allSettled_insert; [|eassumption|done];
            by apply transaction_settled
          | eapply allSettled_same; [|exact Hall];
            first [ by eapply insertOne_other; [|eassumption]
                  | by eapply updateOne_other; [|eassumption] ] ].
Qed.

Lemma Base_keeps_settled (e : Endpoint) (st : State) (req : Request) :
  allSettled (db st) → allSettled (db (Base.handle e st req).1).
Proof.
  intros Hall.
  destruct e; cbn [Base.handle];
    unfold Base.register, Base.login, Base.logout, Base.profile,
      Base.createPayment, Base.history, Base.getPayment,
      Base.adminTransactions, Base.verify;
    repeat (case_match; try done); cbn [fst db withLimits withDb] in *; try done;
    first [ by eapply allSettled_verify
          | eapply allSettled_insert; [|eassumption|done];
            by apply transaction_settled
          | eapply allSettled_same; [|exact Hall];
            first [ by eapply insertOne_other; [|eassumption]
                  | by eapply updateOne_other; [|eassumption] ] ].
Qed.

(** X19. Every transaction the servers hold is either pending, not
    processed and without a processing date, or completed, processed
    and with a processing date: a store of which this is true stays so
    under any run of requests and session expiries, on both servers. *)
Theorem transactions_stay_settled (st : State) (evs : list Event) :
  allSettled (db st) →
  allSettled (db (runWith Fallback.handle st evs))
  ∧ allSettled (db (runWith Base.handle st evs)).
Proof.
  intros Hall. split; revert st Hall; unfold runWith;
    induction evs as [|[e req | now] evs IH]; intros st Hall; cbn [foldl stepWith];
    try done; apply IH.
  - by apply Fallback_keeps_settled.
  - cbn [db withDb]. eapply allSettled_same; [|exact Hall].
    unfold ttlSweep. destruct (backend (db st)); [done | by rewrite coll_setColl_ne].
  - by apply Base_keeps_settled.
  - cbn [db withDb]. eapply allSettled_same; [|exact Hall].
    unfold ttlSweep. destruct (backend (db st)); [done | by rewrite coll_setColl_ne].
Qed.

End Lifecycle.

Lemma transactions_stay_settled_witness :
  allSettled (db (runWith Fallback.handle fallbackStart
                    [Call Register registerA; Call Login loginA;
                     Call CreatePayment payRequest]))
  ∧ allSettled (db (runWith Base.handle fallbackStart
                      [Call Register registerA; Call Login loginA;
                       Call CreatePayment payRequest])).
Proof.
  apply (transactions_stay_settled fallbackStart).
  intros t Ht.
  assert (coll (db fallbackStart) "payment_transactions" = []) as Hnone
    by (vm_compute; reflexivity).
  rewrite Hnone in Ht. by apply elem_of_nil in Ht.
Defined.

(** ** The script that fills in SWIFT codes *)

Lemma lacksSwift_fixed (t : doc) (now : Z) : lacksSwift (spread t (swiftSet now)) = false.
Proof.
  unfold lacksSwift, spread.
  by rewrite (lookup_union_Some_l (swiftSet now) t "swift_code" (VStr "NWBKGB2L")).
Qed.

Lemma lacksSwift_fillSwift (now : Z) (t : doc) : lacksSwift (fillSwift now t) = false.
Proof.
  unfold fillSwift. destruct (lacksSwift t) eqn:Ht; [apply lacksSwift_fixed | done].
Qed.

Lemma fillSwift_idem (now now' : Z) (t : doc) :
  fillSwift now' (fillSwift now t) = fillSwift now t.
Proof. unfold fillSwift at 1. by rewrite lacksSwift_fillSwift. Qed.

Lemma filled_none_left (now : Z) (l : list doc) :
  List.filter lacksSwift (fillSwift now <$> l) = [].
Proof.
  induction l as [|t l IH]; [reflexivity|].
  rewrite fmap_cons. cbn [List.filter]. by rewrite lacksSwift_fillSwift.
Qed.

(** X20. After the script every transaction has a SWIFT code; the
    transactions that had one are as before, and so are the number and
    the order of all; a second run modifies none and leaves the store
    as the first run left it. *)
Theorem fixTransactionSwift_fills_once (now now' : Z) (d : Db) :
  let d1 := (fixTransactionSwift now d).1 in
  (∀ t, t ∈ coll d1 "payment_transactions" → lacksSwift t = false)
  ∧ (∀ i t, coll d "payment_transactions" !! i = Some t → lacksSwift t = false →
            coll d1 "payment_transactions" !! i = Some t)
  ∧ length (coll d1 "payment_transactions") = length (coll d "payment_transactions")
  ∧ fixTransactionSwift now' d1 = (d1, 0).
Proof.
  cbn zeta. unfold fixTransactionSwift. cbn [fst]. rewrite !coll_setColl.
  split_and!.
  - intros t (t0 & -> & _)%list_elem_of_fmap. apply lacksSwift_fillSwift.
  - intros i t Hi Ht. rewrite list_lookup_fmap, Hi. cbn [fmap option_fmap option_map].
    unfold fillSwift. by rewrite Ht.
  - by rewrite length_fmap.
  - rewrite filled_none_left. cbn [length Z.of_nat]. f_equal.
    rewrite <- list_fmap_compose.
    rewrite (list_fmap_ext (fillSwift now' ∘ fillSwift now) (fillSwift now))
      by (intros; apply fillSwift_idem).
    unfold setColl. cbn [backend collections]. f_equal. by rewrite insert_insert_eq.
Qed.

Section SwiftLost.
Context `{Platform}.

(** X21. A payment that the base server accepted is stored without the
    SWIFT code of the request; once the script has run, the transaction
    carries the code NWBKGB2L, whatever code was submitted, and is
    otherwise as it was but for [updated_at]. *)
Theorem base_payment_swift_replaced (st st' : State) (req : Request) (r : Response)
    (now : Z) :
  Base.handle CreatePayment st req = (st', r) → status r = 200 →
  ∃ t submitted,
    get (body req) "swift_code" = VStr submitted
    ∧ last (coll (db st') "payment_transactions") = Some t
    ∧ t !! "swift_code" = None
    ∧ last (coll (fixTransactionSwift now (db st')).1 "payment_transactions")
      = Some (<["swift_code" := VStr "NWBKGB2L"]> (<["updated_at" := VDate now]> t)).
Proof.
  cbn [Base.handle]. intros Hrun Hok.
  destruct (Base_createPayment_accepted _ _ _ _ Hrun Hok)
    as (user & paymentData & _ & Hschema & Hcoll & _).
  destruct (CreatePaymentSchema_fields _ _ Hschema) as (amount & swift & _ & _ & Hswift & _).
  eexists _, swift. split; [done|].
  rewrite Hcoll, last_snoc. split; [done|].
  destruct (Base_transaction_lookup user paymentData
              (generateReferenceNumber (clock req) (mathRandom36 req))
              (times (get paymentData "amount") feeRate) (clock req) (randomUUID req))
    as (_ & _ & Hnone).
  split; [exact Hnone|].
  unfold fixTransactionSwift. cbn [fst]. rewrite coll_setColl, Hcoll.
  rewrite fmap_app, fmap_cons, fmap_nil, last_snoc.
  unfold fillSwift, lacksSwift. rewrite Hnone.
  unfold spread, swiftSet, obj. cbn [list_to_map foldr].
  rewrite <- !insert_union_l. by rewrite (left_id_L ∅ (∪)).
Qed.

End SwiftLost.

Lemma base_payment_swift_replaced_witness :
  ∃ t submitted,
    get (body payRequest) "swift_code" = VStr submitted
    ∧ last (coll (db basePaid) "payment_transactions") = Some t
    ∧ t !! "swift_code" = None
    ∧ last (coll (fixTransactionSwift 1700000999000 (db basePaid)).1
                 "payment_transactions")
      = Some (<["swift_code" := VStr "NWBKGB2L"]>
                (<["updated_at" := VDate 1700000999000]> t)).
Proof.
  refine (base_payment_swift_replaced baseLoggedIn basePaid payRequest
            (Base.handle CreatePayment baseLoggedIn payRequest).2 1700000999000 _ _);
    vm_compute; reflexivity.
Defined.

(** ** Logging in with what was registered *)

Lemma RegisterSchema_accepts `{Platform} (body b : doc) :
  RegisterSchema body = Some b →
  ∃ email password,
    get body "email" = VStr email ∧ get body "password" = VStr password
    ∧ get b "email" = VStr email ∧ get b "password" = VStr password
    ∧ zod_email email = true ∧ (String.length email <= 254)%nat
    ∧ (8 <= String.length password)%nat.
Proof.
  unfold RegisterSchema. repeat (case_match; try done). intros [= <-].
  repeat match goal with H : _ && _ = true |- _ => apply andb_prop in H as [H ?] end.
  eexists _, _. split_and!; try done; try (by vm_compute);
    by apply Nat.leb_le.
Qed.

Section RoundTrip.
Context `{Platform}.

(** X22. On the in-memory store, a login with the e-mail address and
    the password of a registration that was just answered 200 is
    answered 200 as well, for the user that was registered, who is no
    staff: provided [bcrypt] accepts the password for the hash it made
    of it, [zod] takes no empty address, and the login limiter lets the
    request through. *)
Theorem register_then_login (st st1 : State) (reqR reqL : Request) (r1 : Response)
    (password : string) :
  backend (db st) = InMemory →
  zod_email "" = false →
  Fallback.handle Register st reqR = (st1, r1) → status r1 = 200 →
  get (body reqR) "password" = VStr password →
  bcrypt_compare password (bcrypt_hash password (salt reqR)) = true →
  get (body reqL) "email" = get (body reqR) "email" →
  get (body reqL) "password" = VStr password →
  get (body reqL) "account_number" = VUndef →
  (checkRateLimit (clock reqL) ("login:" +:+ clientIP reqL) 5 900000
                  (rateLimitMap st1)).2 = true →
  status (Fallback.handle Login st1 reqL).2 = 200
  ∧ VStr (idString (get (answered r1) "userId"))
    = get (loggedIn (Fallback.handle Login st1 reqL).2) "id"
  ∧ get (loggedIn (Fallback.handle Login st1 reqL).2) "is_staff" = VBool false.
Proof.
  intros Hmem Hzod Hreg Hok Hpw Hbcrypt Hemail HpwL Hacc Hlimit.
  cbn [Fallback.handle] in *. unfold Fallback.register in Hreg.
  destruct (RegisterSchema _) as [b|] eqn:Hb; [|by simplify_eq].
  apply RegisterSchema_accepts in Hb
    as (email & pw & He & Hp & Hbe & Hbp & Hze & Hlen & Hlen8).
  cbn [body sanitizeInput] in He, Hp. rewrite get_sanitizeObject in He, Hp.
  cbn [String.eqb Ascii.eqb Bool.eqb andb orb] in He, Hp.
  rewrite Hpw in Hp. cbn [sanitizeValue] in Hp. injection Hp as <-.
  destruct (checkRateLimit _ _ _ _ _) as [limits [|]]; cbn [negb] in Hreg;
    [|by simplify_eq].
  destruct (findOne _ _ _) eqn:Hnone; [by simplify_eq|].
  destruct (insertOne _ _ _ _) as [[d1 v]|] eqn:Hins; [|by simplify_eq].
  injection Hreg as <- <-.
  apply insertOne_Ok in Hins as (-> & -> & _).
  rewrite Hbe, Hbp in *. cbn [text db withLimits] in *.
  set (new := stored (Fallback.newUser (VStr email)
                        (hashPassword password (salt (sanitizeInput reqR)))
                        (clock (sanitizeInput reqR)))
                     (randomUUID (sanitizeInput reqR))) in *.
  assert (get new "email" = VStr email ∧ get new "is_active" = VBool true
          ∧ get new "password_hash" = VStr (bcrypt_hash password (salt reqR))
          ∧ get new "is_staff" = VBool false) as (Hne & Hna & Hnh & Hns).
  { unfold new, get. rewrite !get_stored_ne by done. split_and!; by vm_compute. }
  unfold Fallback.login.
  assert (LoginSchema (body (sanitizeInput reqL))
          = Some (<["email" := VStr email]> {[ "password" := VStr password ]})) as ->.
  { unfold LoginSchema, optionalString. cbn [body sanitizeInput].
    rewrite !get_sanitizeObject. cbn [String.eqb Ascii.eqb Bool.eqb andb orb].
    rewrite Hemail, He, Hacc, HpwL. cbn [sanitizeValue].
    rewrite Hze. rewrite (proj2 (Nat.leb_le _ _) Hlen), (proj2 (Nat.leb_le _ _) Hlen8).
    cbn [andb from_option orb setOptional].
    destruct (String.eqb_spec email "") as [->|_]; [congruence | done]. }
  destruct (checkRateLimit _ _ _ _ _) as [limitsL allowed]. cbn [snd] in Hlimit.
  subst allowed. cbn [negb].
  assert (loginQuery (<["email" := VStr email]> {[ "password" := VStr password ]})
          = [("is_active", QEq (VBool true)); ("email", QEq (VStr email))]) as ->.
  { unfold loginQuery.
    replace (get (<["email" := VStr email]> {[ "password" := VStr password ]})
                 "account_number") with VUndef by (by vm_compute).
    replace (get (<["email" := VStr email]> {[ "password" := VStr password ]}) "email")
      with (VStr email) by (by vm_compute).
    cbn [truthy]. by destruct (String.eqb_spec email "") as [->|_]; [congruence|]. }
  cbn [db withLimits withDb].
  rewrite (findOne_appended _ "users" (coll (db st) "users") new);
    [ | by rewrite coll_setColl | ].
  2:{ intros y Hy. cbn [match_ matchCond].
      destruct (strictEq (VBool true) (get y "is_active")); [|done].
      unfold findOne in Hnone. destruct (list_find _ _) as [[i u]|] eqn:Hlf; [done|].
      apply list_find_None in Hlf. rewrite Forall_forall in Hlf.
      specialize (Hlf y Hy). cbn [match_ matchCond] in Hlf.
      by destruct (strictEq (VStr email) (get y "email")). }
  cbn [match_ matchCond]. rewrite Hna, Hne. cbn [strictEq Bool.eqb].
  rewrite String.eqb_refl. rewrite Hnh.
  replace (text (get (<["email" := VStr email]> {[ "password" := VStr password ]})
                     "password")) with password by (by vm_compute).
  unfold verifyPassword. rewrite Hbcrypt. cbn [negb].
  unfold insertOne. cbn [backend setColl]. rewrite Hmem.
  cbn [fst snd status json loggedIn payload answered].
  replace (get (obj [("userId", get new "_id")]) "userId") with (get new "_id")
    by (by vm_compute).
  replace (get (Fallback.loginUser new) "id") with (VStr (idString (get new "_id")))
    by (by vm_compute).
  replace (get (Fallback.loginUser new) "is_staff")
    with (VBool (truthy (get new "is_staff"))) by (by vm_compute).
  by rewrite Hns.
Qed.

End RoundTrip.

Lemma register_then_login_witness :
  status (Fallback.handle Login (Fallback.handle Register fallbackStart registerA).1
            loginA).2 = 200
  ∧ VStr (idString (get (answered (Fallback.handle Register fallbackStart registerA).2)
                        "userId"))
    = get (loggedIn (Fallback.handle Login
                       (Fallback.handle Register fallbackStart registerA).1 loginA).2) "id"
  ∧ get (loggedIn (Fallback.handle Login
                     (Fallback.handle Register fallbackStart registerA).1 loginA).2)
        "is_staff" = VBool false.
Proof.
  refine (register_then_login fallbackStart _ registerA loginA _ "Abc12345!"
            _ _ (surjective_pairing _) _ _ _ _ _ _ _);
    vm_compute; reflexivity.
Defined.

Section FallbackLifetime.
Context `{Platform}.



End FallbackLifetime.


(** ** The payment form and the schema of the server *)

Lemma SFcompare_not_lt (x y : spec_float) :
  SFcompare x x = Some Eq → SFcompare y y = Some Eq →
  SFltb x y = false → SFleb y x = true.
Proof.
  unfold SFltb, SFleb.
  destruct x as [sx|sx| |sx mx ex], y as [sy|sy| |sy my ey]; try done;
    cbn [SFcompare]; intros _ _;
    try (by destruct sx); try (by destruct sy); try (by destruct sx, sy).
  destruct sx, sy; try done.
  - rewrite (Z.compare_antisym ex ey). destruct (ex ?= ey)%Z; cbn [CompOpp]; try done.
    change (PosDef.Pos.compare_cont Eq my mx) with (my ?= mx)%positive.
    change (PosDef.Pos.compare_cont Eq mx my) with (mx ?= my)%positive.
    rewrite (Pos.compare_antisym mx my). by destruct (mx ?= my)%positive.
  - rewrite (Z.compare_antisym ex ey). destruct (ex ?= ey)%Z; cbn [CompOpp]; try done.
    change (PosDef.Pos.compare_cont Eq my mx) with (my ?= mx)%positive.
    change (PosDef.Pos.compare_cont Eq mx my) with (mx ?= my)%positive.
    rewrite (Pos.compare_antisym mx my). by destruct (mx ?= my)%positive.
Qed.

Lemma float_not_lt (x y : float) :
  PrimFloat.is_nan x = false → PrimFloat.is_nan y = false →
  PrimFloat.ltb x y = false → PrimFloat.leb y x = true.
Proof.
  unfold PrimFloat.is_nan. rewrite !FloatAxioms.eqb_spec, FloatAxioms.ltb_spec,
    FloatAxioms.leb_spec.
  intros Hx%negb_false_iff Hy%negb_false_iff. apply SFcompare_not_lt.
  - unfold SFeqb in Hx. by destruct (SFcompare _ _) as [[]|].
  - unfold SFeqb in Hy. by destruct (SFcompare _ _) as [[]|].
Qed.

Lemma setError_empty (field : string) (message : option string)
    (errors : gmap string string) :
  PaymentForm.setError field message errors = ∅ → message = None ∧ errors = ∅.
Proof.
  destruct message as [m|]; cbn [PaymentForm.setError]; [|done].
  intros Hne. by apply insert_non_empty in Hne.
Qed.

Lemma country_offered (c : string) :
  c ∈ PaymentForm.countries →
  lengthBetween 2 56 c = true ∧ atLeast 1 isCountryChar c = true.
Proof.
  intros Hc. apply list_elem_of_In in Hc.
  assert (forallb (λ c, lengthBetween 2 56 c && atLeast 1 isCountryChar c)
                  PaymentForm.countries = true) as Hall by (vm_compute; reflexivity).
  rewrite forallb_forall in Hall. by apply andb_prop, Hall.
Qed.

Lemma currency_offered (c : string) :
  c ∈ PaymentForm.currencies →
  (String.length c =? 3)%nat = true ∧ allOf isUpper c = true.
Proof.
  intros Hc. apply list_elem_of_In in Hc.
  assert (forallb (λ c, (String.length c =? 3)%nat && allOf isUpper c)
                  PaymentForm.currencies = true) as Hall by (vm_compute; reflexivity).
  rewrite forallb_forall in Hall. by apply andb_prop, Hall.
Qed.

Section FormAndSchema.
Context `{Browser}.

(** X24. A form that [validateForm] passes is accepted by
    [CreatePaymentSchema] of the server, as [handleConfirm] submits it,
    when the country and the currency are among those the form offers
    and the lengths the form does not check are in bounds: at most 100
    characters of name, at most 64 of account number, 2 to 100 of bank
    name.  The fee [calculateFee] shows is then the fee the server
    computes from the submitted amount. *)
Theorem form_accepted_by_schema (formData : PaymentForm.FormData) :
  (PaymentForm.validateForm formData).2 = true →
  (String.length (PaymentForm.recipient_name formData) <= 100)%nat →
  (String.length (PaymentForm.recipient_account formData) <= 64)%nat →
  lengthBetween 2 100 (PaymentForm.recipient_bank formData) = true →
  PaymentForm.recipient_country formData ∈ PaymentForm.countries →
  PaymentForm.currency formData ∈ PaymentForm.currencies →
  is_Some (CreatePaymentSchema (PaymentForm.handleConfirm formData))
  ∧ times (get (PaymentForm.handleConfirm formData) "amount") feeRate
    = VNum (PaymentForm.calculateFee formData).
Proof.
  destruct formData as [name account bank country swift amount currency purpose].
  unfold PaymentForm.validateForm. cbn [snd PaymentForm.recipient_name
    PaymentForm.recipient_account PaymentForm.recipient_bank
    PaymentForm.recipient_country PaymentForm.swift_code PaymentForm.amount
    PaymentForm.currency PaymentForm.purpose].
  intros Hok%bool_decide_eq_true_1 Hname Haccount Hbank Hcountry Hcurrency.
  apply setError_empty in Hok as [Hpurpose Hok].
  apply setError_empty in Hok as [Hamount Hok].
  apply setError_empty in Hok as [Hswift Hok].
  apply setError_empty in Hok as [_ Hok].
  apply setError_empty in Hok as [Hb Hok].
  apply setError_empty in Hok as [Ha Hok].
  apply setError_empty in Hok as [Hn _].
  destruct (String.eqb name ""); [done|].
  destruct (String.length name <? 2)%nat eqn:Hn2; [done|].
  destruct (atLeast 1 isNameChar name) eqn:Hnp; [|done].
  destruct (String.eqb account ""); [done|].
  destruct (String.length account <? 8)%nat eqn:Ha8; [done|].
  destruct (atLeast 1 isAccountChar account) eqn:Hap; [|done].
  destruct (String.eqb bank ""); [done|].
  destruct (atLeast 1 isNameChar bank) eqn:Hbp; [|done].
  destruct (String.eqb swift ""); [done|].
  destruct (swiftPattern swift) eqn:Hsp; [|done].
  destruct (String.eqb amount ""); [done|]. cbn zeta in Hamount.
  unfold PaymentForm.calculateFee, PaymentForm.handleConfirm.
  cbn [PaymentForm.recipient_name PaymentForm.recipient_account
    PaymentForm.recipient_bank PaymentForm.recipient_country
    PaymentForm.swift_code PaymentForm.amount PaymentForm.currency
    PaymentForm.purpose].
  generalize dependent (parseFloat amount). intros a Hamount.
  destruct (PrimFloat.is_nan a) eqn:Hnan; [done|].
  destruct (PrimFloat.leb a 0); [done|]. cbn [orb] in Hamount.
  destruct (PrimFloat.ltb a 1) eqn:Hlo; [done|].
  destruct (PrimFloat.ltb 50000 a) eqn:Hhi; [done|].
  apply country_offered in Hcountry as [Hcl Hcp].
  apply currency_offered in Hcurrency as [Hul Hup].
  apply Nat.ltb_ge in Hn2, Ha8.
  assert (lengthBetween 8 11 swift = true) as Hsl.
  { unfold swiftPattern in Hsp. apply andb_prop in Hsp as [[Hsl _]%andb_prop _].
    unfold lengthBetween.
    apply orb_prop in Hsl as [->%Nat.eqb_eq | ->%Nat.eqb_eq]; done. }
  assert (lengthBetween 2 100 name = true) as Hnl.
  { unfold lengthBetween. apply andb_true_intro. split; by apply Nat.leb_le. }
  assert (lengthBetween 8 64 account = true) as Hal.
  { unfold lengthBetween. apply andb_true_intro. split; by apply Nat.leb_le. }
  pose proof (float_not_lt a 1 Hnan eq_refl Hlo) as Hge.
  pose proof (float_not_lt 50000 a eq_refl Hnan Hhi) as Hle.
  split.
  - unfold CreatePaymentSchema, optionalString.
    destruct (String.eqb purpose "") eqn:Hpe; cbn [negb andb] in Hpurpose.
    + repeat match goal with
        | |- context [get ?m ?k] =>
            let v := eval vm_compute in (get m k) in change (get m k) with v
        end.
      cbv beta iota.
      rewrite Hnl, Hnp, Hal, Hap, Hbank, Hbp, Hcl, Hcp, Hsl, Hsp, Hge, Hle, Hul, Hup.
      by eexists.
    + destruct (200 <? String.length purpose)%nat eqn:Hpl; [done|].
      destruct (atLeast 1 isPurposeChar purpose) eqn:Hpp; [|done].
      apply Nat.ltb_ge in Hpl.
      repeat match goal with
        | |- context [get ?m ?k] =>
            let v := eval vm_compute in (get m k) in change (get m k) with v
        end.
      cbv beta iota.
      rewrite Hnl, Hnp, Hal, Hap, Hbank, Hbp, Hcl, Hcp, Hsl, Hsp, Hge, Hle, Hul, Hup, Hpp.
      rewrite (proj2 (Nat.leb_le _ _) Hpl). by eexists.
  - by destruct (String.eqb purpose ""); vm_compute.
Qed.

End FormAndSchema.

Lemma form_accepted_by_schema_witness :
  is_Some (CreatePaymentSchema (PaymentForm.handleConfirm demoForm))
  ∧ times (get (PaymentForm.handleConfirm demoForm) "amount") feeRate = VNum 30.
Proof.
  refine (form_accepted_by_schema demoForm _ _ _ _ _ _);
    first [ vm_compute; reflexivity
          | apply Nat.leb_le; vm_compute; reflexivity
          | apply (bool_decide_unpack _); vm_compute; exact I ].
Defined.

(** The bounds are needed: the form passes a bank name of one letter,
    which the schema of the server refuses. *)
Example form_passes_short_bank :
  let formData :=
    {| PaymentForm.recipient_name := "JOHN SMITH";
       PaymentForm.recipient_account := "GB82WEST123";
       PaymentForm.recipient_bank := "X";
       PaymentForm.recipient_country := "United Kingdom";
       PaymentForm.swift_code := "NWBKGB2L";
       PaymentForm.amount := "1500";
       PaymentForm.currency := "USD";
       PaymentForm.purpose := "" |} in
  (PaymentForm.validateForm formData).2 = true
  ∧ CreatePaymentSchema (PaymentForm.handleConfirm formData) = None.
Proof. split; vm_compute; reflexivity. Qed.
